(** * SmartDoc task pane: attachment fetch / download components

    A shallow embedding of the three React views of the add-in
    ([TextInsertion.tsx], [AttachmentProcess.tsx] and the consent-gated
    [processEmailData] view) together with the slice of the Office host
    object model and of the browser they use.

    JavaScript strings are sequences of UTF-16 code units, handlers are
    written in a small state-and-exception monad whose state is the log of
    observable effects (queued React setter calls, console output, host
    requests, DOM operations) plus the handler-local array heap, and React
    commits the queued setter calls once the handler has returned. *)

From Stdlib Require Import ZArith NArith String Ascii Bool Lia.
From Stdlib Require Import DecimalString DecimalZ.
From Stdlib Require Import List Permutation.
Import ListNotations.

Set Implicit Arguments.

(** ** JavaScript strings, numbers, errors *)

(** A string is the list of its UTF-16 code units. *)
Definition JSString := list N.

(** String literals of the source text (all of them are ASCII). *)
Definition lit (s : string) : JSString :=
  map N_of_ascii (list_ascii_of_string s).

Inductive JSError :=
| TypeError                       (* property read on [undefined] *)
| InvalidCharacterError           (* DOMException raised by [atob] *)
| HostError (code : JSString).    (* raised or reported by the mail host *)

(** Completion of a JavaScript evaluation: a value, or a thrown error. *)
Inductive Completion (A : Type) :=
| Normal (a : A)
| Throw (e : JSError).
Arguments Normal {A} a.
Arguments Throw {A} e.

Definition is_normal {A} (c : Completion A) : bool :=
  match c with Normal _ => true | Throw _ => false end.

(** The only numbers the components handle are the time value of a [Date]:
    an integral number of milliseconds (at most 8.64e15 in magnitude), or
    [NaN] for an invalid date. *)
Inductive Number :=
| Int (z : Z)
| NaN.

Inductive Date :=
| ValidDate (ms : Z)
| InvalidDate.

Definition getTime (d : Date) : Number :=
  match d with
  | ValidDate ms => Int ms
  | InvalidDate => NaN
  end.

(** [Number.prototype.toString] on the integers a time value can take:
    plain decimal digits, a leading minus sign for negative values. *)
Definition Number_toString (n : Number) : JSString :=
  match n with
  | Int z => lit (NilZero.string_of_int (Z.to_int z))
  | NaN => lit "NaN"
  end.

(** ** The Office host object model (the part the components read) *)

Module Office.

Record EmailAddressDetails := { emailAddress : JSString }.

Record AttachmentDetails := {
  id : JSString;
  name : JSString;
  contentType : JSString
}.

(** [Office.MailboxEnums.AttachmentContentFormat] *)
Inductive AttachmentContentFormat := Base64 | Url | Eml | ICalendar.

Definition format_eqb (a b : AttachmentContentFormat) : bool :=
  match a, b with
  | Base64, Base64 | Url, Url | Eml, Eml | ICalendar, ICalendar => true
  | _, _ => false
  end.

Record AttachmentContent := {
  content : JSString;
  format : AttachmentContentFormat
}.

(** [Office.AsyncResult<AttachmentContent>]: [status] together with the
    member that is defined for that status ([value] or [error]). *)
Inductive AsyncResult :=
| Succeeded (value : AttachmentContent)
| Failed (error : JSError).

(** [Office.context.mailbox.item].  [attachments] is the completion of
    evaluating [item.attachments.forEach]: the array to enumerate, or the
    error the host raises when the list cannot be enumerated. *)
Record Item := {
  sender : EmailAddressDetails;
  to : list EmailAddressDetails;
  subject : JSString;
  conversationId : JSString;
  itemId : JSString;
  dateTimeCreated : Date;
  attachments : Completion (list AttachmentDetails)
}.

End Office.

(** ** Component data *)

(** [interface Attachment { id: string; name: string; }] *)
Record Attachment := { id : JSString; name : JSString }.

(** [interface metadata] *)
Record metadata := {
  sender : JSString;
  to : JSString;
  subject : JSString;
  conversationId : JSString;
  itemId : JSString;
  timeStamp : JSString
}.

(** ** Browser objects *)

Inductive BlobPart :=
| StringPart (s : JSString)
| Uint8ArrayPart (bytes : list N).

(** A [Blob]: the parts it was built from and its [type] attribute. *)
Record Blob := { blobParts : list BlobPart; type : JSString }.

Definition ascii_lowercase (c : N) : N :=
  (if (65 <=? c) && (c <=? 90) then c + 32 else c)%N.

(** The [type] attribute the [Blob] constructor derives from the [type]
    option: the empty string if the option has a code unit outside
    U+0020..U+007E, and the option in ASCII lower case otherwise. *)
Definition Blob_type (t : JSString) : JSString :=
  if forallb (fun c => (32 <=? c) && (c <=? 126))%N t
  then map ascii_lowercase t
  else [].

(** [new Blob(blobParts, { type })] *)
Definition new_Blob (blobParts : list BlobPart) (type : JSString) : Blob :=
  {| blobParts := blobParts; type := Blob_type type |}.

(** [window.URL.createObjectURL(blob)] *)
Inductive URL := ObjectURL (b : Blob).

(** An [<a>] element with the two attributes the code assigns. *)
Record Anchor := { href : URL; download : JSString }.

(** ** Effects *)

(** Reference to an array allocated by the running handler. *)
Definition ref := nat.

Inductive Event :=
| SetAttachments (r : ref)
| SetIsAttachmentFetched (b : bool)
| SetIsSubmissionInitiated (b : bool)
| SetIsConsent (b : bool)
| SetMetaData (m : metadata)
| ConsoleError (msg : JSString) (e : JSError)
| AttachmentsForEach
| GetAttachmentContentAsync (attachmentId : JSString)
                            (attachment : Office.AttachmentDetails)
| AppendChild (a : Anchor)
| Click (a : Anchor)
| RemoveChild (a : Anchor)
| UnhandledRejection (e : JSError).

Definition Heap := list (list Attachment).

Record Store := { trace : list Event; heap : Heap }.

Definition empty_store : Store := {| trace := []; heap := [] |}.

Definition deref (h : Heap) (r : ref) : list Attachment := nth r h [].

Fixpoint heap_push (h : Heap) (r : ref) (x : Attachment) : Heap :=
  match h, r with
  | [], _ => []
  | l :: h', O => (l ++ [x]) :: h'
  | l :: h', S r' => l :: heap_push h' r' x
  end.

(** The handler monad. *)
Definition M (A : Type) := Store -> Completion A * Store.

Definition ret {A} (a : A) : M A := fun st => (Normal a, st).

Definition bind {A B} (m : M A) (k : A -> M B) : M B :=
  fun st =>
    match m st with
    | (Normal a, st') => k a st'
    | (Throw e, st') => (Throw e, st')
    end.

Definition throw {A} (e : JSError) : M A := fun st => (Throw e, st).

Definition try_catch {A} (body : M A) (handler : JSError -> M A) : M A :=
  fun st =>
    match body st with
    | (Normal a, st') => (Normal a, st')
    | (Throw e, st') => handler e st'
    end.

Declare Scope js_scope.
Delimit Scope js_scope with js.
Notation "x <- m ;; k" := (bind m (fun x => k))
  (at level 61, m at next level, right associativity) : js_scope.
Notation "m ;; k" := (bind m (fun _ => k))
  (at level 61, right associativity) : js_scope.
Open Scope js_scope.

Definition emit (e : Event) : M unit :=
  fun st => (Normal tt, {| trace := trace st ++ [e]; heap := heap st |}).

(** [const names = []] *)
Definition new_Array : M ref :=
  fun st => (Normal (length (heap st)),
             {| trace := trace st; heap := heap st ++ [[]] |}).

(** [names.push(x)] *)
Definition push (r : ref) (x : Attachment) : M unit :=
  fun st => (Normal tt,
             {| trace := trace st; heap := heap_push (heap st) r x |}).

(** Lifting the completion of a host read into the monad. *)
Definition eval {A} (c : Completion A) : M A :=
  fun st => (c, st).

(** [Array.prototype.forEach] *)
Fixpoint forEach {A} (l : list A) (f : A -> M unit) : M unit :=
  match l with
  | [] => ret tt
  | x :: l' => f x ;; forEach l' f
  end.

(** Calling an [async] function whose body has no [await]: the body runs
    to completion synchronously, and a throw inside it settles the returned
    promise as rejected instead of reaching the caller. *)
Definition async (body : M unit) : M unit :=
  fun st =>
    match body st with
    | (Normal _, st') => (Normal tt, st')
    | (Throw e, st') =>
        (Normal tt,
         {| trace := trace st' ++ [UnhandledRejection e]; heap := heap st' |})
    end.

Definition setAttachments (r : ref) : M unit := emit (SetAttachments r).
Definition setIsAttachmentFetched (b : bool) : M unit :=
  emit (SetIsAttachmentFetched b).
Definition setIsSubmissionInitiated (b : bool) : M unit :=
  emit (SetIsSubmissionInitiated b).
Definition setIsConsent (b : bool) : M unit := emit (SetIsConsent b).
Definition setMetaData (m : metadata) : M unit := emit (SetMetaData m).
Definition console_error (msg : JSString) (e : JSError) : M unit :=
  emit (ConsoleError msg e).

(** [Office.context.mailbox.item.attachments.forEach(f)] *)
Definition item_attachments_forEach (item : Office.Item)
    (f : Office.AttachmentDetails -> M unit) : M unit :=
  emit AttachmentsForEach ;;
  l <- eval (Office.attachments item) ;;
  forEach l f.

(** Running a handler from a fresh activation. *)
Definition run {A} (m : M A) : Completion A * Store := m empty_store.

(** ** Browser built-ins used by the handlers *)

(** *** [atob]: the forgiving base64 decoder of the HTML standard *)

Definition is_ascii_whitespace (c : N) : bool :=
  ((c =? 9) || (c =? 10) || (c =? 12) || (c =? 13) || (c =? 32))%N.

(** Value of a character of the base64 alphabet. *)
Definition base64_value (c : N) : option N :=
  (if (65 <=? c) && (c <=? 90) then Some (c - 65)
   else if (97 <=? c) && (c <=? 122) then Some (c - 71)
   else if (48 <=? c) && (c <=? 57) then Some (c + 4)
   else if c =? 43 then Some 62
   else if c =? 47 then Some 63
   else None)%N.

(** One or two trailing [=] are dropped when the length is a multiple of 4. *)
Definition strip_padding (l : list N) : list N :=
  if (length l mod 4 =? 0)%nat then
    match rev l with
    | 61%N :: 61%N :: r => rev r
    | 61%N :: r => rev r
    | _ => l
    end
  else l.

Fixpoint sextets (l : list N) : option (list N) :=
  match l with
  | [] => Some []
  | c :: l' =>
      match base64_value c, sextets l' with
      | Some v, Some vs => Some (v :: vs)
      | _, _ => None
      end
  end.

Definition byte_of (n : N) : N := N.land n 255.

(** Four sextets give three bytes; a final group of three gives two bytes
    and a final group of two gives one, the spare low bits being dropped. *)
Fixpoint decode_sextets (l : list N) : list N :=
  match l with
  | a :: b :: c :: d :: rest =>
      let n := N.lor (N.lor (N.shiftl a 18) (N.shiftl b 12))
                     (N.lor (N.shiftl c 6) d) in
      byte_of (N.shiftr n 16) :: byte_of (N.shiftr n 8) :: byte_of n
        :: decode_sextets rest
  | [a; b; c] =>
      let n := N.shiftr (N.lor (N.lor (N.shiftl a 12) (N.shiftl b 6)) c) 2 in
      [byte_of (N.shiftr n 8); byte_of n]
  | [a; b] =>
      let n := N.shiftr (N.lor (N.shiftl a 6) b) 4 in
      [byte_of n]
  | _ => []
  end.

Definition atob (data : JSString) : Completion JSString :=
  let l := strip_padding (filter (fun c => negb (is_ascii_whitespace c)) data) in
  if (length l mod 4 =? 1)%nat then Throw InvalidCharacterError
  else
    match sextets l with
    | Some vs => Normal (decode_sextets vs)
    | None => Throw InvalidCharacterError
    end.

(** *** Base64 text as the mail host produces it

    Content that the host flags [Base64] is the base64 encoding of the
    bytes of the attachment: the standard alphabet, three bytes to four
    characters, [=] padding up to a multiple of four. *)

Definition is_byte (b : N) : Prop := (b < 256)%N.

(** Character of the base64 alphabet for a sextet. *)
Definition base64_char (v : N) : N :=
  (if v <? 26 then 65 + v
   else if v <? 52 then 71 + v
   else if v <? 62 then v - 4
   else if v =? 62 then 43
   else 47)%N.

(** The four sextets of a group of three bytes [a], [b], [c]. *)
Definition sextet1 (a : N) : N := N.shiftr a 2.
Definition sextet2 (a b : N) : N :=
  N.lor (N.shiftl (N.land a 3) 4) (N.shiftr b 4).
Definition sextet3 (b c : N) : N :=
  N.lor (N.shiftl (N.land b 15) 2) (N.shiftr c 6).
Definition sextet4 (c : N) : N := N.land c 63.

(** A last group of one or two bytes is completed with zero bits. *)
Fixpoint base64_sextets (bytes : list N) : list N :=
  match bytes with
  | a :: b :: c :: rest =>
      sextet1 a :: sextet2 a b :: sextet3 b c :: sextet4 c
      :: base64_sextets rest
  | [a; b] => [sextet1 a; sextet2 a b; sextet3 b 0]
  | [a] => [sextet1 a; sextet2 a 0]
  | [] => []
  end.

Definition base64_padding (bytes : list N) : JSString :=
  match (length bytes mod 3)%nat with
  | 0%nat => []
  | 1%nat => [61; 61]%N
  | _ => [61%N]
  end.

Definition base64_encode (bytes : list N) : JSString :=
  map base64_char (base64_sextets bytes) ++ base64_padding bytes.


(** *** Arrays of numbers and [Uint8Array] *)

(** An element of a number array: a number, or [None] for a hole or [NaN]
    (both convert to the byte 0). *)
Definition NumberArray := list (option N).

(** [new Array(n)] *)
Definition new_Array_n (n : nat) : NumberArray := repeat None n.

(** [arr[i] = v]; writing past the end extends the array with holes. *)
Fixpoint array_set (arr : NumberArray) (i : nat) (v : option N) : NumberArray :=
  match arr, i with
  | [], O => [v]
  | [], S i' => None :: array_set [] i' v
  | _ :: arr', O => v :: arr'
  | x :: arr', S i' => x :: array_set arr' i' v
  end.

(** [s.charCodeAt(i)], [NaN] past the end. *)
Definition charCodeAt (s : JSString) (i : nat) : option N := nth_error s i.

(** [for (let i = ...; i < byteCharacters.length; i++)
       byteNumbers[i] = byteCharacters.charCodeAt(i);]
    with [fuel] bounding the number of iterations. *)
Fixpoint charCodes_loop (fuel : nat) (i : nat) (byteCharacters : JSString)
    (byteNumbers : NumberArray) : NumberArray :=
  match fuel with
  | O => byteNumbers
  | S fuel' =>
      if (i <? length byteCharacters)%nat then
        charCodes_loop fuel' (S i) byteCharacters
          (array_set byteNumbers i (charCodeAt byteCharacters i))
      else byteNumbers
  end.

(** [new Uint8Array(arr)]: each element is reduced modulo 256. *)
Definition Uint8Array (arr : NumberArray) : list N :=
  map (fun v => match v with Some n => (n mod 256)%N | None => 0%N end) arr.

(** *** [JSON.stringify] on a [metadata] record or [null] *)

Definition hex_digit (n : N) : N :=
  (if n <? 10 then 48 + n else 87 + n)%N.

(** [\uXXXX] with lower-case hexadecimal digits. *)
Definition unicode_escape (c : N) : JSString :=
  [92; 117;
   hex_digit (N.land (N.shiftr c 12) 15); hex_digit (N.land (N.shiftr c 8) 15);
   hex_digit (N.land (N.shiftr c 4) 15); hex_digit (N.land c 15)]%N.

Definition is_high_surrogate (c : N) : bool :=
  ((55296 <=? c) && (c <=? 56319))%N.
Definition is_low_surrogate (c : N) : bool :=
  ((56320 <=? c) && (c <=? 57343))%N.

(** Escape of one code unit that is not part of a surrogate pair. *)
Definition escape_unit (c : N) : JSString :=
  (if c =? 8 then [92; 98]
   else if c =? 9 then [92; 116]
   else if c =? 10 then [92; 110]
   else if c =? 12 then [92; 102]
   else if c =? 13 then [92; 114]
   else if c =? 34 then [92; 34]
   else if c =? 92 then [92; 92]
   else if (c <? 32) || is_high_surrogate c || is_low_surrogate c
        then unicode_escape c
   else [c])%N.

Fixpoint quote_units (l : JSString) : JSString :=
  match l with
  | [] => []
  | c :: rest =>
      match rest with
      | d :: rest' =>
          if is_high_surrogate c && is_low_surrogate d
          then c :: d :: quote_units rest'
          else escape_unit c ++ quote_units rest
      | [] => escape_unit c
      end
  end.

(** [QuoteJSONString] *)
Definition QuoteJSONString (s : JSString) : JSString :=
  [34%N] ++ quote_units s ++ [34%N].

Definition JSON_member (key : string) (value : JSString) : JSString :=
  QuoteJSONString (lit key) ++ lit ":" ++ QuoteJSONString value.

(** [JSON.stringify(metaData)]: the own properties in creation order. *)
Definition JSON_stringify (metaData : option metadata) : JSString :=
  match metaData with
  | None => lit "null"
  | Some m =>
      lit "{" ++ JSON_member "sender" (sender m)
      ++ lit "," ++ JSON_member "to" (to m)
      ++ lit "," ++ JSON_member "subject" (subject m)
      ++ lit "," ++ JSON_member "conversationId" (conversationId m)
      ++ lit "," ++ JSON_member "itemId" (itemId m)
      ++ lit "," ++ JSON_member "timeStamp" (timeStamp m)
      ++ lit "}"
  end.

(** ** Code shared verbatim by the three views *)

(** The blob of a delivered attachment (the [const content ... blob = ...]
    block of the content callback, identical in the three files). *)
Definition attachmentBlob (attachment : Office.AttachmentDetails)
    (value : Office.AttachmentContent) : M Blob :=
  let content := Office.content value in
  let contentType :=
    if Office.format_eqb (Office.format value) Office.Base64
    then lit "application/octet-stream"
    else Office.contentType attachment in
  if Office.format_eqb (Office.format value) Office.Base64 then
    byteCharacters <- eval (atob content) ;;
    let byteNumbers :=
      charCodes_loop (length byteCharacters) 0 byteCharacters
        (new_Array_n (length byteCharacters)) in
    let byteArray := Uint8Array byteNumbers in
    ret (new_Blob [Uint8ArrayPart byteArray] contentType)
  else
    ret (new_Blob [StringPart content] contentType).

(** The synthetic download: an anchor on the object URL of [blob] is
    appended to the body, clicked and removed. *)
Definition anchorDownload (blob : Blob) (fileName : JSString) : M unit :=
  let url := ObjectURL blob in
  let a := {| href := url; download := fileName |} in
  emit (AppendChild a) ;;
  emit (Click a) ;;
  emit (RemoveChild a).

(** ** Rendered output *)

Inductive Handler :=
| onFetchAttachments
| onDownloadAttachments
| onGetMetadata.

Inductive Element :=
| Field (color : option JSString) (text : JSString)
| Button (disabled : bool) (onClick : Handler) (label : JSString)
| ConsentCheckbox (label : JSString)
| Text (t : JSString)
| Strong (t : JSString)
| Span (label : JSString) (value : option JSString)
| H4 (t : JSString)
| Ul (items : list (JSString * JSString)).

Definition noAttachmentsMessage : Element :=
  Field (Some (lit "red")) (lit "No attachments found in this email").

Definition successBanner : Element :=
  Field (Some (lit "green"))
    (lit "Successfully forwarded MetaData along with attachments to SmartDoc Assist for further processing.").

(** [a && [els]] in JSX *)
Definition when (b : bool) (els : list Element) : list Element :=
  if b then els else [].

(** [isAttachmentFetched != null && attachments.length === 0
     && isAttachmentFetched == false] *)
Definition showNoAttachments (attachments : list Attachment)
    (isAttachmentFetched : option bool) : bool :=
  match isAttachmentFetched with
  | None => false
  | Some b => (length attachments =? 0)%nat && negb b
  end.

Definition attachmentItems (attachments : list Attachment)
  : list (JSString * JSString) :=
  map (fun attachment => (id attachment, name attachment)) attachments.

(** ** [TextInsertion.tsx] *)

Module TextInsertion.

Record State := {
  attachments : list Attachment;
  isAttachmentFetched : option bool
}.

Definition initial : State :=
  {| attachments := []; isAttachmentFetched := None |}.

Definition fetchAttachments (item : Office.Item) (s : State) : M unit :=
  try_catch
    (names <- new_Array ;;
     item_attachments_forEach item (fun attachment =>
       async (push names {| id := Office.id attachment;
                            name := Office.name attachment |} ;;
              setAttachments names)) ;;
     setIsAttachmentFetched (0 <? length (attachments s))%nat)
    (fun error =>
       setIsAttachmentFetched false ;;
       console_error (lit "Error fetching attachments:") error).

(** The callback handed to [getAttachmentContentAsync]. *)
Definition contentCallback (attachment : Office.AttachmentDetails)
    (result : Office.AsyncResult) : M unit :=
  match result with
  | Office.Succeeded value =>
      blob <- attachmentBlob attachment value ;;
      anchorDownload blob (Office.name attachment)
  | Office.Failed error =>
      console_error (lit "Error fetching attachment content") error
  end.

Definition downloadAttachments (item : Office.Item) (s : State) : M unit :=
  try_catch
    (item_attachments_forEach item (fun attachment =>
       async (let attachmentId := Office.id attachment in
              emit (GetAttachmentContentAsync attachmentId attachment))))
    (fun error => console_error (lit "Error fetching attachments") error).

Definition apply_event (h : Heap) (s : State) (e : Event) : State :=
  match e with
  | SetAttachments r =>
      {| attachments := deref h r;
         isAttachmentFetched := isAttachmentFetched s |}
  | SetIsAttachmentFetched b =>
      {| attachments := attachments s; isAttachmentFetched := Some b |}
  | _ => s
  end.

(** React applies the queued setter calls in order; an array passed to a
    setter is the array object itself, read when the update is applied. *)
Definition commit (s : State) (st : Store) : State :=
  fold_left (apply_event (heap st)) (trace st) s.

(** State after a handler or callback has run in state [s]. *)
Definition after (s : State) (m : M unit) : State :=
  commit s (snd (run m)).

Definition render (s : State) : list Element :=
  [ Field None
      (lit "Please click below " ++ [34%N] ++ lit "fetch Attachment"
       ++ [34%N] ++ lit " button to extract attachments from Email");
    Button (0 <? length (attachments s))%nat onFetchAttachments
      (lit "Fetch Attachments") ]
  ++ when (showNoAttachments (attachments s) (isAttachmentFetched s))
       [ noAttachmentsMessage ]
  ++ when (0 <? length (attachments s))%nat
       [ H4 (lit "List of Attachments:");
         Ul (attachmentItems (attachments s));
         Field None
           (lit "Submit above attachments to SmartDoc Assistant for Automated Email Scanning and Processing");
         Button false onDownloadAttachments (lit "Submit") ].

End TextInsertion.

(** [recipients[0].emailAddress]: a [TypeError] when the list is empty. *)
Definition first_emailAddress (recipients : list Office.EmailAddressDetails)
  : Completion JSString :=
  match nth_error recipients 0 with
  | Some r => Normal (Office.emailAddress r)
  | None => Throw TypeError
  end.

(** [String.prototype.toString] *)
Definition toString (s : JSString) : JSString := s.

(** ** [AttachmentProcess.tsx] *)

Module AttachmentProcess.

Record State := {
  attachments : list Attachment;
  isAttachmentFetched : option bool;
  isSubmissionInitiated : bool
}.

Definition initial : State :=
  {| attachments := []; isAttachmentFetched := None;
     isSubmissionInitiated := false |}.

Definition fetchAttachments (item : Office.Item) (s : State) : M unit :=
  try_catch
    (names <- new_Array ;;
     item_attachments_forEach item (fun attachment =>
       async (push names {| id := Office.id attachment;
                            name := Office.name attachment |} ;;
              setAttachments names)) ;;
     setIsAttachmentFetched (0 <? length (attachments s))%nat)
    (fun error =>
       setIsAttachmentFetched false ;;
       console_error (lit "Error fetching attachments:") error).

Definition contentCallback (attachment : Office.AttachmentDetails)
    (result : Office.AsyncResult) : M unit :=
  match result with
  | Office.Succeeded value =>
      blob <- attachmentBlob attachment value ;;
      anchorDownload blob (Office.name attachment) ;;
      setIsSubmissionInitiated true
  | Office.Failed error =>
      setIsSubmissionInitiated false ;;
      console_error (lit "Error fetching attachment content") error
  end.

Definition downloadAttachments (item : Office.Item) (s : State) : M unit :=
  try_catch
    (item_attachments_forEach item (fun attachment =>
       async (let attachmentId := Office.id attachment in
              emit (GetAttachmentContentAsync attachmentId attachment))))
    (fun error => console_error (lit "Error fetching attachments") error).

Definition apply_event (h : Heap) (s : State) (e : Event) : State :=
  match e with
  | SetAttachments r =>
      {| attachments := deref h r;
         isAttachmentFetched := isAttachmentFetched s;
         isSubmissionInitiated := isSubmissionInitiated s |}
  | SetIsAttachmentFetched b =>
      {| attachments := attachments s;
         isAttachmentFetched := Some b;
         isSubmissionInitiated := isSubmissionInitiated s |}
  | SetIsSubmissionInitiated b =>
      {| attachments := attachments s;
         isAttachmentFetched := isAttachmentFetched s;
         isSubmissionInitiated := b |}
  | _ => s
  end.

Definition commit (s : State) (st : Store) : State :=
  fold_left (apply_event (heap st)) (trace st) s.

Definition after (s : State) (m : M unit) : State :=
  commit s (snd (run m)).

(** The metadata block reads the host item while rendering. *)
Definition metaDataPanel (item : Office.Item) (s : State)
  : Completion (list Element) :=
  match first_emailAddress (Office.to item) with
  | Throw e => Throw e
  | Normal to0 =>
      Normal
        [ Strong (lit "MetaData:");
          Span (lit "Sender:")
            (Some (Office.emailAddress (Office.sender item)));
          Span (lit "To:") (Some to0);
          Span (lit "Subject:") (Some (Office.subject item));
          Span (lit "ConversationId:") (Some (Office.conversationId item));
          Span (lit "ItemId:") (Some (Office.itemId item));
          Span (lit "Received TimeStamp:")
            (Some (Number_toString (getTime (Office.dateTimeCreated item))));
          H4 (lit "Attachments:");
          Ul (attachmentItems (attachments s));
          Field None
            (lit "Submit above Details to SmartDoc Assist for Automated Email Scanning and Processing");
          Button false onDownloadAttachments (lit "Submit") ]
  end.

(** [attachments.length > 0 && !isSubmissionInitiated] *)
Definition showMetaData (s : State) : bool :=
  (0 <? length (attachments s))%nat && negb (isSubmissionInitiated s).

Definition render (item : Office.Item) (s : State)
  : Completion (list Element) :=
  match (if showMetaData s then metaDataPanel item s else Normal []) with
  | Throw e => Throw e
  | Normal panel =>
      Normal
        (when (length (attachments s) =? 0)%nat
           [ Field None
               (lit "Please provide your consent by clicking below button to extract MetaData from respective email.");
             Button (0 <? length (attachments s))%nat onFetchAttachments
               (lit "Fetch MetaData") ]
         ++ when (showNoAttachments (attachments s) (isAttachmentFetched s))
              [ noAttachmentsMessage ]
         ++ panel
         ++ when (isSubmissionInitiated s) [ successBanner ])
  end.

End AttachmentProcess.

(** ** The consent-gated view ([processEmailData]) *)

Module ProcessEmailData.

Record State := {
  attachments : list Attachment;
  isAttachmentFetched : option bool;
  isSubmissionInitiated : bool;
  isConsent : bool;
  metaData : option metadata
}.

Definition initial : State :=
  {| attachments := []; isAttachmentFetched := None;
     isSubmissionInitiated := false; isConsent := false;
     metaData := None |}.

Definition fetchAttachmentMetadata (item : Office.Item) (s : State)
  : M unit :=
  try_catch
    (names <- new_Array ;;
     item_attachments_forEach item (fun attachment =>
       async (push names {| id := Office.id attachment;
                            name := Office.name attachment |} ;;
              setAttachments names)) ;;
     setIsAttachmentFetched (0 <? length (attachments s))%nat)
    (fun error =>
       setIsAttachmentFetched false ;;
       console_error (lit "Error fetching attachments:") error).

Definition getMetadata (item : Office.Item) (s : State) : M unit :=
  let sender_ := toString (Office.emailAddress (Office.sender item)) in
  to0 <- eval (first_emailAddress (Office.to item)) ;;
  setMetaData
    {| sender := sender_;
       to := toString to0;
       subject := toString (Office.subject item);
       conversationId := toString (Office.conversationId item);
       itemId := toString (Office.itemId item);
       timeStamp :=
         Number_toString (getTime (Office.dateTimeCreated item)) |} ;;
  async (fetchAttachmentMetadata item s).

Definition contentCallback (attachment : Office.AttachmentDetails)
    (result : Office.AsyncResult) : M unit :=
  match result with
  | Office.Succeeded value =>
      blob <- attachmentBlob attachment value ;;
      anchorDownload blob (Office.name attachment) ;;
      setIsSubmissionInitiated true
  | Office.Failed error =>
      setIsSubmissionInitiated false ;;
      console_error (lit "Error fetching attachment content") error
  end.

Definition downloadMetaData (metaData : option metadata) : M unit :=
  let jsonString := JSON_stringify metaData in
  let blob := new_Blob [StringPart jsonString] (lit "text/plain") in
  anchorDownload blob (lit "metadata.txt").

Definition downloadAttachments (item : Office.Item) (s : State) : M unit :=
  try_catch
    (item_attachments_forEach item (fun attachment =>
       async (let attachmentId := Office.id attachment in
              emit (GetAttachmentContentAsync attachmentId attachment))) ;;
     downloadMetaData (metaData s))
    (fun error => console_error (lit "Error fetching attachments") error).

(** [onChange] of the consent checkbox. *)
Definition onConsentChange (checked : bool) : M unit :=
  setIsConsent checked.

Definition apply_event (h : Heap) (s : State) (e : Event) : State :=
  match e with
  | SetAttachments r =>
      {| attachments := deref h r;
         isAttachmentFetched := isAttachmentFetched s;
         isSubmissionInitiated := isSubmissionInitiated s;
         isConsent := isConsent s; metaData := metaData s |}
  | SetIsAttachmentFetched b =>
      {| attachments := attachments s;
         isAttachmentFetched := Some b;
         isSubmissionInitiated := isSubmissionInitiated s;
         isConsent := isConsent s; metaData := metaData s |}
  | SetIsSubmissionInitiated b =>
      {| attachments := attachments s;
         isAttachmentFetched := isAttachmentFetched s;
         isSubmissionInitiated := b;
         isConsent := isConsent s; metaData := metaData s |}
  | SetIsConsent b =>
      {| attachments := attachments s;
         isAttachmentFetched := isAttachmentFetched s;
         isSubmissionInitiated := isSubmissionInitiated s;
         isConsent := b; metaData := metaData s |}
  | SetMetaData m =>
      {| attachments := attachments s;
         isAttachmentFetched := isAttachmentFetched s;
         isSubmissionInitiated := isSubmissionInitiated s;
         isConsent := isConsent s; metaData := Some m |}
  | _ => s
  end.

Definition commit (s : State) (st : Store) : State :=
  fold_left (apply_event (heap st)) (trace st) s.

Definition after (s : State) (m : M unit) : State :=
  commit s (snd (run m)).

(** The [Proceed] button: [disabled={!isConsent && attachments.length > 0}] *)
Definition proceedButton (s : State) : Element :=
  Button (negb (isConsent s) && (0 <? length (attachments s))%nat)
    onGetMetadata (lit "Proceed").

(** [attachments.length === 0], the guard of the consent block. *)
Definition showConsent (s : State) : bool :=
  (length (attachments s) =? 0)%nat.

Definition showMetaData (s : State) : bool :=
  (0 <? length (attachments s))%nat && negb (isSubmissionInitiated s).

Definition render (s : State) : list Element :=
  when (showConsent s)
    [ ConsentCheckbox (lit "I consent to extract MetaData from this email.");
      Text (lit "isConsent:");
      proceedButton s ]
  ++ when (showNoAttachments (attachments s) (isAttachmentFetched s))
       [ noAttachmentsMessage ]
  ++ when (showMetaData s)
       [ Strong (lit "MetaData:");
         Span (lit "Sender:") (option_map sender (metaData s));
         Span (lit "To:") (option_map to (metaData s));
         Span (lit "Subject:") (option_map subject (metaData s));
         Span (lit "ConversationId:")
           (option_map conversationId (metaData s));
         Span (lit "ItemId:") (option_map itemId (metaData s));
         Span (lit "Received TimeStamp:")
           (option_map timeStamp (metaData s));
         H4 (lit "Attachments:");
         Ul (attachmentItems (attachments s));
         Field None
           (lit "Submit above Details to SmartDoc Assist for Automated Email Scanning and Processing");
         Button false onDownloadAttachments (lit "Submit") ]
  ++ when (isSubmissionInitiated s) [ successBanner ].

(** A click on a rendered button runs its handler unless the button is
    disabled. *)
Definition click (item : Office.Item) (s : State) (el : Element)
  : option (Completion unit * Store) :=
  match el with
  | Button false onGetMetadata _ => Some (run (getMetadata item s))
  | Button false onDownloadAttachments _ =>
      Some (run (downloadAttachments item s))
  | _ => None
  end.

End ProcessEmailData.

(** ** The three views behind one interface *)

(** What the views have in common: the two state hooks every view
    declares, the fetch and download handlers, the content callback, the
    commit of queued updates and the render function (which may throw).
    [operation item s m] holds when [m] is a handler or callback the view
    can run in state [s]; the guards the rendered buttons put on handlers
    are left out, so the states reached through [operation] include all
    the states the running view can be in. *)
Class View (State : Type) := {
  attachmentsOf : State -> list Attachment;
  isAttachmentFetchedOf : State -> option bool;
  initialOf : State;
  fetchOf : Office.Item -> State -> M unit;
  downloadOf : Office.Item -> State -> M unit;
  callbackOf : Office.AttachmentDetails -> Office.AsyncResult -> M unit;
  commitOf : State -> Store -> State;
  renderOf : Office.Item -> State -> Completion (list Element);
  operation : Office.Item -> State -> M unit -> Prop
}.

#[export] Instance TextInsertion_View : View TextInsertion.State := {
  attachmentsOf := TextInsertion.attachments;
  isAttachmentFetchedOf := TextInsertion.isAttachmentFetched;
  initialOf := TextInsertion.initial;
  fetchOf := TextInsertion.fetchAttachments;
  downloadOf := TextInsertion.downloadAttachments;
  callbackOf := TextInsertion.contentCallback;
  commitOf := TextInsertion.commit;
  renderOf _ s := Normal (TextInsertion.render s);
  operation item s m :=
    m = TextInsertion.fetchAttachments item s
    \/ m = TextInsertion.downloadAttachments item s
    \/ exists attachment result,
         m = TextInsertion.contentCallback attachment result
}.

#[export] Instance AttachmentProcess_View : View AttachmentProcess.State := {
  attachmentsOf := AttachmentProcess.attachments;
  isAttachmentFetchedOf := AttachmentProcess.isAttachmentFetched;
  initialOf := AttachmentProcess.initial;
  fetchOf := AttachmentProcess.fetchAttachments;
  downloadOf := AttachmentProcess.downloadAttachments;
  callbackOf := AttachmentProcess.contentCallback;
  commitOf := AttachmentProcess.commit;
  renderOf := AttachmentProcess.render;
  operation item s m :=
    m = AttachmentProcess.fetchAttachments item s
    \/ m = AttachmentProcess.downloadAttachments item s
    \/ exists attachment result,
         m = AttachmentProcess.contentCallback attachment result
}.

#[export] Instance ProcessEmailData_View : View ProcessEmailData.State := {
  attachmentsOf := ProcessEmailData.attachments;
  isAttachmentFetchedOf := ProcessEmailData.isAttachmentFetched;
  initialOf := ProcessEmailData.initial;
  fetchOf := ProcessEmailData.fetchAttachmentMetadata;
  downloadOf := ProcessEmailData.downloadAttachments;
  callbackOf := ProcessEmailData.contentCallback;
  commitOf := ProcessEmailData.commit;
  renderOf _ s := Normal (ProcessEmailData.render s);
  operation item s m :=
    m = ProcessEmailData.getMetadata item s
    \/ m = ProcessEmailData.fetchAttachmentMetadata item s
    \/ m = ProcessEmailData.downloadAttachments item s
    \/ (exists checked, m = ProcessEmailData.onConsentChange checked)
    \/ exists attachment result,
         m = ProcessEmailData.contentCallback attachment result
}.

Section ViewRuns.
Context {State : Type} {V : View State}.

(** State once the updates queued by [m], run in state [s], are applied. *)
Definition afterOf (s : State) (m : M unit) : State :=
  commitOf s (snd (run m)).

(** One transition of the view on the open mail item. *)
Inductive step (item : Office.Item) : State -> State -> Prop :=
| step_operation s m :
    operation item s m -> step item s (afterOf s m).

Inductive reachable (item : Office.Item) : State -> Prop :=
| reachable_initial : reachable item initialOf
| reachable_step s s' :
    reachable item s -> step item s s' -> reachable item s'.

(** The host completes the pending content requests one at a time, each
    with its own result, in the order [completions]. *)
Definition deliver (s : State)
    (completions : list (Office.AttachmentDetails * Office.AsyncResult))
  : State :=
  fold_left (fun st c => afterOf st (callbackOf (fst c) (snd c)))
    completions s.
End ViewRuns.

(** ** Observations on a trace *)

Definition requests (t : list Event)
  : list (JSString * Office.AttachmentDetails) :=
  flat_map (fun e => match e with
                     | GetAttachmentContentAsync i a => [(i, a)]
                     | _ => []
                     end) t.

Definition clicks (t : list Event) : list Anchor :=
  flat_map (fun e => match e with Click a => [a] | _ => [] end) t.

Definition flagUpdates (t : list Event) : list bool :=
  flat_map (fun e => match e with
                     | SetIsAttachmentFetched b => [b]
                     | _ => []
                     end) t.

Definition submissionUpdates (t : list Event) : list bool :=
  flat_map (fun e => match e with
                     | SetIsSubmissionInitiated b => [b]
                     | _ => []
                     end) t.

Definition metaDataUpdates (t : list Event) : list metadata :=
  flat_map (fun e => match e with SetMetaData m => [m] | _ => [] end) t.

Definition attachmentsUpdates (t : list Event) : list ref :=
  flat_map (fun e => match e with SetAttachments r => [r] | _ => [] end) t.

Definition consoleErrors (t : list Event) : list (JSString * JSError) :=
  flat_map (fun e => match e with
                     | ConsoleError msg err => [(msg, err)]
                     | _ => []
                     end) t.

Definition enumerations (t : list Event) : nat :=
  length (filter (fun e => match e with
                           | AttachmentsForEach => true
                           | _ => false
                           end) t).

(** The descriptor the fetch loop pushes for a host entry. *)
Definition descriptor (attachment : Office.AttachmentDetails) : Attachment :=
  {| id := Office.id attachment; name := Office.name attachment |}.

Definition demoItem : Office.Item :=
  {| Office.sender := {| Office.emailAddress := lit "a@x.org" |};
     Office.to := [ {| Office.emailAddress := lit "b@x.org" |} ];
     Office.subject := lit "Invoice";
     Office.conversationId := lit "conv-1";
     Office.itemId := lit "item-1";
     Office.dateTimeCreated := ValidDate 1700000000123;
     Office.attachments := Normal
       [ {| Office.id := lit "A1"; Office.name := lit "a.pdf";
            Office.contentType := lit "application/pdf" |};
         {| Office.id := lit "A2"; Office.name := lit "b.txt";
            Office.contentType := lit "text/plain" |} ] |}.

(** * Statements

    Auxiliary values and the predicates in which the properties of the
    views are stated. *)

(** ** Stores left by the fetch handlers *)

(** The store a fetch leaves when the host list [atts] can be enumerated
    and the stale test evaluated to [b]. *)
Definition fetched_store (atts : list Office.AttachmentDetails) (b : bool)
  : Store :=
  {| trace := AttachmentsForEach
              :: repeat (SetAttachments 0) (length atts)
              ++ [SetIsAttachmentFetched b];
     heap := [map descriptor atts] |}.

(** The store a fetch leaves when the enumeration throws [e]. *)
Definition failed_store (e : JSError) : Store :=
  {| trace := [AttachmentsForEach; SetIsAttachmentFetched false;
               ConsoleError (lit "Error fetching attachments:") e];
     heap := [[]] |}.

(** ** Attachments committed by a fetch *)

(** What the attachments state becomes when a fetch over [atts] commits. *)
Definition fetched_attachments (old : list Attachment)
    (atts : list Office.AttachmentDetails) : list Attachment :=
  match atts with
  | [] => old
  | _ :: _ => map descriptor atts
  end.

(** ** The fetch flag and the stale attachments state (C1) *)

Section StaleFlag.
Context {State : Type} {V : View State}.

(** The flag update queued by a fetch in state [s] is the test
    [attachments.length > 0] on the attachments of [s], whatever the
    enumeration has just collected. *)
Definition flag_from_stale_state (item : Office.Item)
    (atts : list Office.AttachmentDetails) : Prop :=
  forall s : State,
    flagUpdates (trace (snd (run (fetchOf item s))))
      = [ (0 <? length (attachmentsOf s))%nat ]
    /\ isAttachmentFetchedOf (afterOf s (fetchOf item s))
       = Some (0 <? length (attachmentsOf s))%nat
    /\ attachmentsOf (afterOf s (fetchOf item s))
       = fetched_attachments (attachmentsOf s) atts.

(** First fetch on an item that has attachments: the names are stored,
    and the flag says that nothing was found. *)
Definition first_fetch_reports_none (item : Office.Item)
    (atts : list Office.AttachmentDetails) : Prop :=
  atts <> [] ->
  attachmentsOf (afterOf initialOf (fetchOf item initialOf))
    = map descriptor atts
  /\ attachmentsOf (afterOf initialOf (fetchOf item initialOf)) <> []
  /\ isAttachmentFetchedOf (afterOf initialOf (fetchOf item initialOf))
     = Some false.
End StaleFlag.

(** ** A throwing enumeration during a fetch (C3) *)

Section FetchFailure.
Context {State : Type} {V : View State}.

(** Outcome of a fetch whose enumeration throws [e]: the returned promise
    is fulfilled, the error is logged once, the only state update queued
    is [setIsAttachmentFetched(false)], and the host list is asked for
    exactly once. *)
Definition fetch_failure_handled (item : Office.Item) (e : JSError)
  : Prop :=
  forall s : State,
    let outcome := run (fetchOf item s) in
    let s' := afterOf s (fetchOf item s) in
    fst outcome = Normal tt
    /\ consoleErrors (trace (snd outcome))
       = [ (lit "Error fetching attachments:", e) ]
    /\ flagUpdates (trace (snd outcome)) = [ false ]
    /\ attachmentsUpdates (trace (snd outcome)) = []
    /\ enumerations (trace (snd outcome)) = 1
    /\ attachmentsOf s' = attachmentsOf s
    /\ isAttachmentFetchedOf s' = Some false
    /\ (attachmentsOf s = [] ->
        exists els, renderOf item s' = Normal els
                    /\ In noAttachmentsMessage els).
End FetchFailure.

(** A mail item whose attachment list cannot be enumerated. *)
Definition brokenItem : Office.Item :=
  {| Office.sender := {| Office.emailAddress := lit "a@x.org" |};
     Office.to := [];
     Office.subject := lit "Draft";
     Office.conversationId := lit "conv-2";
     Office.itemId := lit "item-2";
     Office.dateTimeCreated := ValidDate 0;
     Office.attachments := Throw TypeError |}.

(** ** The blob of a delivered attachment (C2) *)

Section DeliveredBlob.
Context {State : Type} {V : View State}.

(** Events of the content callback run on its own. *)
Definition callback_trace (attachment : Office.AttachmentDetails)
    (result : Office.AsyncResult) : list Event :=
  trace (snd (run (callbackOf attachment result))).

Definition blob_built_by_format : Prop :=
  forall (attachment : Office.AttachmentDetails)
         (value : Office.AttachmentContent),
    (Office.format value = Office.Base64 ->
     forall byteCharacters,
       atob (Office.content value) = Normal byteCharacters ->
       Forall (fun c => (c < 256)%N) byteCharacters
       /\ map href (clicks (callback_trace attachment
                              (Office.Succeeded value)))
          = [ ObjectURL
                {| blobParts := [Uint8ArrayPart byteCharacters];
                   type := lit "application/octet-stream" |} ])
    /\ (Office.format value = Office.Base64 ->
        forall e,
          atob (Office.content value) = Throw e ->
          clicks (callback_trace attachment (Office.Succeeded value)) = [])
    /\ (Office.format value <> Office.Base64 ->
        map href (clicks (callback_trace attachment
                            (Office.Succeeded value)))
        = [ ObjectURL
              {| blobParts := [StringPart (Office.content value)];
                 type := Blob_type (Office.contentType attachment) |} ]).
End DeliveredBlob.

(** Strings the [Blob] constructor keeps as they are when given as type:
    code units in U+0020..U+007E, none of them an upper-case letter. *)
Definition lower_case_printable (t : JSString) : bool :=
  forallb (fun c => (32 <=? c) && (c <=? 126)
                    && negb ((65 <=? c) && (c <=? 90)))%N t.

Definition pdfAttachment : Office.AttachmentDetails :=
  {| Office.id := lit "A1"; Office.name := lit "a.pdf";
     Office.contentType := lit "application/pdf" |}.

(** An attachment whose media type is spelled with capitals, as the
    [Content-Type] header of a message may spell it. *)
Definition capitalsAttachment : Office.AttachmentDetails :=
  {| Office.id := lit "A3"; Office.name := lit "c.pdf";
     Office.contentType := lit "Application/PDF" |}.

(** ** Content requests and downloads (C6) *)

(** The entries [forEach] visits: none when the enumeration throws. *)
Definition entries (item : Office.Item) : list Office.AttachmentDetails :=
  match Office.attachments item with
  | Normal atts => atts
  | Throw _ => []
  end.

(** The request events of a download over [atts]. *)
Definition request_events (atts : list Office.AttachmentDetails)
  : list Event :=
  map (fun a => GetAttachmentContentAsync (Office.id a) a) atts.

(** The anchor [downloadMetaData] clicks. *)
Definition metaDataAnchor (metaData : option metadata) : Anchor :=
  {| href := ObjectURL {| blobParts := [StringPart (JSON_stringify metaData)];
                          type := lit "text/plain" |};
     download := lit "metadata.txt" |}.

(** The store a download leaves when the enumeration throws [e]. *)
Definition failed_download_store (e : JSError) : Store :=
  {| trace := [AttachmentsForEach;
               ConsoleError (lit "Error fetching attachments") e];
     heap := [] |}.

(** A delivered content can be turned into a blob: it is not flagged
    [Base64], or [atob] accepts it. *)
Definition decodable (value : Office.AttachmentContent) : bool :=
  if Office.format_eqb (Office.format value) Office.Base64
  then is_normal (atob (Office.content value))
  else true.

(** What the host delivers: content flagged [Base64] is the base64
    encoding of some bytes; content with another format is any string. *)
Definition host_encoded (value : Office.AttachmentContent) : Prop :=
  Office.format value = Office.Base64 ->
  exists bytes,
    Forall is_byte bytes /\ Office.content value = base64_encode bytes.

(** A result the host can pass to a content callback. *)
Definition host_result (result : Office.AsyncResult) : Prop :=
  match result with
  | Office.Succeeded value => host_encoded value
  | Office.Failed _ => True
  end.

(** The first [n] numbers. *)
Definition below (n : nat) : list N := map N.of_nat (seq 0 n).

(** A sextet is encoded by a character that [atob] reads back as that
    sextet, and that is neither white space nor padding. *)
Definition sextet_check (v : N) : bool :=
  match base64_value (base64_char v) with
  | Some w => N.eqb w v
  | None => false
  end
  && negb (is_ascii_whitespace (base64_char v))
  && negb (N.eqb (base64_char v) 61).

Section Downloads.
Context {State : Type} {V : View State}.

(** One [getAttachmentContentAsync] call per entry of the host list, in
    list order, each with the identifier of its entry. *)
Definition one_request_per_entry : Prop :=
  forall (item : Office.Item) (s : State),
    requests (trace (snd (run (downloadOf item s))))
    = map (fun a => (Office.id a, a)) (entries item).

(** A succeeded delivery whose content satisfies [P] clicks exactly one
    anchor, named after the attachment. *)
Definition one_download_per_success
    (P : Office.AttachmentContent -> Prop) : Prop :=
  forall (attachment : Office.AttachmentDetails)
         (value : Office.AttachmentContent),
    P value ->
    exists blob,
      clicks (callback_trace attachment (Office.Succeeded value))
      = [ {| href := ObjectURL blob;
             download := Office.name attachment |} ].

(** A failed delivery clicks nothing. *)
Definition no_download_on_failure : Prop :=
  forall (attachment : Office.AttachmentDetails) (error : JSError),
    clicks (callback_trace attachment (Office.Failed error)) = [].

Definition downloads_spec : Prop :=
  one_request_per_entry
  /\ one_download_per_success (fun value => decodable value = true)
  /\ no_download_on_failure.

(** The same for what the host delivers. *)
Definition downloads_of_host_results : Prop :=
  one_request_per_entry
  /\ one_download_per_success host_encoded
  /\ no_download_on_failure.
End Downloads.

(** ** The submission flag (C9) *)

Definition succeeded (result : Office.AsyncResult) : bool :=
  match result with
  | Office.Succeeded _ => true
  | Office.Failed _ => false
  end.

(** The delivered result can be handled to the end by the callback. *)
Definition result_decodable (result : Office.AsyncResult) : bool :=
  match result with
  | Office.Succeeded value => decodable value
  | Office.Failed _ => true
  end.

Section SubmissionFlag.
Context {State : Type} {V : View State}.
Variable isSubmissionInitiatedOf : State -> bool.

(** What one callback queues for the flag: [true] on success, [false] on
    failure, for the results that satisfy [P]. *)
Definition callback_sets_flag (P : Office.AsyncResult -> Prop) : Prop :=
  forall attachment result,
    P result ->
    submissionUpdates (callback_trace attachment result)
    = [ succeeded result ].

(** After the callbacks have run in the order [cs ++ [(attachment,
    result)]], the flag is the outcome of the last one, for a last result
    that satisfies [P]; the results before it are arbitrary. *)
Definition last_callback_wins (P : Office.AsyncResult -> Prop) : Prop :=
  forall (s : State) cs attachment result,
    P result ->
    isSubmissionInitiatedOf (deliver s (cs ++ [(attachment, result)]))
    = succeeded result.

(** The success banner is rendered exactly when the flag is set. *)
Definition banner_follows_flag : Prop :=
  forall (item : Office.Item) (s : State) els,
    renderOf item s = Normal els ->
    (In successBanner els <-> isSubmissionInitiatedOf s = true).

(** Some run in which a fetch failed ends with the flag set. *)
Definition failed_run_can_show_success : Prop :=
  exists cs,
    Exists (fun c => succeeded (snd c) = false) cs
    /\ isSubmissionInitiatedOf (deliver initialOf cs) = true.

Definition submission_flag_spec : Prop :=
  callback_sets_flag (fun r => result_decodable r = true)
  /\ last_callback_wins (fun r => result_decodable r = true)
  /\ banner_follows_flag
  /\ failed_run_can_show_success.

(** Some run of results the host can deliver in which a fetch failed ends
    with the flag set. *)
Definition failed_host_run_can_show_success : Prop :=
  exists cs,
    Forall (fun c => host_result (snd c)) cs
    /\ Exists (fun c => succeeded (snd c) = false) cs
    /\ isSubmissionInitiatedOf (deliver initialOf cs) = true.

(** The flag under the results the host delivers. *)
Definition submission_flag_of_host_results : Prop :=
  callback_sets_flag host_result
  /\ last_callback_wins host_result
  /\ banner_follows_flag
  /\ failed_host_run_can_show_success.
End SubmissionFlag.

Definition txtAttachment : Office.AttachmentDetails :=
  {| Office.id := lit "A2"; Office.name := lit "b.txt";
     Office.contentType := lit "text/plain" |}.

(** The first fetch fails, the second one succeeds. *)
Definition failThenSucceed
  : list (Office.AttachmentDetails * Office.AsyncResult) :=
  [ (pdfAttachment, Office.Failed (HostError (lit "timeout")));
    (txtAttachment,
     Office.Succeeded {| Office.content := lit "notes";
                         Office.format := Office.Url |}) ].

(** ** The metadata record (C5) *)

(** Decimal numeral denoted by a string, if it is one. *)
Definition parse_decimal (s : JSString) : option Z :=
  option_map Z.of_int
    (NilZero.int_of_string (string_of_list_ascii (map ascii_of_N s))).

(** The record [getMetadata] builds from the open item, [recipient] being
    the first entry of its To list. *)
Definition metadata_of (item : Office.Item)
    (recipient : Office.EmailAddressDetails) : metadata :=
  {| sender := Office.emailAddress (Office.sender item);
     to := Office.emailAddress recipient;
     subject := Office.subject item;
     conversationId := Office.conversationId item;
     itemId := Office.itemId item;
     timeStamp := Number_toString (getTime (Office.dateTimeCreated item)) |}.

(** The trace of the fetch that [getMetadata] starts. *)
Definition fetch_trace (item : Office.Item) (s : ProcessEmailData.State)
  : list Event :=
  match Office.attachments item with
  | Normal atts =>
      trace (fetched_store atts
               (0 <? length (ProcessEmailData.attachments s))%nat)
  | Throw e => trace (failed_store e)
  end.

(** The array heap that fetch leaves. *)
Definition fetch_heap (item : Office.Item) : Heap :=
  match Office.attachments item with
  | Normal atts => [map descriptor atts]
  | Throw _ => [[]]
  end.

(** ** The metadata file (C7) *)

(** The state of the consent-gated view once metadata and names are in. *)
Definition submitState : ProcessEmailData.State :=
  ProcessEmailData.after ProcessEmailData.initial
    (ProcessEmailData.getMetadata demoItem ProcessEmailData.initial).

(** ** Attachment content and the component state (C8) *)

Section ContentNotStored.
Context {State : Type} {V : View State}.

(** An operation leaves the attachments state alone or replaces it by
    the identifier and name of every entry of the host list. *)
Definition attachments_only_from_fetch : Prop :=
  forall (item : Office.Item) (s : State) (m : M unit),
    operation item s m ->
    attachmentsOf (afterOf s m) = attachmentsOf s
    \/ attachmentsOf (afterOf s m) = map descriptor (entries item).

Definition attachments_are_descriptors : Prop :=
  forall (item : Office.Item) (s : State),
    reachable item s ->
    attachmentsOf s = []
    \/ attachmentsOf s = map descriptor (entries item).

(** What a content callback queues: no attachments, no metadata. *)
Definition callbacks_write_no_strings : Prop :=
  forall attachment result,
    attachmentsUpdates (callback_trace attachment result) = []
    /\ metaDataUpdates (callback_trace attachment result) = [].

(** A whole download, the handler and then the callbacks for the
    deliveries [cs], ends with the attachments it started with. *)
Definition download_keeps_attachments : Prop :=
  forall (item : Office.Item) (s : State) cs,
    attachmentsOf (deliver (afterOf s (downloadOf item s)) cs)
    = attachmentsOf s.

(** Once names are stored, the content requests of a download carry
    exactly the stored identifiers, in the stored order. *)
Definition requests_keyed_by_stored_ids : Prop :=
  forall (item : Office.Item) (s : State),
    reachable item s ->
    attachmentsOf s <> [] ->
    map fst (requests (trace (snd (run (downloadOf item s)))))
    = map id (attachmentsOf s).

(** The [Submit] button, the only trigger of [downloadAttachments], is
    rendered only while names are stored. *)
Definition submit_needs_attachments : Prop :=
  forall (item : Office.Item) (s : State) els,
    renderOf item s = Normal els ->
    In (Button false onDownloadAttachments (lit "Submit")) els ->
    attachmentsOf s <> [].

Definition content_not_stored : Prop :=
  attachments_only_from_fetch
  /\ attachments_are_descriptors
  /\ callbacks_write_no_strings
  /\ download_keeps_attachments
  /\ submit_needs_attachments
  /\ requests_keyed_by_stored_ids.

(** The keys of the content requests of a download are the identifiers of
    the entries the host list has when the handler runs, whatever the
    component state is. *)
Definition requests_keyed_by_host_entries : Prop :=
  forall (item : Office.Item) (s : State),
    map fst (requests (trace (snd (run (downloadOf item s)))))
    = map Office.id (entries item).

Definition content_fetched_on_demand : Prop :=
  content_not_stored /\ requests_keyed_by_host_entries.
End ContentNotStored.

(** Another mail item, with one attachment of its own. *)
Definition otherItem : Office.Item :=
  {| Office.sender := {| Office.emailAddress := lit "c@x.org" |};
     Office.to := [ {| Office.emailAddress := lit "b@x.org" |} ];
     Office.subject := lit "Report";
     Office.conversationId := lit "conv-3";
     Office.itemId := lit "item-3";
     Office.dateTimeCreated := ValidDate 1700000100000;
     Office.attachments := Normal
       [ {| Office.id := lit "Z9"; Office.name := lit "z.bin";
            Office.contentType := lit "application/octet-stream" |} ] |}.

(** The state of [TextInsertion] after a first fetch on the demo item. *)
Definition fetchedState : TextInsertion.State :=
  TextInsertion.after TextInsertion.initial
    (TextInsertion.fetchAttachments demoItem TextInsertion.initial).

(** ** Further observations *)

(** A queued React setter call. *)
Definition is_setter (e : Event) : bool :=
  match e with
  | SetAttachments _ | SetIsAttachmentFetched _ | SetIsSubmissionInitiated _
  | SetIsConsent _ | SetMetaData _ => true
  | _ => false
  end.

Definition stateUpdates (t : list Event) : list Event := filter is_setter t.

Definition is_dom (e : Event) : bool :=
  match e with
  | AppendChild _ | Click _ | RemoveChild _ => true
  | _ => false
  end.

(** The operations on [document.body], in order. *)
Definition domEvents (t : list Event) : list Event := filter is_dom t.

(** What one synthetic download does to the document. *)
Definition anchorEvents (a : Anchor) : list Event :=
  [AppendChild a; Click a; RemoveChild a].

(** A delivery that ends in a download: a succeeded fetch whose content can
    be turned into a blob. *)
Definition downloadable (c : Office.AttachmentDetails * Office.AsyncResult)
  : bool :=
  match snd c with
  | Office.Succeeded value => decodable value
  | Office.Failed _ => false
  end.

Section Deliveries.
Context {State : Type} {V : View State}.

(** The anchors clicked by the callbacks of the deliveries [cs], in the
    order of delivery. *)
Definition delivered_clicks
    (cs : list (Office.AttachmentDetails * Office.AsyncResult))
  : list Anchor :=
  flat_map (fun c => clicks (callback_trace (fst c) (snd c))) cs.
End Deliveries.

(** ** What the user can do *)

(** [onClick] of the buttons of [TextInsertion.tsx]. *)
Definition TextInsertion_onClick (item : Office.Item)
    (s : TextInsertion.State) (h : Handler) : M unit :=
  match h with
  | onFetchAttachments => TextInsertion.fetchAttachments item s
  | onDownloadAttachments => TextInsertion.downloadAttachments item s
  | onGetMetadata => ret tt
  end.

(** [onClick] of the buttons of [AttachmentProcess.tsx]. *)
Definition AttachmentProcess_onClick (item : Office.Item)
    (s : AttachmentProcess.State) (h : Handler) : M unit :=
  match h with
  | onFetchAttachments => AttachmentProcess.fetchAttachments item s
  | onDownloadAttachments => AttachmentProcess.downloadAttachments item s
  | onGetMetadata => ret tt
  end.

(** [onClick] of the buttons of the consent-gated view. *)
Definition ProcessEmailData_onClick (item : Office.Item)
    (s : ProcessEmailData.State) (h : Handler) : M unit :=
  match h with
  | onGetMetadata => ProcessEmailData.getMetadata item s
  | onDownloadAttachments => ProcessEmailData.downloadAttachments item s
  | onFetchAttachments => ret tt
  end.

(** The inputs of a view: the handlers behind its buttons, and what its
    other controls run ([inputOf s m]: the control is rendered in [s] and
    runs [m]). *)
Class Clickable (State : Type) := {
  onClickOf : Office.Item -> State -> Handler -> M unit;
  inputOf : State -> M unit -> Prop
}.

#[export] Instance TextInsertion_Clickable : Clickable TextInsertion.State := {
  onClickOf := TextInsertion_onClick;
  inputOf _ _ := False
}.

#[export] Instance AttachmentProcess_Clickable
  : Clickable AttachmentProcess.State := {
  onClickOf := AttachmentProcess_onClick;
  inputOf _ _ := False
}.

(** The consent checkbox sits in the block guarded by
    [attachments.length === 0]. *)
#[export] Instance ProcessEmailData_Clickable
  : Clickable ProcessEmailData.State := {
  onClickOf := ProcessEmailData_onClick;
  inputOf s m :=
    ProcessEmailData.showConsent s = true
    /\ exists checked, m = ProcessEmailData.onConsentChange checked
}.

Section UserRuns.
Context {State : Type} {V : View State} {K : Clickable State}.

(** One thing that can happen to a mounted view: the user clicks a button
    that is rendered and not disabled, uses another rendered control, or
    the host delivers the result of a content request. *)
Inductive user_step (item : Office.Item) : State -> State -> Prop :=
| user_click s els h label :
    renderOf item s = Normal els ->
    In (Button false h label) els ->
    user_step item s (afterOf s (onClickOf item s h))
| user_input s m :
    inputOf s m -> user_step item s (afterOf s m)
| host_delivery s attachment result :
    user_step item s (afterOf s (callbackOf attachment result)).

Inductive user_reachable (item : Office.Item) : State -> Prop :=
| user_reachable_initial : user_reachable item initialOf
| user_reachable_step s s' :
    user_reachable item s -> user_step item s s' -> user_reachable item s'.
End UserRuns.

(** The state [s] with the consent box set to [checked]. *)
Definition with_consent (s : ProcessEmailData.State) (checked : bool)
  : ProcessEmailData.State :=
  {| ProcessEmailData.attachments := ProcessEmailData.attachments s;
     ProcessEmailData.isAttachmentFetched :=
       ProcessEmailData.isAttachmentFetched s;
     ProcessEmailData.isSubmissionInitiated :=
       ProcessEmailData.isSubmissionInitiated s;
     ProcessEmailData.isConsent := checked;
     ProcessEmailData.metaData := ProcessEmailData.metaData s |}.

(** ** The events of a content callback *)

(** The blob the callback builds for a succeeded delivery, or the error
    that stops it. *)
Definition callback_blob (attachment : Office.AttachmentDetails)
    (value : Office.AttachmentContent) : Completion Blob :=
  fst (attachmentBlob attachment value empty_store).

(** The anchor the callback creates for [blob]. *)
Definition attachmentAnchor (attachment : Office.AttachmentDetails)
    (blob : Blob) : Anchor :=
  {| href := ObjectURL blob; download := Office.name attachment |}.

(** Everything a content callback does, in order; [withFlag] tells the
    views that keep [isSubmissionInitiated] from [TextInsertion.tsx]. *)
Definition callback_events (withFlag : bool)
    (attachment : Office.AttachmentDetails) (result : Office.AsyncResult)
  : list Event :=
  match result with
  | Office.Succeeded value =>
      match callback_blob attachment value with
      | Normal blob =>
          anchorEvents (attachmentAnchor attachment blob)
          ++ (if withFlag then [SetIsSubmissionInitiated true] else [])
      | Throw _ => []
      end
  | Office.Failed error =>
      (if withFlag then [SetIsSubmissionInitiated false] else [])
      ++ [ConsoleError (lit "Error fetching attachment content") error]
  end.

Section CallbackEffects.
Context {State : Type} {V : View State}.

(** Every anchor a callback or a handler appends to the document is
    clicked and removed at once: the document operations of a run are the
    append, click, remove triples of the anchors it clicks. *)
Definition anchors_are_removed : Prop :=
  (forall attachment result,
      domEvents (callback_trace attachment result)
      = flat_map anchorEvents (clicks (callback_trace attachment result)))
  /\ (forall (item : Office.Item) (s : State),
         domEvents (trace (snd (run (downloadOf item s))))
         = flat_map anchorEvents
             (clicks (trace (snd (run (downloadOf item s))))))
  /\ (forall (item : Office.Item) (s : State),
         domEvents (trace (snd (run (fetchOf item s)))) = []).

(** The callback writes to the console exactly when the fetch failed. *)
Definition callback_logs_failures_only : Prop :=
  forall attachment result,
    consoleErrors (callback_trace attachment result)
    = match result with
      | Office.Failed error =>
          [ (lit "Error fetching attachment content", error) ]
      | Office.Succeeded _ => []
      end.

(** The files a run of deliveries saves: one per downloadable delivery,
    under the name of its attachment, in the order of delivery. *)
Definition run_saves_downloadable : Prop :=
  forall cs,
    map download (delivered_clicks cs)
    = map (fun c => Office.name (fst c)) (filter downloadable cs).
End CallbackEffects.

(** ** The state around a download *)

Definition AttachmentProcess_set_submission (s : AttachmentProcess.State)
    (b : bool) : AttachmentProcess.State :=
  {| AttachmentProcess.attachments := AttachmentProcess.attachments s;
     AttachmentProcess.isAttachmentFetched :=
       AttachmentProcess.isAttachmentFetched s;
     AttachmentProcess.isSubmissionInitiated := b |}.

Definition ProcessEmailData_set_submission (s : ProcessEmailData.State)
    (b : bool) : ProcessEmailData.State :=
  {| ProcessEmailData.attachments := ProcessEmailData.attachments s;
     ProcessEmailData.isAttachmentFetched :=
       ProcessEmailData.isAttachmentFetched s;
     ProcessEmailData.isSubmissionInitiated := b;
     ProcessEmailData.isConsent := ProcessEmailData.isConsent s;
     ProcessEmailData.metaData := ProcessEmailData.metaData s |}.

(** The submission flag once the callback for [result] has run: a failed
    fetch clears it, a downloadable success sets it, and a success stopped
    by [atob] leaves it as it was. *)
Definition flag_after (old : bool) (result : Office.AsyncResult) : bool :=
  match result with
  | Office.Failed _ => false
  | Office.Succeeded value => if decodable value then true else old
  end.

Definition flag_after_run (old : bool)
    (cs : list (Office.AttachmentDetails * Office.AsyncResult)) : bool :=
  fold_left (fun b c => flag_after b (snd c)) cs old.

Section DownloadErrors.
Context {State : Type} {V : View State}.

(** A download whose enumeration throws [e]: the handler completes, logs
    the error once, asks the host for nothing, saves nothing and leaves
    the state alone. *)
Definition download_failure_handled (item : Office.Item) (e : JSError)
  : Prop :=
  forall s : State,
    let outcome := run (downloadOf item s) in
    fst outcome = Normal tt
    /\ consoleErrors (trace (snd outcome))
       = [ (lit "Error fetching attachments", e) ]
    /\ requests (trace (snd outcome)) = []
    /\ clicks (trace (snd outcome)) = []
    /\ stateUpdates (trace (snd outcome)) = []
    /\ enumerations (trace (snd outcome)) = 1
    /\ afterOf s (downloadOf item s) = s.

(** The download handler itself queues no state update. *)
Definition download_handler_keeps_state : Prop :=
  forall (item : Office.Item) (s : State),
    stateUpdates (trace (snd (run (downloadOf item s)))) = []
    /\ afterOf s (downloadOf item s) = s.
End DownloadErrors.

(** ** What the views offer *)

Section OfferedActions.
Context {State : Type} {V : View State}.

(** The enabled buttons of a rendered view: [Submit] exactly while names
    are stored, a fetch button exactly while none is, and in the latter
    case there is one. *)
Definition fetch_or_submit : Prop :=
  forall (item : Office.Item) (s : State) els,
    renderOf item s = Normal els ->
    (forall h label,
        In (Button false h label) els ->
        (h = onDownloadAttachments <-> attachmentsOf s <> []))
    /\ (attachmentsOf s = [] ->
        exists h label,
          h <> onDownloadAttachments /\ In (Button false h label) els).

(** The "No attachments found in this email" message is rendered exactly
    when its guard holds. *)
Definition message_follows_guard : Prop :=
  forall (item : Office.Item) (s : State) els,
    renderOf item s = Normal els ->
    (In noAttachmentsMessage els
     <-> showNoAttachments (attachmentsOf s) (isAttachmentFetchedOf s) = true).

(** After a fetch started while no names are stored, the message tells
    whether the item has attachment entries. *)
Definition message_after_fetch : Prop :=
  forall (item : Office.Item) (s : State),
    attachmentsOf s = [] ->
    let s' := afterOf s (fetchOf item s) in
    attachmentsOf s' = map descriptor (entries item)
    /\ isAttachmentFetchedOf s' = Some false
    /\ (entries item = [] ->
        exists els, renderOf item s' = Normal els
                    /\ In noAttachmentsMessage els)
    /\ (entries item <> [] ->
        forall els, renderOf item s' = Normal els ->
                    ~ In noAttachmentsMessage els).
End OfferedActions.

(** ** States the user can bring about *)

Definition ProcessEmailData_set_metaData (s : ProcessEmailData.State)
    (m : metadata) : ProcessEmailData.State :=
  {| ProcessEmailData.attachments := ProcessEmailData.attachments s;
     ProcessEmailData.isAttachmentFetched :=
       ProcessEmailData.isAttachmentFetched s;
     ProcessEmailData.isSubmissionInitiated :=
       ProcessEmailData.isSubmissionInitiated s;
     ProcessEmailData.isConsent := ProcessEmailData.isConsent s;
     ProcessEmailData.metaData := Some m |}.

(** The hooks the consent-gated view shares with [AttachmentProcess.tsx]. *)
Definition shared_hooks (s : ProcessEmailData.State)
  : AttachmentProcess.State :=
  {| AttachmentProcess.attachments := ProcessEmailData.attachments s;
     AttachmentProcess.isAttachmentFetched :=
       ProcessEmailData.isAttachmentFetched s;
     AttachmentProcess.isSubmissionInitiated :=
       ProcessEmailData.isSubmissionInitiated s |}.

Section UserInvariants.
Context {State : Type} {V : View State} {K : Clickable State}.

(** In every state the user can bring about, either nothing was fetched
    yet, or the flag is [false] and the names of all host entries are
    stored: the flag is never [true]. *)
Definition fetch_flag_is_never_true : Prop :=
  forall (item : Office.Item) (s : State),
    user_reachable item s ->
    (isAttachmentFetchedOf s = None /\ attachmentsOf s = [])
    \/ (isAttachmentFetchedOf s = Some false
        /\ attachmentsOf s = map descriptor (entries item)).

(** The message is only ever shown for an item without entries. *)
Definition message_only_for_empty_items : Prop :=
  forall (item : Office.Item) (s : State) els,
    user_reachable item s ->
    renderOf item s = Normal els ->
    In noAttachmentsMessage els ->
    entries item = [].
End UserInvariants.

(** A state of [AttachmentProcess.tsx] after a download whose last
    callback succeeded. *)
Definition submittedState : AttachmentProcess.State :=
  @deliver _ AttachmentProcess_View
    (AttachmentProcess.after AttachmentProcess.initial
       (AttachmentProcess.fetchAttachments demoItem
          AttachmentProcess.initial))
    failThenSucceed.

Section FetchThenDownload.
Context {State : Type} {V : View State}.

(** Every [setAttachments] call of a fetch passes the one array the
    handler allocated, and that array ends up holding a descriptor for
    every entry. *)
Definition fetch_passes_one_array (item : Office.Item)
    (atts : list Office.AttachmentDetails) : Prop :=
  forall s : State,
    attachmentsUpdates (trace (snd (run (fetchOf item s))))
    = repeat 0 (length atts)
    /\ heap (snd (run (fetchOf item s))) = [ map descriptor atts ]
    /\ (atts <> [] ->
        attachmentsOf (afterOf s (fetchOf item s)) = map descriptor atts).

(** The names a fetch lists are the names a download saves: when each
    entry is answered once, in any order, with a downloadable result, the
    saved file names are the listed names up to order. *)
Definition listed_names_are_saved_names (item : Office.Item) : Prop :=
  forall (s : State) cs,
    attachmentsOf s = [] ->
    Permutation (map fst cs) (entries item) ->
    Forall (fun c => downloadable c = true) cs ->
    Permutation
      (map download (delivered_clicks cs))
      (map name (attachmentsOf (afterOf s (fetchOf item s)))).
End FetchThenDownload.

(** Both entries of the demo item answered, the second one first. *)
Definition bothSucceed
  : list (Office.AttachmentDetails * Office.AsyncResult) :=
  [ (txtAttachment,
     Office.Succeeded {| Office.content := lit "notes";
                         Office.format := Office.Url |});
    (pdfAttachment,
     Office.Succeeded {| Office.content := lit "aGVsbG8=";
                         Office.format := Office.Base64 |}) ].

Unset Implicit Arguments.

(** * Proofs *)

(** ** Runs of the handlers *)

Lemma forEach_push_loop (atts : list Office.AttachmentDetails) :
  forall (t : list Event) (l : list Attachment),
    forEach atts
      (fun attachment =>
         async (push 0 {| id := Office.id attachment;
                          name := Office.name attachment |} ;;
                setAttachments 0))
      {| trace := t; heap := [l] |}
    = (Normal tt,
       {| trace := t ++ repeat (SetAttachments 0) (length atts);
          heap := [l ++ map descriptor atts] |}).
Proof.
  induction atts as [| a atts IH]; intros t l.
  - cbn. now rewrite !app_nil_r.
  - cbn [forEach]. unfold bind at 1. cbn.
    rewrite IH. cbn [length repeat map].
    now rewrite <- !app_assoc.
Qed.

Lemma forEach_requests_loop (atts : list Office.AttachmentDetails) :
  forall st : Store,
    forEach atts
      (fun attachment =>
         async (let attachmentId := Office.id attachment in
                emit (GetAttachmentContentAsync attachmentId attachment)))
      st
    = (Normal tt,
       {| trace :=
            trace st
            ++ map (fun a => GetAttachmentContentAsync (Office.id a) a) atts;
          heap := heap st |}).
Proof.
  induction atts as [| a atts IH]; intros st.
  - cbn. rewrite app_nil_r. now destruct st.
  - cbn [forEach]. unfold bind at 1. cbn.
    rewrite IH. cbn. now rewrite <- app_assoc.
Qed.

Ltac run_fetch H :=
  unfold run, try_catch, bind, new_Array, item_attachments_forEach, bind,
    emit, eval, empty_store; cbn [trace heap length app];
  rewrite H; try rewrite forEach_push_loop; reflexivity.

Lemma TextInsertion_fetch_normal item s atts :
  Office.attachments item = Normal atts ->
  run (TextInsertion.fetchAttachments item s)
  = (Normal tt,
     fetched_store atts (0 <? length (TextInsertion.attachments s))%nat).
Proof. intros H. unfold TextInsertion.fetchAttachments. run_fetch H. Qed.

Lemma AttachmentProcess_fetch_normal item s atts :
  Office.attachments item = Normal atts ->
  run (AttachmentProcess.fetchAttachments item s)
  = (Normal tt,
     fetched_store atts (0 <? length (AttachmentProcess.attachments s))%nat).
Proof. intros H. unfold AttachmentProcess.fetchAttachments. run_fetch H. Qed.

Lemma ProcessEmailData_fetch_normal item s atts :
  Office.attachments item = Normal atts ->
  run (ProcessEmailData.fetchAttachmentMetadata item s)
  = (Normal tt,
     fetched_store atts (0 <? length (ProcessEmailData.attachments s))%nat).
Proof.
  intros H. unfold ProcessEmailData.fetchAttachmentMetadata. run_fetch H.
Qed.

Lemma TextInsertion_fetch_throw item s e :
  Office.attachments item = Throw e ->
  run (TextInsertion.fetchAttachments item s) = (Normal tt, failed_store e).
Proof. intros H. unfold TextInsertion.fetchAttachments. run_fetch H. Qed.

Lemma AttachmentProcess_fetch_throw item s e :
  Office.attachments item = Throw e ->
  run (AttachmentProcess.fetchAttachments item s)
  = (Normal tt, failed_store e).
Proof. intros H. unfold AttachmentProcess.fetchAttachments. run_fetch H. Qed.

Lemma ProcessEmailData_fetch_throw item s e :
  Office.attachments item = Throw e ->
  run (ProcessEmailData.fetchAttachmentMetadata item s)
  = (Normal tt, failed_store e).
Proof.
  intros H. unfold ProcessEmailData.fetchAttachmentMetadata. run_fetch H.
Qed.

(** ** Commit of the queued updates *)

Lemma fold_left_repeat_idem {A B} (f : A -> B -> A) (e : B) :
  (forall s, f (f s e) e = f s e) ->
  forall n s, fold_left f (repeat e (S n)) s = f s e.
Proof.
  intros Hidem n. induction n as [| n IH]; intros s.
  - reflexivity.
  - change (repeat e (S (S n))) with (e :: repeat e (S n)).
    cbn [fold_left]. rewrite IH. apply Hidem.
Qed.

Lemma TextInsertion_commit_fetched s atts b :
  TextInsertion.commit s (fetched_store atts b)
  = {| TextInsertion.attachments :=
         fetched_attachments (TextInsertion.attachments s) atts;
       TextInsertion.isAttachmentFetched := Some b |}.
Proof.
  unfold TextInsertion.commit, fetched_store. cbn [trace heap fold_left].
  rewrite fold_left_app. destruct atts as [| a atts].
  - reflexivity.
  - cbn [length]. rewrite fold_left_repeat_idem by reflexivity. reflexivity.
Qed.

Lemma AttachmentProcess_commit_fetched s atts b :
  AttachmentProcess.commit s (fetched_store atts b)
  = {| AttachmentProcess.attachments :=
         fetched_attachments (AttachmentProcess.attachments s) atts;
       AttachmentProcess.isAttachmentFetched := Some b;
       AttachmentProcess.isSubmissionInitiated :=
         AttachmentProcess.isSubmissionInitiated s |}.
Proof.
  unfold AttachmentProcess.commit, fetched_store. cbn [trace heap fold_left].
  rewrite fold_left_app. destruct atts as [| a atts].
  - reflexivity.
  - cbn [length]. rewrite fold_left_repeat_idem by reflexivity. reflexivity.
Qed.

Lemma ProcessEmailData_commit_fetched s atts b :
  ProcessEmailData.commit s (fetched_store atts b)
  = {| ProcessEmailData.attachments :=
         fetched_attachments (ProcessEmailData.attachments s) atts;
       ProcessEmailData.isAttachmentFetched := Some b;
       ProcessEmailData.isSubmissionInitiated :=
         ProcessEmailData.isSubmissionInitiated s;
       ProcessEmailData.isConsent := ProcessEmailData.isConsent s;
       ProcessEmailData.metaData := ProcessEmailData.metaData s |}.
Proof.
  unfold ProcessEmailData.commit, fetched_store. cbn [trace heap fold_left].
  rewrite fold_left_app. destruct atts as [| a atts].
  - reflexivity.
  - cbn [length]. rewrite fold_left_repeat_idem by reflexivity. reflexivity.
Qed.

Lemma flagUpdates_fetched atts b :
  flagUpdates (trace (fetched_store atts b)) = [b].
Proof.
  unfold fetched_store, flagUpdates. cbn [trace flat_map app].
  rewrite flat_map_app. cbn.
  induction (length atts) as [| n IH]; [reflexivity | exact IH].
Qed.

(** ** C1: the fetch flag is computed from the stale attachments state *)

Lemma first_fetch_from_stale {State} {V : View State} item atts :
  attachmentsOf initialOf = [] ->
  flag_from_stale_state item atts ->
  first_fetch_reports_none item atts.
Proof.
  intros Hinit Hstale Hne. destruct (Hstale initialOf) as (_ & Hflag & Hatts).
  rewrite Hinit in Hflag, Hatts. destruct atts as [| a atts]; [congruence |].
  cbn in Hatts, Hflag. rewrite Hatts. repeat split; auto. discriminate.
Qed.

(** C1: in every variant of the fetch operation the value given to
    [setIsAttachmentFetched] is [attachments.length > 0] evaluated on the
    attachments state the handler was created with, not on the names the
    enumeration collects; so the first fetch from the initial state on an
    item that has attachments stores the names and sets the flag to false. *)
Theorem C1_fetch_flag_uses_stale_attachments
    (item : Office.Item) (atts : list Office.AttachmentDetails) :
  Office.attachments item = Normal atts ->
  (@flag_from_stale_state _ TextInsertion_View item atts
   /\ @first_fetch_reports_none _ TextInsertion_View item atts)
  /\ (@flag_from_stale_state _ AttachmentProcess_View item atts
      /\ @first_fetch_reports_none _ AttachmentProcess_View item atts)
  /\ (@flag_from_stale_state _ ProcessEmailData_View item atts
      /\ @first_fetch_reports_none _ ProcessEmailData_View item atts).
Proof.
  intros H.
  assert (H1 : @flag_from_stale_state _ TextInsertion_View item atts).
  { intros s. unfold afterOf. cbn [fetchOf commitOf attachmentsOf
      isAttachmentFetchedOf TextInsertion_View].
    rewrite (TextInsertion_fetch_normal _ s _ H). cbn [snd].
    rewrite TextInsertion_commit_fetched, flagUpdates_fetched. now cbn. }
  assert (H2 : @flag_from_stale_state _ AttachmentProcess_View item atts).
  { intros s. unfold afterOf. cbn [fetchOf commitOf attachmentsOf
      isAttachmentFetchedOf AttachmentProcess_View].
    rewrite (AttachmentProcess_fetch_normal _ s _ H). cbn [snd].
    rewrite AttachmentProcess_commit_fetched, flagUpdates_fetched. now cbn. }
  assert (H3 : @flag_from_stale_state _ ProcessEmailData_View item atts).
  { intros s. unfold afterOf. cbn [fetchOf commitOf attachmentsOf
      isAttachmentFetchedOf ProcessEmailData_View].
    rewrite (ProcessEmailData_fetch_normal _ s _ H). cbn [snd].
    rewrite ProcessEmailData_commit_fetched, flagUpdates_fetched. now cbn. }
  split; [| split];
    (split; [assumption
            | apply first_fetch_from_stale; [reflexivity | assumption]]).
Qed.

Lemma C1_fetch_flag_uses_stale_attachments_witness :
  Office.attachments demoItem
  = Normal
      [ {| Office.id := lit "A1"; Office.name := lit "a.pdf";
           Office.contentType := lit "application/pdf" |};
        {| Office.id := lit "A2"; Office.name := lit "b.txt";
           Office.contentType := lit "text/plain" |} ]
  /\ TextInsertion.isAttachmentFetched
       (TextInsertion.after TextInsertion.initial
          (TextInsertion.fetchAttachments demoItem TextInsertion.initial))
     = Some false.
Proof.
  split; [reflexivity |].
  destruct (C1_fetch_flag_uses_stale_attachments demoItem _ eq_refl)
    as ((_ & Hfirst) & _).
  apply Hfirst. discriminate.
Defined.

(** ** C3: a throwing enumeration is caught inside the fetch handler *)

Lemma TextInsertion_fetch_failure item e :
  Office.attachments item = Throw e ->
  @fetch_failure_handled _ TextInsertion_View item e.
Proof.
  intros H s. unfold afterOf.
  cbn [fetchOf commitOf attachmentsOf isAttachmentFetchedOf renderOf
       TextInsertion_View].
  rewrite (TextInsertion_fetch_throw _ s _ H).
  repeat (split; [reflexivity |]).
  intros Hempty. eexists. split; [reflexivity |].
  unfold TextInsertion.render, TextInsertion.commit. cbn.
  rewrite Hempty. cbn. auto.
Qed.

Lemma AttachmentProcess_fetch_failure item e :
  Office.attachments item = Throw e ->
  @fetch_failure_handled _ AttachmentProcess_View item e.
Proof.
  intros H s. unfold afterOf.
  cbn [fetchOf commitOf attachmentsOf isAttachmentFetchedOf renderOf
       AttachmentProcess_View].
  rewrite (AttachmentProcess_fetch_throw _ s _ H).
  repeat (split; [reflexivity |]).
  intros Hempty.
  unfold AttachmentProcess.render, AttachmentProcess.showMetaData,
    AttachmentProcess.commit. cbn.
  rewrite Hempty. cbn. eexists. split; [reflexivity |]. cbn. auto.
Qed.

Lemma ProcessEmailData_fetch_failure item e :
  Office.attachments item = Throw e ->
  @fetch_failure_handled _ ProcessEmailData_View item e.
Proof.
  intros H s. unfold afterOf.
  cbn [fetchOf commitOf attachmentsOf isAttachmentFetchedOf renderOf
       ProcessEmailData_View].
  rewrite (ProcessEmailData_fetch_throw _ s _ H).
  repeat (split; [reflexivity |]).
  intros Hempty. eexists. split; [reflexivity |].
  unfold ProcessEmailData.render, ProcessEmailData.showConsent,
    ProcessEmailData.showMetaData, ProcessEmailData.commit. cbn.
  rewrite Hempty. cbn. auto.
Qed.

(** C3: when the host attachment enumeration throws during a fetch, the
    handler catches the error itself: it logs it to the console, queues
    [setIsAttachmentFetched(false)] (which shows the "No attachments found
    in this email" message while the list is empty), leaves the attachments
    state as it was, completes normally, and does not enumerate again. *)
Theorem C3_fetch_error_is_caught_and_flagged
    (item : Office.Item) (e : JSError) :
  Office.attachments item = Throw e ->
  @fetch_failure_handled _ TextInsertion_View item e
  /\ @fetch_failure_handled _ AttachmentProcess_View item e
  /\ @fetch_failure_handled _ ProcessEmailData_View item e.
Proof.
  intros H. split; [| split].
  - now apply TextInsertion_fetch_failure.
  - now apply AttachmentProcess_fetch_failure.
  - now apply ProcessEmailData_fetch_failure.
Qed.

Lemma C3_fetch_error_is_caught_and_flagged_witness :
  Office.attachments brokenItem = Throw TypeError
  /\ @fetch_failure_handled _ TextInsertion_View brokenItem TypeError.
Proof.
  split; [reflexivity |].
  exact (proj1 (C3_fetch_error_is_caught_and_flagged brokenItem _ eq_refl)).
Defined.

(** ** C2: the blob of a delivered attachment *)

Lemma array_set_middle (l1 l2 : NumberArray) (x v : option N) :
  array_set (l1 ++ x :: l2) (length l1) v = l1 ++ v :: l2.
Proof.
  induction l1 as [| y l1 IH]; cbn; [reflexivity | now rewrite IH].
Qed.

Lemma charCodeAt_middle (pre post : JSString) (c : N) :
  charCodeAt (pre ++ c :: post) (length pre) = Some c.
Proof.
  unfold charCodeAt. induction pre as [| y pre IH]; cbn; auto.
Qed.

(** Loop invariant: after [length pre] iterations the array holds the code
    units of [pre] followed by holes. *)
Lemma charCodes_loop_invariant (post : JSString) :
  forall pre : JSString,
    charCodes_loop (length post) (length pre) (pre ++ post)
      (map Some pre ++ repeat None (length post))
    = map Some (pre ++ post).
Proof.
  induction post as [| c post IH]; intros pre.
  - cbn. now rewrite !app_nil_r.
  - cbn [length charCodes_loop repeat].
    replace (length pre <? length (pre ++ c :: post))%nat with true.
    2:{ symmetry. apply Nat.ltb_lt. rewrite length_app. cbn. lia. }
    rewrite charCodeAt_middle.
    rewrite <- (length_map Some pre) at 2. rewrite array_set_middle.
    specialize (IH (pre ++ [c])).
    rewrite length_app, Nat.add_1_r, <- app_assoc, map_app, <- app_assoc in IH.
    exact IH.
Qed.

Lemma charCodes_loop_all (byteCharacters : JSString) :
  charCodes_loop (length byteCharacters) 0 byteCharacters
    (new_Array_n (length byteCharacters))
  = map Some byteCharacters.
Proof. exact (charCodes_loop_invariant byteCharacters []). Qed.

Lemma Uint8Array_of_codes (l : JSString) :
  Forall (fun c => (c < 256)%N) l ->
  Uint8Array (map Some l) = l.
Proof.
  unfold Uint8Array. induction 1 as [| c l Hc _ IH]; cbn; [reflexivity |].
  rewrite N.mod_small by assumption. now rewrite IH.
Qed.

Lemma byte_of_lt (n : N) : (byte_of n < 256)%N.
Proof.
  unfold byte_of. change 255%N with (N.ones 8).
  rewrite N.land_ones. apply N.mod_lt. discriminate.
Qed.

Lemma decode_sextets_bytes_bounded (n : nat) :
  forall l, (length l <= n)%nat ->
            Forall (fun c => (c < 256)%N) (decode_sextets l).
Proof.
  induction n as [| n IH]; intros l Hl.
  - destruct l; [constructor | cbn in Hl; lia].
  - destruct l as [| a [| b [| c [| d rest]]]]; cbn [decode_sextets];
      repeat (constructor; try apply byte_of_lt).
    apply IH. cbn in Hl. lia.
Qed.

(** Every code unit of a string returned by [atob] is a byte. *)
Lemma atob_bytes (data byteCharacters : JSString) :
  atob data = Normal byteCharacters ->
  Forall (fun c => (c < 256)%N) byteCharacters.
Proof.
  unfold atob.
  destruct (_ =? 1)%nat; [discriminate |].
  destruct (sextets _) as [vs |]; [| discriminate].
  intros [= <-]. apply decode_sextets_bytes_bounded with (n := length vs). lia.
Qed.

Lemma attachmentBlob_base64 attachment value byteCharacters st :
  Office.format value = Office.Base64 ->
  atob (Office.content value) = Normal byteCharacters ->
  attachmentBlob attachment value st
  = (Normal {| blobParts := [Uint8ArrayPart byteCharacters];
               type := lit "application/octet-stream" |}, st).
Proof.
  intros Hf Ha. unfold attachmentBlob, bind, eval, ret.
  rewrite Hf, Ha. cbn [Office.format_eqb].
  rewrite charCodes_loop_all, Uint8Array_of_codes; [reflexivity |].
  exact (atob_bytes _ _ Ha).
Qed.

Lemma attachmentBlob_base64_throw attachment value e st :
  Office.format value = Office.Base64 ->
  atob (Office.content value) = Throw e ->
  attachmentBlob attachment value st = (Throw e, st).
Proof.
  intros Hf Ha. unfold attachmentBlob, bind, eval, ret.
  now rewrite Hf, Ha.
Qed.

Lemma attachmentBlob_text attachment value st :
  Office.format value <> Office.Base64 ->
  attachmentBlob attachment value st
  = (Normal {| blobParts := [StringPart (Office.content value)];
               type := Blob_type (Office.contentType attachment) |}, st).
Proof.
  intros Hf. unfold attachmentBlob, ret.
  destruct (Office.format value); [congruence | reflexivity ..].
Qed.

Lemma Blob_type_lower_case_printable (t : JSString) :
  lower_case_printable t = true -> Blob_type t = t.
Proof.
  unfold Blob_type, lower_case_printable. intros H.
  assert (Hp : forallb (fun c => (32 <=? c) && (c <=? 126))%N t = true).
  { induction t as [| c t IH]; [reflexivity |].
    cbn in H |- *. apply andb_prop in H as [Hc Ht].
    apply andb_prop in Hc as [Hc _]. now rewrite Hc, IH. }
  rewrite Hp.
  induction t as [| c t IH]; [reflexivity |].
  cbn in H, Hp |- *. apply andb_prop in H as [Hc Ht].
  apply andb_prop in Hp as [_ Hp].
  apply andb_prop in Hc as [_ Hc]. apply negb_true_iff in Hc.
  unfold ascii_lowercase at 1. rewrite Hc. now rewrite IH.
Qed.

Ltac run_callback :=
  unfold callback_trace, run;
  cbn [callbackOf TextInsertion_View AttachmentProcess_View
       ProcessEmailData_View];
  unfold TextInsertion.contentCallback, AttachmentProcess.contentCallback,
    ProcessEmailData.contentCallback, bind.

Lemma TextInsertion_blob : @blob_built_by_format _ TextInsertion_View.
Proof.
  intros attachment value. split; [| split].
  - intros Hf bs Ha. split; [exact (atob_bytes _ _ Ha) |].
    run_callback. rewrite (attachmentBlob_base64 _ _ _ _ Hf Ha). reflexivity.
  - intros Hf e Ha. run_callback.
    rewrite (attachmentBlob_base64_throw _ _ _ _ Hf Ha). reflexivity.
  - intros Hf. run_callback. rewrite (attachmentBlob_text _ _ _ Hf).
    reflexivity.
Qed.

Lemma AttachmentProcess_blob : @blob_built_by_format _ AttachmentProcess_View.
Proof.
  intros attachment value. split; [| split].
  - intros Hf bs Ha. split; [exact (atob_bytes _ _ Ha) |].
    run_callback. rewrite (attachmentBlob_base64 _ _ _ _ Hf Ha). reflexivity.
  - intros Hf e Ha. run_callback.
    rewrite (attachmentBlob_base64_throw _ _ _ _ Hf Ha). reflexivity.
  - intros Hf. run_callback. rewrite (attachmentBlob_text _ _ _ Hf).
    reflexivity.
Qed.

Lemma ProcessEmailData_blob : @blob_built_by_format _ ProcessEmailData_View.
Proof.
  intros attachment value. split; [| split].
  - intros Hf bs Ha. split; [exact (atob_bytes _ _ Ha) |].
    run_callback. rewrite (attachmentBlob_base64 _ _ _ _ Hf Ha). reflexivity.
  - intros Hf e Ha. run_callback.
    rewrite (attachmentBlob_base64_throw _ _ _ _ Hf Ha). reflexivity.
  - intros Hf. run_callback. rewrite (attachmentBlob_text _ _ _ Hf).
    reflexivity.
Qed.

(** C2: for a content fetch that succeeded, the blob handed to the
    download is chosen by the reported format alone.  For [Base64] it holds
    one [Uint8Array] whose bytes are the character codes of
    [atob(content)], with type ['application/octet-stream']; for any other
    format it holds the content string itself, and its type is what the
    [Blob] constructor makes of the attachment's [contentType]: the
    [contentType] in ASCII lower case, or the empty string when it has a
    code unit outside U+0020..U+007E.  That is the [contentType] itself
    when it is printable and has no capital letter.  No other blob is ever
    built: when [atob] rejects the content the callback stops without a
    download. *)
Theorem C2_blob_decoding_selected_by_format :
  @blob_built_by_format _ TextInsertion_View
  /\ @blob_built_by_format _ AttachmentProcess_View
  /\ @blob_built_by_format _ ProcessEmailData_View
  /\ (forall t, lower_case_printable t = true -> Blob_type t = t).
Proof.
  split; [| split; [| split]].
  - exact TextInsertion_blob.
  - exact AttachmentProcess_blob.
  - exact ProcessEmailData_blob.
  - exact Blob_type_lower_case_printable.
Qed.

Lemma C2_blob_decoding_selected_by_format_witness :
  map href
    (clicks (@callback_trace _ TextInsertion_View pdfAttachment
               (Office.Succeeded {| Office.content := lit "aGVsbG8=";
                                    Office.format := Office.Base64 |})))
  = [ ObjectURL {| blobParts := [Uint8ArrayPart (lit "hello")];
                   type := lit "application/octet-stream" |} ].
Proof.
  destruct C2_blob_decoding_selected_by_format as (H & _).
  destruct (H pdfAttachment
              {| Office.content := lit "aGVsbG8=";
                 Office.format := Office.Base64 |}) as (Hb & _).
  exact (proj2 (Hb eq_refl (lit "hello") eq_refl)).
Defined.

(** C2, the type of the text blob: for an attachment whose [contentType]
    is ["Application/PDF"] and a content that is not flagged [Base64], the
    blob that is downloaded has the type ["application/pdf"], which is not
    the attachment's [contentType]. *)
Lemma C2_blob_type_is_not_the_contentType :
  map (fun a => match href a with ObjectURL blob => type blob end)
    (clicks (@callback_trace _ TextInsertion_View capitalsAttachment
               (Office.Succeeded {| Office.content := lit "%PDF-1.7";
                                    Office.format := Office.Url |})))
  = [ lit "application/pdf" ]
  /\ map href
       (clicks (@callback_trace _ TextInsertion_View capitalsAttachment
                  (Office.Succeeded {| Office.content := lit "%PDF-1.7";
                                       Office.format := Office.Url |})))
     <> [ ObjectURL
            {| blobParts := [StringPart (lit "%PDF-1.7")];
               type := Office.contentType capitalsAttachment |} ].
Proof.
  split; [reflexivity | discriminate].
Qed.

(** ** What the host encodes, [atob] decodes *)

Lemma In_below (n : nat) (a : N) : (a < N.of_nat n)%N -> In a (below n).
Proof.
  intros H. unfold below. apply in_map_iff. exists (N.to_nat a).
  split; [apply N2Nat.id |]. apply in_seq. lia.
Qed.

Lemma forall_below (n : nat) (p : N -> bool) :
  forallb p (below n) = true -> forall a, (a < N.of_nat n)%N -> p a = true.
Proof.
  intros H a Ha. rewrite forallb_forall in H. apply H, In_below, Ha.
Qed.

Lemma forall2_bytes (p : N -> N -> bool) :
  forallb (fun a => forallb (p a) (below 256)) (below 256) = true ->
  forall a b, (a < 256)%N -> (b < 256)%N -> p a b = true.
Proof.
  intros H a b Ha Hb.
  apply (forall_below 256 (p a)); [| exact Hb].
  exact (forall_below 256 (fun a => forallb (p a) (below 256)) H a Ha).
Qed.

Lemma sextet_facts (v : N) :
  (v < 64)%N ->
  base64_value (base64_char v) = Some v
  /\ is_ascii_whitespace (base64_char v) = false
  /\ base64_char v <> 61%N.
Proof.
  intros H.
  assert (Hb : sextet_check v = true).
  { apply (forall_below 64 sextet_check); [vm_compute; reflexivity | exact H]. }
  unfold sextet_check in Hb.
  apply andb_prop in Hb as [Hb H3]. apply andb_prop in Hb as [H1 H2].
  apply negb_true_iff in H2, H3. apply N.eqb_neq in H3.
  destruct (base64_value (base64_char v)) as [w |]; [| discriminate].
  apply N.eqb_eq in H1. subst w. auto.
Qed.

Lemma bytes2_eq (f g : N -> N -> N) :
  forallb (fun a => forallb (fun b => N.eqb (f a b) (g a b)) (below 256))
    (below 256) = true ->
  forall a b, (a < 256)%N -> (b < 256)%N -> f a b = g a b.
Proof.
  intros H a b Ha Hb. apply N.eqb_eq.
  apply (forall_below 256 (fun b => N.eqb (f a b) (g a b))); [| exact Hb].
  exact (forall_below 256
           (fun a => forallb (fun b => N.eqb (f a b) (g a b)) (below 256))
           H a Ha).
Qed.

Ltac by_bytes f g :=
  let H := fresh in
  assert (H : forallb (fun a => forallb (fun b => N.eqb (f a b) (g a b))
                                  (below 256)) (below 256) = true)
    by (vm_compute; reflexivity);
  exact (bytes2_eq f g H).

Lemma land_shiftl_255 (x k : N) : (8 <= k)%N -> N.land (N.shiftl x k) 255 = 0%N.
Proof.
  intros Hk. change 255%N with (N.ones 8). rewrite N.land_ones.
  rewrite N.shiftl_mul_pow2.
  replace k with ((k - 8) + 8)%N by lia.
  rewrite N.pow_add_r, N.mul_assoc. apply N.Div0.mod_mul.
Qed.

Lemma shiftr_small (x k : N) : (x < 2 ^ k)%N -> N.shiftr x k = 0%N.
Proof. intros H. rewrite N.shiftr_div_pow2. now apply N.div_small. Qed.

Lemma bits_ab : forall a b, (a < 256)%N -> (b < 256)%N ->
  N.land (N.lor (N.shiftl (sextet1 a) 2) (N.shiftr (sextet2 a b) 4)) 255 = a.
Proof.
  by_bytes (fun a b => N.land (N.lor (N.shiftl (sextet1 a) 2) (N.shiftr (sextet2 a b) 4)) 255)
           (fun a b : N => a).
Qed.

Lemma bits_sextet2 : forall a b, (a < 256)%N -> (b < 256)%N ->
  N.land (N.shiftl (sextet2 a b) 4) 255 = N.shiftl (N.shiftr b 4) 4.
Proof.
  by_bytes (fun a b => N.land (N.shiftl (sextet2 a b) 4) 255)
           (fun a b : N => N.shiftl (N.shiftr b 4) 4).
Qed.

Lemma bits_sextet3_high : forall b c, (b < 256)%N -> (c < 256)%N ->
  N.land (N.shiftr (sextet3 b c) 2) 255 = N.land b 15.
Proof.
  by_bytes (fun b c => N.land (N.shiftr (sextet3 b c) 2) 255)
           (fun b c : N => N.land b 15).
Qed.

Lemma bits_sextet3_low : forall b c, (b < 256)%N -> (c < 256)%N ->
  N.lor (N.land (N.shiftl (sextet3 b c) 6) 255) (N.land (sextet4 c) 255) = c.
Proof.
  by_bytes (fun b c => N.lor (N.land (N.shiftl (sextet3 b c) 6) 255) (N.land (sextet4 c) 255))
           (fun b c : N => c).
Qed.

Lemma bits_b : forall b c, (b < 256)%N -> (c < 256)%N ->
  N.lor (N.shiftl (N.shiftr b 4) 4) (N.land b 15) = b.
Proof.
  by_bytes (fun b c : N => N.lor (N.shiftl (N.shiftr b 4) 4) (N.land b 15))
           (fun b c : N => b).
Qed.

Lemma sextet3_sextet4_small : forall b c, (b < 256)%N -> (c < 256)%N ->
  N.max (sextet3 b c) (sextet4 c) = N.min (N.max (sextet3 b c) (sextet4 c)) 63.
Proof.
  by_bytes (fun b c : N => N.max (sextet3 b c) (sextet4 c))
           (fun b c : N => N.min (N.max (sextet3 b c) (sextet4 c)) 63).
Qed.

Lemma sextet1_sextet2_small : forall a b, (a < 256)%N -> (b < 256)%N ->
  N.max (sextet1 a) (sextet2 a b) = N.min (N.max (sextet1 a) (sextet2 a b)) 63.
Proof.
  by_bytes (fun a b : N => N.max (sextet1 a) (sextet2 a b))
           (fun a b : N => N.min (N.max (sextet1 a) (sextet2 a b)) 63).
Qed.

Lemma sextets_small a b c : (a < 256)%N -> (b < 256)%N -> (c < 256)%N ->
  (sextet1 a < 64 /\ sextet2 a b < 64 /\ sextet3 b c < 64 /\ sextet4 c < 64)%N.
Proof.
  intros Ha Hb Hc.
  pose proof (sextet1_sextet2_small a b Ha Hb). pose proof (sextet3_sextet4_small b c Hb Hc). lia.
Qed.

Lemma decode_group a b c rest :
  (a < 256)%N -> (b < 256)%N -> (c < 256)%N ->
  decode_sextets (sextet1 a :: sextet2 a b :: sextet3 b c :: sextet4 c :: rest)
  = a :: b :: c :: decode_sextets rest.
Proof.
  intros Ha Hb Hc.
  destruct (sextets_small a b c Ha Hb Hc) as (_ & _ & H3 & H4).
  cbn [decode_sextets]. cbv zeta. unfold byte_of.
  rewrite !N.shiftr_lor.
  rewrite (N.shiftr_shiftl_l (sextet1 a) 18 16), (N.shiftr_shiftl_l (sextet1 a) 18 8),
    (N.shiftr_shiftl_l (sextet2 a b) 12 8) by discriminate.
  rewrite (N.shiftr_shiftl_r (sextet2 a b) 12 16), (N.shiftr_shiftl_r (sextet3 b c) 6 16),
    (N.shiftr_shiftl_r (sextet3 b c) 6 8) by discriminate.
  change (18 - 16)%N with 2%N. change (18 - 8)%N with 10%N.
  change (12 - 8)%N with 4%N. change (16 - 12)%N with 4%N.
  change (16 - 6)%N with 10%N. change (8 - 6)%N with 2%N.
  rewrite (shiftr_small (sextet3 b c) 10), (shiftr_small (sextet4 c) 16),
    (shiftr_small (sextet4 c) 8)
    by (eapply N.lt_trans; [eassumption | reflexivity]).
  rewrite !N.lor_0_r.
  rewrite bits_ab by assumption.
  rewrite !N.land_lor_distr_l.
  rewrite (land_shiftl_255 (sextet1 a) 10), (land_shiftl_255 (sextet1 a) 18),
    (land_shiftl_255 (sextet2 a b) 12) by discriminate.
  rewrite bits_sextet2, bits_sextet3_high by assumption.
  rewrite !N.lor_0_l.
  rewrite (bits_b b c) by assumption.
  now rewrite bits_sextet3_low by assumption.
Qed.

Lemma decode_pair : forall a b, (a < 256)%N -> (b < 256)%N ->
  decode_sextets [sextet1 a; sextet2 a b; sextet3 b 0] = [a; b].
Proof.
  intros a b Ha Hb. cbn [decode_sextets]. cbv zeta.
  f_equal; [| f_equal]; revert a b Ha Hb.
  - by_bytes (fun a b : N =>
                byte_of (N.shiftr (N.shiftr (N.lor (N.lor (N.shiftl (sextet1 a) 12)
                   (N.shiftl (sextet2 a b) 6)) (sextet3 b 0)) 2) 8))
             (fun a b : N => a).
  - by_bytes (fun a b : N =>
                byte_of (N.shiftr (N.lor (N.lor (N.shiftl (sextet1 a) 12)
                   (N.shiftl (sextet2 a b) 6)) (sextet3 b 0)) 2))
             (fun a b : N => b).
Qed.

Lemma decode_single : forall a, (a < 256)%N ->
  decode_sextets [sextet1 a; sextet2 a 0] = [a].
Proof.
  intros a Ha. cbn [decode_sextets]. cbv zeta. f_equal.
  assert (H : forall a b : N, (a < 256)%N -> (b < 256)%N ->
                byte_of (N.shiftr (N.lor (N.shiftl (sextet1 a) 6)
                                     (sextet2 a 0)) 4) = a).
  { by_bytes (fun a _ : N =>
                byte_of (N.shiftr (N.lor (N.shiftl (sextet1 a) 6)
                                     (sextet2 a 0)) 4))
             (fun a _ : N => a). }
  exact (H a a Ha Ha).
Qed.

Lemma tail_sextets_small : forall a b, (a < 256)%N -> (b < 256)%N ->
  N.max (sextet3 b 0) (sextet2 a 0)
  = N.min (N.max (sextet3 b 0) (sextet2 a 0)) 63.
Proof.
  by_bytes (fun a b : N => N.max (sextet3 b 0) (sextet2 a 0))
           (fun a b : N => N.min (N.max (sextet3 b 0) (sextet2 a 0)) 63).
Qed.

(** Lists are taken three elements at a time. *)
Lemma list_ind3 (A : Type) (P : list A -> Prop) :
  P [] -> (forall a, P [a]) -> (forall a b, P [a; b]) ->
  (forall a b c l, P l -> P (a :: b :: c :: l)) ->
  forall l, P l.
Proof.
  intros H0 H1 H2 H3.
  fix IH 1.
  intros [| a [| b [| c l]]];
    [exact H0 | exact (H1 a) | exact (H2 a b) | exact (H3 a b c l (IH l))].
Qed.

Lemma base64_sextets_decodes (bytes : list N) :
  Forall is_byte bytes -> decode_sextets (base64_sextets bytes) = bytes.
Proof.
  induction bytes as [| a | a b | a b c l IH] using list_ind3; intros H.
  - reflexivity.
  - inversion_clear H. now apply decode_single.
  - inversion_clear H as [| ? ? Ha H']. inversion_clear H' as [| ? ? Hb _].
    now apply decode_pair.
  - inversion_clear H as [| ? ? Ha H']. inversion_clear H' as [| ? ? Hb H''].
    inversion_clear H'' as [| ? ? Hc Hl].
    cbn [base64_sextets].
    rewrite decode_group by assumption. now rewrite IH.
Qed.

Lemma base64_sextets_small (bytes : list N) :
  Forall is_byte bytes -> Forall (fun v => (v < 64)%N) (base64_sextets bytes).
Proof.
  induction bytes as [| a | a b | a b c l IH] using list_ind3; intros H.
  - constructor.
  - inversion_clear H as [| ? ? Ha _].
    pose proof (sextet1_sextet2_small a a Ha Ha). pose proof (tail_sextets_small a a Ha Ha).
    cbn [base64_sextets]. repeat constructor; lia.
  - inversion_clear H as [| ? ? Ha H']. inversion_clear H' as [| ? ? Hb _].
    pose proof (sextet1_sextet2_small a b Ha Hb). pose proof (tail_sextets_small a b Ha Hb).
    cbn [base64_sextets]. repeat constructor; lia.
  - inversion_clear H as [| ? ? Ha H']. inversion_clear H' as [| ? ? Hb H''].
    inversion_clear H'' as [| ? ? Hc Hl].
    destruct (sextets_small a b c Ha Hb Hc) as (? & ? & ? & ?).
    cbn [base64_sextets].
    repeat (constructor; [assumption |]). now apply IH.
Qed.

(** Lengths: three bytes give four sextets, a rest of one byte gives two
    and a rest of two bytes gives three. *)
Lemma base64_sextets_length (bytes : list N) :
  (length bytes mod 3 = 0 /\ length (base64_sextets bytes) mod 4 = 0
   \/ length bytes mod 3 = 1 /\ length (base64_sextets bytes) mod 4 = 2
   \/ length bytes mod 3 = 2 /\ length (base64_sextets bytes) mod 4 = 3)%nat.
Proof.
  induction bytes as [| a | a b | a b c l IH] using list_ind3.
  - left. split; reflexivity.
  - right. left. split; reflexivity.
  - right. right. split; reflexivity.
  - cbn [base64_sextets length].
    replace (S (S (S (length l)))) with (length l + 1 * 3)%nat by lia.
    replace (S (S (S (S (length (base64_sextets l))))))
      with (length (base64_sextets l) + 1 * 4)%nat by lia.
    now rewrite !Nat.Div0.mod_add.
Qed.


Ltac by_sextet H :=
  apply (In_below 64) in H; cbv in H;
  repeat (destruct H as [<- | H]; [reflexivity |]); contradiction.

(** A character of the alphabet at the end of the text is not padding. *)
Lemma no_padding_to_strip (v : N) (r l : list N) :
  (v < 64)%N ->
  match base64_char v :: r with
  | 61%N :: 61%N :: r' => rev r'
  | 61%N :: r' => rev r'
  | _ => l
  end = l.
Proof. intros H. by_sextet H. Qed.

Lemma one_padding_to_strip (v : N) (r l : list N) :
  (v < 64)%N ->
  match 61%N :: base64_char v :: r with
  | 61%N :: 61%N :: r' => rev r'
  | 61%N :: r' => rev r'
  | _ => l
  end = rev (base64_char v :: r).
Proof. intros H. by_sextet H. Qed.

Lemma strip_padding_encode (bytes : list N) :
  Forall is_byte bytes ->
  strip_padding (base64_encode bytes)
  = map base64_char (base64_sextets bytes).
Proof.
  intros Hbytes.
  pose proof (base64_sextets_small bytes Hbytes) as Hs.
  apply Forall_rev in Hs.
  unfold base64_encode, base64_padding, strip_padding.
  rewrite length_app, length_map, rev_app_distr, <- map_rev.
  destruct (base64_sextets_length bytes) as [[Hb Hl] | [[Hb Hl] | [Hb Hl]]];
    rewrite Hb; cbn [length rev app]; rewrite Nat.Div0.add_mod, Hl;
    cbn [Nat.add Nat.modulo Nat.divmod fst snd Nat.sub Nat.eqb].
  - rewrite app_nil_r.
    destruct (rev (base64_sextets bytes)) as [| v r] eqn:Hr; [reflexivity |].
    inversion_clear Hs as [| ? ? Hv _]. cbn [map].
    now apply no_padding_to_strip.
  - now rewrite map_rev, rev_involutive.
  - destruct (rev (base64_sextets bytes)) as [| v r] eqn:Hr.
    + apply (f_equal (@length N)) in Hr. rewrite length_rev in Hr.
      rewrite Hr in Hl. discriminate.
    + inversion_clear Hs as [| ? ? Hv _]. cbn [map].
      rewrite one_padding_to_strip by assumption.
      change (base64_char v :: map base64_char r)
        with (map base64_char (v :: r)).
      now rewrite <- Hr, map_rev, rev_involutive.
Qed.

Lemma sextets_of_chars (vs : list N) :
  Forall (fun v => (v < 64)%N) vs -> sextets (map base64_char vs) = Some vs.
Proof.
  induction 1 as [| v vs Hv _ IH]; [reflexivity |].
  cbn [map sextets]. destruct (sextet_facts v Hv) as (-> & _). now rewrite IH.
Qed.

Lemma base64_encode_no_whitespace (bytes : list N) :
  Forall is_byte bytes ->
  filter (fun c => negb (is_ascii_whitespace c)) (base64_encode bytes)
  = base64_encode bytes.
Proof.
  intros Hbytes. unfold base64_encode. rewrite filter_app. f_equal.
  - pose proof (base64_sextets_small bytes Hbytes) as Hs.
    induction Hs as [| v vs Hv _ IH]; [reflexivity |].
    cbn [map filter]. destruct (sextet_facts v Hv) as (_ & -> & _).
    cbn [negb]. now rewrite IH.
  - unfold base64_padding.
    destruct (length bytes mod 3)%nat as [| [| n]]; reflexivity.
Qed.

(** [atob] gives back the bytes the host encoded. *)
Lemma atob_base64_encode (bytes : list N) :
  Forall is_byte bytes -> atob (base64_encode bytes) = Normal bytes.
Proof.
  intros Hbytes. unfold atob.
  rewrite base64_encode_no_whitespace, strip_padding_encode by assumption.
  rewrite length_map.
  assert (Hl : (length (base64_sextets bytes) mod 4 =? 1)%nat = false).
  { destruct (base64_sextets_length bytes) as [[_ Hl] | [[_ Hl] | [_ Hl]]];
      now rewrite Hl. }
  rewrite Hl, sextets_of_chars by now apply base64_sextets_small.
  now rewrite base64_sextets_decodes.
Qed.

Lemma host_encoded_decodable (value : Office.AttachmentContent) :
  host_encoded value -> decodable value = true.
Proof.
  unfold host_encoded, decodable. intros H.
  destruct (Office.format value); [| reflexivity ..].
  destruct (H eq_refl) as (bytes & Hbytes & ->).
  now rewrite atob_base64_encode.
Qed.

Lemma host_result_decodable (result : Office.AsyncResult) :
  host_result result -> result_decodable result = true.
Proof.
  destruct result as [value | error]; [| reflexivity].
  exact (host_encoded_decodable value).
Qed.

(** ** C6: one content request per host entry, one download per delivery *)

Lemma requests_request_events atts :
  requests (request_events atts) = map (fun a => (Office.id a, a)) atts.
Proof.
  induction atts as [| a atts IH]; cbn; [reflexivity | now rewrite <- IH].
Qed.

Lemma clicks_request_events atts : clicks (request_events atts) = [].
Proof. induction atts as [| a atts IH]; cbn; auto. Qed.

Ltac run_download H :=
  unfold run, try_catch, bind, item_attachments_forEach, bind, emit, eval,
    empty_store; cbn [trace heap app];
  rewrite H; try rewrite forEach_requests_loop; reflexivity.

Lemma TextInsertion_download_normal item s atts :
  Office.attachments item = Normal atts ->
  run (TextInsertion.downloadAttachments item s)
  = (Normal tt,
     {| trace := AttachmentsForEach :: request_events atts; heap := [] |}).
Proof. intros H. unfold TextInsertion.downloadAttachments. run_download H. Qed.

Lemma AttachmentProcess_download_normal item s atts :
  Office.attachments item = Normal atts ->
  run (AttachmentProcess.downloadAttachments item s)
  = (Normal tt,
     {| trace := AttachmentsForEach :: request_events atts; heap := [] |}).
Proof.
  intros H. unfold AttachmentProcess.downloadAttachments. run_download H.
Qed.

Lemma ProcessEmailData_download_normal item s atts :
  Office.attachments item = Normal atts ->
  run (ProcessEmailData.downloadAttachments item s)
  = (Normal tt,
     {| trace :=
          AttachmentsForEach
          :: request_events atts
          ++ [ AppendChild (metaDataAnchor (ProcessEmailData.metaData s));
               Click (metaDataAnchor (ProcessEmailData.metaData s));
               RemoveChild (metaDataAnchor (ProcessEmailData.metaData s)) ];
        heap := [] |}).
Proof.
  intros H.
  unfold ProcessEmailData.downloadAttachments,
    ProcessEmailData.downloadMetaData, anchorDownload.
  unfold run, try_catch, bind, item_attachments_forEach, bind, emit, eval,
    empty_store; cbn [trace heap app].
  rewrite H, forEach_requests_loop. cbn [trace heap app].
  unfold metaDataAnchor, request_events.
  now rewrite <- !app_assoc.
Qed.

Lemma TextInsertion_download_throw item s e :
  Office.attachments item = Throw e ->
  run (TextInsertion.downloadAttachments item s)
  = (Normal tt, failed_download_store e).
Proof. intros H. unfold TextInsertion.downloadAttachments. run_download H. Qed.

Lemma AttachmentProcess_download_throw item s e :
  Office.attachments item = Throw e ->
  run (AttachmentProcess.downloadAttachments item s)
  = (Normal tt, failed_download_store e).
Proof.
  intros H. unfold AttachmentProcess.downloadAttachments. run_download H.
Qed.

Lemma ProcessEmailData_download_throw item s e :
  Office.attachments item = Throw e ->
  run (ProcessEmailData.downloadAttachments item s)
  = (Normal tt, failed_download_store e).
Proof.
  intros H. unfold ProcessEmailData.downloadAttachments. run_download H.
Qed.

Lemma attachmentBlob_decodable attachment value st :
  decodable value = true ->
  exists blob, attachmentBlob attachment value st = (Normal blob, st).
Proof.
  unfold decodable. intros Hd.
  destruct (Office.format value) eqn:Hf; cbn in Hd.
  - destruct (atob (Office.content value)) as [bs | e] eqn:Ha;
      [| discriminate].
    eexists. now apply attachmentBlob_base64 with (byteCharacters := bs).
  - eexists. apply attachmentBlob_text. congruence.
  - eexists. apply attachmentBlob_text. congruence.
  - eexists. apply attachmentBlob_text. congruence.
Qed.

Lemma requests_cons_other e t :
  match e with GetAttachmentContentAsync _ _ => False | _ => True end ->
  requests (e :: t) = requests t.
Proof. destruct e; cbn; tauto. Qed.

Lemma requests_app t1 t2 : requests (t1 ++ t2) = requests t1 ++ requests t2.
Proof. apply flat_map_app. Qed.

Lemma clicks_app t1 t2 : clicks (t1 ++ t2) = clicks t1 ++ clicks t2.
Proof. apply flat_map_app. Qed.

Lemma TextInsertion_downloads : @downloads_spec _ TextInsertion_View.
Proof.
  split; [| split].
  - intros item s. unfold entries. cbn [downloadOf TextInsertion_View].
    destruct (Office.attachments item) as [atts | e] eqn:H.
    + rewrite (TextInsertion_download_normal _ s _ H). cbn [snd trace].
      rewrite requests_cons_other by exact I.
      apply requests_request_events.
    + now rewrite (TextInsertion_download_throw _ s _ H).
  - intros attachment value Hd. run_callback.
    destruct (attachmentBlob_decodable attachment value empty_store Hd)
      as [blob ->].
    now exists blob.
  - intros attachment error. reflexivity.
Qed.

Lemma AttachmentProcess_downloads :
  @downloads_spec _ AttachmentProcess_View.
Proof.
  split; [| split].
  - intros item s. unfold entries. cbn [downloadOf AttachmentProcess_View].
    destruct (Office.attachments item) as [atts | e] eqn:H.
    + rewrite (AttachmentProcess_download_normal _ s _ H). cbn [snd trace].
      rewrite requests_cons_other by exact I.
      apply requests_request_events.
    + now rewrite (AttachmentProcess_download_throw _ s _ H).
  - intros attachment value Hd. run_callback.
    destruct (attachmentBlob_decodable attachment value empty_store Hd)
      as [blob ->].
    now exists blob.
  - intros attachment error. reflexivity.
Qed.

Lemma ProcessEmailData_downloads :
  @downloads_spec _ ProcessEmailData_View.
Proof.
  split; [| split].
  - intros item s. unfold entries. cbn [downloadOf ProcessEmailData_View].
    destruct (Office.attachments item) as [atts | e] eqn:H.
    + rewrite (ProcessEmailData_download_normal _ s _ H). cbn [snd trace].
      rewrite requests_cons_other by exact I.
      rewrite requests_app, requests_request_events. cbn.
      now rewrite app_nil_r.
    + now rewrite (ProcessEmailData_download_throw _ s _ H).
  - intros attachment value Hd. run_callback.
    destruct (attachmentBlob_decodable attachment value empty_store Hd)
      as [blob ->].
    now exists blob.
  - intros attachment error. reflexivity.
Qed.

Section HostDownloads.
Context {State : Type} {V : View State}.

Lemma downloads_of_host_results_from_spec :
  downloads_spec -> downloads_of_host_results.
Proof.
  intros (Hreq & Hsucc & Hfail). split; [exact Hreq | split; [| exact Hfail]].
  intros attachment value Hv.
  apply Hsucc. now apply host_encoded_decodable.
Qed.
End HostDownloads.

(** C6: [downloadAttachments] issues exactly one content request
    per entry of the host attachment list, in list order, keyed by the
    identifier of that entry; each request that succeeds, with any content
    the host delivers, clicks exactly one anchor whose [download] name is
    the display name of the attachment, and a failed request clicks
    none. *)
Theorem C6_one_request_per_entry_one_download_per_success :
  @downloads_of_host_results _ TextInsertion_View
  /\ @downloads_of_host_results _ AttachmentProcess_View
  /\ @downloads_of_host_results _ ProcessEmailData_View.
Proof.
  split; [| split]; apply downloads_of_host_results_from_spec.
  - exact TextInsertion_downloads.
  - exact AttachmentProcess_downloads.
  - exact ProcessEmailData_downloads.
Qed.

Lemma C6_one_request_per_entry_one_download_per_success_witness :
  host_encoded {| Office.content := lit "aGVsbG8=";
                  Office.format := Office.Base64 |}
  /\ exists blob,
       clicks (@callback_trace _ TextInsertion_View pdfAttachment
                 (Office.Succeeded {| Office.content := lit "aGVsbG8=";
                                      Office.format := Office.Base64 |}))
       = [ {| href := ObjectURL blob; download := lit "a.pdf" |} ].
Proof.
  assert (Hhost : host_encoded {| Office.content := lit "aGVsbG8=";
                                  Office.format := Office.Base64 |}).
  { intros _. exists (lit "hello"). split; [| reflexivity].
    repeat constructor. }
  split; [exact Hhost |].
  destruct C6_one_request_per_entry_one_download_per_success
    as ((_ & H & _) & _).
  exact (H pdfAttachment
            {| Office.content := lit "aGVsbG8=";
               Office.format := Office.Base64 |} Hhost).
Defined.

(** The callback has no error handling of its own: were it called with a
    success whose content is flagged [Base64] and is not base64 text,
    [atob] would throw before any anchor is created.  That result is not
    one the host delivers. *)
Lemma malformed_content_is_not_downloaded :
  run (TextInsertion.contentCallback pdfAttachment
         (Office.Succeeded {| Office.content := lit "!";
                              Office.format := Office.Base64 |}))
  = (Throw InvalidCharacterError, empty_store)
  /\ ~ host_encoded {| Office.content := lit "!";
                       Office.format := Office.Base64 |}.
Proof.
  split; [reflexivity |].
  intros H. apply host_encoded_decodable in H. discriminate H.
Qed.

(** ** C9: the submission flag is whatever the last callback wrote *)

Lemma AttachmentProcess_after_callback s attachment result :
  result_decodable result = true ->
  AttachmentProcess.after s
    (AttachmentProcess.contentCallback attachment result)
  = {| AttachmentProcess.attachments := AttachmentProcess.attachments s;
       AttachmentProcess.isAttachmentFetched :=
         AttachmentProcess.isAttachmentFetched s;
       AttachmentProcess.isSubmissionInitiated := succeeded result |}.
Proof.
  intros Hd. destruct result as [value | error]; [| reflexivity].
  unfold AttachmentProcess.after, run, AttachmentProcess.contentCallback,
    bind.
  destruct (attachmentBlob_decodable attachment value empty_store Hd)
    as [blob ->].
  reflexivity.
Qed.

Lemma ProcessEmailData_after_callback s attachment result :
  result_decodable result = true ->
  ProcessEmailData.after s
    (ProcessEmailData.contentCallback attachment result)
  = {| ProcessEmailData.attachments := ProcessEmailData.attachments s;
       ProcessEmailData.isAttachmentFetched :=
         ProcessEmailData.isAttachmentFetched s;
       ProcessEmailData.isSubmissionInitiated := succeeded result;
       ProcessEmailData.isConsent := ProcessEmailData.isConsent s;
       ProcessEmailData.metaData := ProcessEmailData.metaData s |}.
Proof.
  intros Hd. destruct result as [value | error]; [| reflexivity].
  unfold ProcessEmailData.after, run, ProcessEmailData.contentCallback,
    bind.
  destruct (attachmentBlob_decodable attachment value empty_store Hd)
    as [blob ->].
  reflexivity.
Qed.

Lemma deliver_snoc {State} {V : View State} (s : State) cs c :
  deliver s (cs ++ [c]) = afterOf (deliver s cs) (callbackOf (fst c) (snd c)).
Proof. unfold deliver. now rewrite fold_left_app. Qed.

Lemma Field_color_injective c1 c2 t1 t2 :
  Field c1 t1 = Field c2 t2 -> c1 = c2.
Proof. now intros [= -> _]. Qed.

Lemma successBanner_not_noAttachments :
  successBanner <> noAttachmentsMessage.
Proof. intros H. apply Field_color_injective in H. discriminate H. Qed.

Ltac not_banner :=
  match goal with
  | H : successBanner = _ |- _ =>
      solve [ discriminate H
            | apply Field_color_injective in H; discriminate H ]
  | H : _ = successBanner |- _ =>
      solve [ discriminate H
            | apply Field_color_injective in H; discriminate H ]
  end.

Ltac in_cases :=
  repeat match goal with
         | H : In _ (_ ++ _) |- _ => apply in_app_or in H; destruct H as [H | H]
         | H : In _ (when true _) |- _ => cbn [when] in H
         | H : In _ (when false _) |- _ => cbn [when] in H
         | H : In _ (when ?b _) |- _ => destruct b eqn:?; cbn [when] in H
         | H : In _ (_ :: _) |- _ => destruct H as [H | H]
         | H : In _ [] |- _ => destruct H
         end.

Lemma AttachmentProcess_banner :
  @banner_follows_flag _ AttachmentProcess_View
    AttachmentProcess.isSubmissionInitiated.
Proof.
  intros item s els.
  cbn [renderOf AttachmentProcess_View]. unfold AttachmentProcess.render.
  destruct (if AttachmentProcess.showMetaData s
            then AttachmentProcess.metaDataPanel item s else Normal [])
    as [panel | e] eqn:Hpanel; [| discriminate].
  intros [= <-]. split.
  - intros Hin.
    destruct (AttachmentProcess.isSubmissionInitiated s) eqn:Hsub;
      [reflexivity |].
    unfold AttachmentProcess.showMetaData in Hpanel.
    rewrite Hsub in Hpanel.
    unfold AttachmentProcess.metaDataPanel in Hpanel.
    destruct (0 <? length (AttachmentProcess.attachments s))%nat eqn:Hlen;
      cbn [andb negb] in Hpanel;
      [ destruct (first_emailAddress (Office.to item)); [| discriminate] |];
      injection Hpanel as <-; in_cases; not_banner.
  - intros ->. cbn [when]. rewrite !in_app_iff. right. right. right.
    now left.
Qed.

Lemma ProcessEmailData_banner :
  @banner_follows_flag _ ProcessEmailData_View
    ProcessEmailData.isSubmissionInitiated.
Proof.
  intros item s els.
  cbn [renderOf ProcessEmailData_View]. unfold ProcessEmailData.render.
  intros [= <-]. split.
  - intros Hin.
    destruct (ProcessEmailData.isSubmissionInitiated s) eqn:Hsub;
      [reflexivity |].
    unfold ProcessEmailData.proceedButton in Hin.
    in_cases; not_banner.
  - intros ->. cbn [when]. rewrite !in_app_iff. right. right. right.
    now left.
Qed.

Lemma AttachmentProcess_submission_flag :
  @submission_flag_spec _ AttachmentProcess_View
    AttachmentProcess.isSubmissionInitiated.
Proof.
  split; [| split; [| split]].
  - intros attachment [value | error] Hd; [| reflexivity].
    run_callback.
    destruct (attachmentBlob_decodable attachment value empty_store Hd)
      as [blob ->].
    reflexivity.
  - intros s cs attachment result Hd.
    rewrite deliver_snoc. cbn [fst snd].
    change (AttachmentProcess.isSubmissionInitiated
              (AttachmentProcess.after (deliver s cs)
                 (AttachmentProcess.contentCallback attachment result))
            = succeeded result).
    now rewrite AttachmentProcess_after_callback.
  - exact AttachmentProcess_banner.
  - exists failThenSucceed. split.
    + apply Exists_cons_hd. reflexivity.
    + reflexivity.
Qed.

Lemma ProcessEmailData_submission_flag :
  @submission_flag_spec _ ProcessEmailData_View
    ProcessEmailData.isSubmissionInitiated.
Proof.
  split; [| split; [| split]].
  - intros attachment [value | error] Hd; [| reflexivity].
    run_callback.
    destruct (attachmentBlob_decodable attachment value empty_store Hd)
      as [blob ->].
    reflexivity.
  - intros s cs attachment result Hd.
    rewrite deliver_snoc. cbn [fst snd].
    change (ProcessEmailData.isSubmissionInitiated
              (ProcessEmailData.after (deliver s cs)
                 (ProcessEmailData.contentCallback attachment result))
            = succeeded result).
    now rewrite ProcessEmailData_after_callback.
  - exact ProcessEmailData_banner.
  - exists failThenSucceed. split.
    + apply Exists_cons_hd. reflexivity.
    + reflexivity.
Qed.

Section HostSubmissionFlag.
Context {State : Type} {V : View State}.
Variable isSubmissionInitiatedOf : State -> bool.

Lemma submission_flag_of_host_results_from_spec :
  submission_flag_spec isSubmissionInitiatedOf ->
  (exists cs,
      Forall (fun c => host_result (snd c)) cs
      /\ Exists (fun c => succeeded (snd c) = false) cs
      /\ isSubmissionInitiatedOf (deliver initialOf cs) = true) ->
  submission_flag_of_host_results isSubmissionInitiatedOf.
Proof.
  intros (Hset & Hlast & Hbanner & _) Hrun.
  split; [| split; [| split; [exact Hbanner | exact Hrun]]].
  - intros attachment result Hr. apply Hset.
    now apply host_result_decodable.
  - intros s cs attachment result Hr. apply Hlast.
    now apply host_result_decodable.
Qed.
End HostSubmissionFlag.

Lemma failThenSucceed_host_results :
  Forall (fun c => host_result (snd c)) failThenSucceed.
Proof.
  repeat constructor. cbn. intros H. discriminate H.
Qed.

(** C9: in the metadata and consent variants each content
    callback queues [setIsSubmissionInitiated(true)] when the fetch
    succeeded and [setIsSubmissionInitiated(false)] when it failed, for
    every result the host delivers; so after the callbacks of a run have
    been delivered the flag, and with it the success banner, is the outcome
    of the callback that ran last, and a run in which a fetch failed can
    end with the banner shown. *)
Theorem C9_submission_flag_is_last_callback_outcome :
  @submission_flag_of_host_results _ AttachmentProcess_View
    AttachmentProcess.isSubmissionInitiated
  /\ @submission_flag_of_host_results _ ProcessEmailData_View
       ProcessEmailData.isSubmissionInitiated.
Proof.
  split; apply submission_flag_of_host_results_from_spec.
  - exact AttachmentProcess_submission_flag.
  - exists failThenSucceed.
    split; [exact failThenSucceed_host_results | split].
    + apply Exists_cons_hd. reflexivity.
    + reflexivity.
  - exact ProcessEmailData_submission_flag.
  - exists failThenSucceed.
    split; [exact failThenSucceed_host_results | split].
    + apply Exists_cons_hd. reflexivity.
    + reflexivity.
Qed.

Lemma C9_submission_flag_is_last_callback_outcome_witness :
  host_result
    (Office.Succeeded {| Office.content := lit "notes";
                         Office.format := Office.Url |})
  /\ AttachmentProcess.isSubmissionInitiated
       (@deliver _ AttachmentProcess_View AttachmentProcess.initial
          failThenSucceed)
     = true.
Proof.
  assert (Hhost : host_result
                    (Office.Succeeded {| Office.content := lit "notes";
                                         Office.format := Office.Url |})).
  { cbn. intros H. discriminate H. }
  split; [exact Hhost |].
  destruct C9_submission_flag_is_last_callback_outcome
    as ((_ & Hlast & _) & _).
  exact (Hlast AttachmentProcess.initial
           [ (pdfAttachment, Office.Failed (HostError (lit "timeout"))) ]
           txtAttachment
           (Office.Succeeded {| Office.content := lit "notes";
                                Office.format := Office.Url |})
           Hhost).
Defined.

(** With that result as the last one of a run, the callback throws before
    reaching the setter and the flag keeps the [false] written by the
    failed fetch before it. *)
Lemma malformed_content_leaves_flag :
  AttachmentProcess.isSubmissionInitiated
    (@deliver _ AttachmentProcess_View AttachmentProcess.initial
       [ (pdfAttachment, Office.Failed (HostError (lit "timeout")));
         (txtAttachment,
          Office.Succeeded {| Office.content := lit "!";
                              Office.format := Office.Base64 |}) ])
  = false.
Proof. reflexivity. Qed.

(** ** C4: the [Proceed] button is never disabled *)

(** C4: in the consent-gated view the [Proceed] button is rendered only
    while the attachments state is empty, and there its [disabled]
    expression [!isConsent && attachments.length > 0] is false whatever
    [isConsent] holds; a click on it therefore runs [getMetadata] also
    when the consent box is unchecked. *)
Theorem C4_proceed_button_enabled_without_consent
    (s : ProcessEmailData.State) :
  (forall disabled label,
      In (Button disabled onGetMetadata label) (ProcessEmailData.render s) ->
      disabled = false /\ ProcessEmailData.attachments s = [])
  /\ (ProcessEmailData.showConsent s = true ->
      In (ProcessEmailData.proceedButton s) (ProcessEmailData.render s)
      /\ ProcessEmailData.proceedButton s
         = Button false onGetMetadata (lit "Proceed")
      /\ forall item,
           ProcessEmailData.click item s (ProcessEmailData.proceedButton s)
           = Some (run (ProcessEmailData.getMetadata item s))).
Proof.
  assert (Hbtn : ProcessEmailData.showConsent s = true ->
                 ProcessEmailData.attachments s = []
                 /\ ProcessEmailData.proceedButton s
                    = Button false onGetMetadata (lit "Proceed")).
  { unfold ProcessEmailData.showConsent, ProcessEmailData.proceedButton.
    destruct (ProcessEmailData.attachments s); [| discriminate].
    intros _. cbn. now rewrite andb_false_r. }
  split.
  - intros disabled label Hin. unfold ProcessEmailData.render in Hin.
    destruct (ProcessEmailData.showConsent s) eqn:Hshow.
    + destruct (Hbtn eq_refl) as [Hempty Heq]. rewrite Heq in Hin.
      in_cases; try discriminate.
      injection Hin as <- _. auto.
    + in_cases; discriminate.
  - intros Hshow. destruct (Hbtn Hshow) as [Hempty Heq].
    split; [| split].
    + unfold ProcessEmailData.render. rewrite Hshow. cbn [when].
      apply in_or_app. left. cbn. auto.
    + exact Heq.
    + intros item. now rewrite Heq.
Qed.

Lemma C4_proceed_button_enabled_without_consent_witness :
  ProcessEmailData.showConsent ProcessEmailData.initial = true
  /\ ProcessEmailData.isConsent ProcessEmailData.initial = false
  /\ ProcessEmailData.click demoItem ProcessEmailData.initial
       (ProcessEmailData.proceedButton ProcessEmailData.initial)
     = Some (run (ProcessEmailData.getMetadata demoItem
                    ProcessEmailData.initial)).
Proof.
  split; [reflexivity | split; [reflexivity |]].
  destruct (C4_proceed_button_enabled_without_consent
              ProcessEmailData.initial) as (_ & H).
  destruct (H eq_refl) as (_ & _ & Hclick).
  exact (Hclick demoItem).
Defined.

(** ** C5: the metadata record *)

Lemma unlit_lit (str : string) :
  string_of_list_ascii (map ascii_of_N (lit str)) = str.
Proof.
  unfold lit. rewrite map_map.
  rewrite (map_ext _ (fun c => c)) by apply ascii_N_embedding.
  rewrite map_id. apply string_of_list_ascii_of_string.
Qed.

(** The string of a time value reads back as that time value. *)
Lemma parse_Number_toString (z : Z) :
  parse_decimal (Number_toString (Int z)) = Some z.
Proof.
  unfold parse_decimal, Number_toString. rewrite unlit_lit.
  rewrite NilZero.isi.
  - cbn [option_map]. now rewrite DecimalZ.of_to.
  - destruct z; cbn; try discriminate.
    intros [= H]. now apply DecimalPos.Unsigned.to_uint_nonnil in H.
  - destruct z; cbn; try discriminate.
    intros [= H]. now apply DecimalPos.Unsigned.to_uint_nonnil in H.
Qed.

Lemma ProcessEmailData_fetch_normal_from item s atts t :
  Office.attachments item = Normal atts ->
  ProcessEmailData.fetchAttachmentMetadata item s {| trace := t; heap := [] |}
  = (Normal tt,
     {| trace :=
          t ++ trace (fetched_store atts
                        (0 <? length (ProcessEmailData.attachments s))%nat);
        heap := [map descriptor atts] |}).
Proof.
  intros H. unfold ProcessEmailData.fetchAttachmentMetadata.
  unfold try_catch, bind, new_Array, item_attachments_forEach, bind,
    emit, eval; cbn [trace heap length app].
  rewrite H, forEach_push_loop.
  unfold setIsAttachmentFetched, emit. cbn [trace heap fetched_store app].
  now rewrite <- !app_assoc.
Qed.

Lemma ProcessEmailData_fetch_throw_from item s e t :
  Office.attachments item = Throw e ->
  ProcessEmailData.fetchAttachmentMetadata item s {| trace := t; heap := [] |}
  = (Normal tt,
     {| trace := t ++ trace (failed_store e); heap := [[]] |}).
Proof.
  intros H. unfold ProcessEmailData.fetchAttachmentMetadata.
  unfold try_catch, bind, new_Array, item_attachments_forEach, bind,
    emit, eval; cbn [trace heap length app].
  rewrite H.
  unfold setIsAttachmentFetched, console_error, emit.
  cbn [trace heap failed_store app].
  now rewrite <- !app_assoc.
Qed.

Lemma getMetadata_run item s recipient others :
  Office.to item = recipient :: others ->
  run (ProcessEmailData.getMetadata item s)
  = (Normal tt,
     {| trace := SetMetaData (metadata_of item recipient)
                 :: fetch_trace item s;
        heap := fetch_heap item |}).
Proof.
  intros Hto. unfold ProcessEmailData.getMetadata, run, bind, eval,
    first_emailAddress, setMetaData, emit, async, toString, empty_store,
    fetch_trace, fetch_heap.
  rewrite Hto. cbn [nth_error trace heap app].
  destruct (Office.attachments item) as [atts | e] eqn:H.
  - now rewrite (ProcessEmailData_fetch_normal_from _ s _ _ H).
  - now rewrite (ProcessEmailData_fetch_throw_from _ s _ _ H).
Qed.

Lemma getMetadata_run_no_recipient item s :
  Office.to item = [] ->
  run (ProcessEmailData.getMetadata item s) = (Throw TypeError, empty_store).
Proof.
  intros Hto. unfold ProcessEmailData.getMetadata, run, bind, eval,
    first_emailAddress.
  now rewrite Hto.
Qed.

Lemma metaDataUpdates_fetch_trace item s :
  metaDataUpdates (fetch_trace item s) = [].
Proof.
  unfold fetch_trace.
  destruct (Office.attachments item) as [atts | e]; [| reflexivity].
  unfold fetched_store, metaDataUpdates. cbn [trace flat_map app].
  rewrite flat_map_app. cbn.
  induction (length atts) as [| n IH]; [reflexivity | exact IH].
Qed.

Lemma ProcessEmailData_metaData_kept h t :
  metaDataUpdates t = [] ->
  forall s,
    ProcessEmailData.metaData (fold_left (ProcessEmailData.apply_event h) t s)
    = ProcessEmailData.metaData s.
Proof.
  induction t as [| e t IH]; intros Hnone s; [reflexivity |].
  cbn [fold_left]. destruct e; cbn in Hnone; try discriminate;
    rewrite (IH Hnone); reflexivity.
Qed.

(** C5: [getMetadata] stores one record made of six strings read from the
    open item: the sender address, the address of the first To recipient,
    the subject, the conversation identifier, the item identifier, and the
    creation time as the decimal string of its milliseconds since the
    epoch.  Nothing else is put into the [metaData] state; on an item
    without a To recipient nothing is stored at all. *)
Theorem C5_getMetadata_stores_six_item_fields
    (item : Office.Item) (s : ProcessEmailData.State) :
  let record (recipient : Office.EmailAddressDetails) :=
    {| sender := Office.emailAddress (Office.sender item);
       to := Office.emailAddress recipient;
       subject := Office.subject item;
       conversationId := Office.conversationId item;
       itemId := Office.itemId item;
       timeStamp := Number_toString (getTime (Office.dateTimeCreated item)) |}
  in
  metaDataUpdates (trace (snd (run (ProcessEmailData.getMetadata item s))))
  = match Office.to item with
    | recipient :: _ => [ record recipient ]
    | [] => []
    end
  /\ ProcessEmailData.metaData
       (ProcessEmailData.after s (ProcessEmailData.getMetadata item s))
     = match Office.to item with
       | recipient :: _ => Some (record recipient)
       | [] => ProcessEmailData.metaData s
       end
  /\ (forall ms : Z,
         parse_decimal (Number_toString (getTime (ValidDate ms))) = Some ms).
Proof.
  intros record. unfold ProcessEmailData.after.
  split; [| split].
  - destruct (Office.to item) as [| recipient others] eqn:Hto.
    + now rewrite (getMetadata_run_no_recipient item s Hto).
    + rewrite (getMetadata_run item s recipient others Hto). cbn [snd trace].
      change (metaDataUpdates (SetMetaData (metadata_of item recipient)
                               :: fetch_trace item s))
        with (metadata_of item recipient
              :: metaDataUpdates (fetch_trace item s)).
      now rewrite metaDataUpdates_fetch_trace.
  - destruct (Office.to item) as [| recipient others] eqn:Hto.
    + now rewrite (getMetadata_run_no_recipient item s Hto).
    + rewrite (getMetadata_run item s recipient others Hto).
      unfold ProcessEmailData.commit. cbn [snd trace heap fold_left].
      rewrite ProcessEmailData_metaData_kept
        by apply metaDataUpdates_fetch_trace.
      reflexivity.
  - intros ms. apply parse_Number_toString.
Qed.

Lemma C5_getMetadata_stores_six_item_fields_witness :
  ProcessEmailData.metaData
    (ProcessEmailData.after ProcessEmailData.initial
       (ProcessEmailData.getMetadata demoItem ProcessEmailData.initial))
  = Some {| sender := lit "a@x.org"; to := lit "b@x.org";
            subject := lit "Invoice"; conversationId := lit "conv-1";
            itemId := lit "item-1"; timeStamp := lit "1700000000123" |}.
Proof.
  exact (proj1 (proj2 (C5_getMetadata_stores_six_item_fields demoItem
                         ProcessEmailData.initial))).
Defined.

(** ** C7: the metadata file *)

Lemma downloadMetaData_run (metaData : option metadata) :
  run (ProcessEmailData.downloadMetaData metaData)
  = (Normal tt,
     {| trace := [ AppendChild (metaDataAnchor metaData);
                   Click (metaDataAnchor metaData);
                   RemoveChild (metaDataAnchor metaData) ];
        heap := [] |}).
Proof. reflexivity. Qed.

(** C7: in the consent-gated view a [downloadAttachments] whose
    enumeration does not throw goes on to call [downloadMetaData] on the
    current [metaData]: exactly one anchor is clicked by the handler, its
    blob holds the [JSON.stringify] text of [metaData] with type
    ['text/plain'], and its file name is ['metadata.txt']. *)
Theorem C7_download_also_saves_metadata_file
    (item : Office.Item) (atts : list Office.AttachmentDetails)
    (s : ProcessEmailData.State) :
  Office.attachments item = Normal atts ->
  fst (run (ProcessEmailData.downloadAttachments item s)) = Normal tt
  /\ clicks (trace (snd (run (ProcessEmailData.downloadAttachments item s))))
     = [ {| href :=
              ObjectURL
                {| blobParts :=
                     [StringPart
                        (JSON_stringify (ProcessEmailData.metaData s))];
                   type := lit "text/plain" |};
            download := lit "metadata.txt" |} ]
  /\ exists before,
       trace (snd (run (ProcessEmailData.downloadAttachments item s)))
       = before
         ++ trace (snd (run (ProcessEmailData.downloadMetaData
                               (ProcessEmailData.metaData s))))
       /\ clicks before = [].
Proof.
  intros H. rewrite (ProcessEmailData_download_normal _ s _ H).
  cbn [fst snd trace]. split; [reflexivity | split].
  - change (AttachmentsForEach :: ?t) with ([AttachmentsForEach] ++ t).
    rewrite !clicks_app, clicks_request_events. reflexivity.
  - exists (AttachmentsForEach :: request_events atts).
    rewrite downloadMetaData_run. cbn [snd trace]. split; [reflexivity |].
    apply (clicks_request_events atts).
Qed.

Lemma C7_download_also_saves_metadata_file_witness :
  Office.attachments demoItem
  = Normal [ pdfAttachment; txtAttachment ]
  /\ map download
       (clicks (trace (snd (run (ProcessEmailData.downloadAttachments
                                   demoItem submitState)))))
     = [ lit "metadata.txt" ].
Proof.
  split; [reflexivity |].
  destruct (C7_download_also_saves_metadata_file demoItem
              [ pdfAttachment; txtAttachment ] submitState eq_refl)
    as (_ & -> & _).
  reflexivity.
Defined.

(** When the enumeration throws, the metadata file is not written. *)
Lemma download_throw_skips_metadata item s e :
  Office.attachments item = Throw e ->
  clicks (trace (snd (run (ProcessEmailData.downloadAttachments item s))))
  = [].
Proof.
  intros H. now rewrite (ProcessEmailData_download_throw _ s _ H).
Qed.

(** ** C10: reading the first To recipient *)

Lemma getMetadata_normal_iff item s :
  is_normal (fst (run (ProcessEmailData.getMetadata item s))) = true
  <-> Office.to item <> [].
Proof.
  destruct (Office.to item) as [| recipient others] eqn:Hto.
  - rewrite (getMetadata_run_no_recipient item s Hto). cbn.
    split; [discriminate | congruence].
  - rewrite (getMetadata_run item s recipient others Hto).
    cbn. split; [discriminate | reflexivity].
Qed.

Lemma AttachmentProcess_render_normal_iff item s :
  AttachmentProcess.showMetaData s = true ->
  (is_normal (AttachmentProcess.render item s) = true
   <-> Office.to item <> []).
Proof.
  intros Hshow.
  unfold AttachmentProcess.render, AttachmentProcess.metaDataPanel,
    first_emailAddress.
  rewrite Hshow.
  destruct (Office.to item) as [| recipient others]; cbn.
  - split; [discriminate | congruence].
  - split; [discriminate | reflexivity].
Qed.

(** C10: [getMetadata] and the metadata block of [AttachmentProcess.tsx]
    read [to[0].emailAddress] unguarded.  Both complete normally exactly
    when the item has a To recipient.  On an item without one, the read
    raises a [TypeError]: [getMetadata] ends there with nothing queued, so
    neither [metaData] nor the fetch flag is written and the attachment
    fetch is never started, and the render of the metadata block throws. *)
Theorem C10_first_recipient_read_is_unguarded (item : Office.Item) :
  (forall s,
      is_normal (fst (run (ProcessEmailData.getMetadata item s))) = true
      <-> Office.to item <> [])
  /\ (forall s,
         AttachmentProcess.showMetaData s = true ->
         (is_normal (AttachmentProcess.render item s) = true
          <-> Office.to item <> []))
  /\ (Office.to item = [] ->
      (forall s,
          run (ProcessEmailData.getMetadata item s)
          = (Throw TypeError, empty_store)
          /\ flagUpdates
               (trace (snd (run (ProcessEmailData.getMetadata item s)))) = []
          /\ ProcessEmailData.after s (ProcessEmailData.getMetadata item s)
             = s)
      /\ (forall s,
             AttachmentProcess.showMetaData s = true ->
             AttachmentProcess.render item s = Throw TypeError)).
Proof.
  split; [| split].
  - intros s. apply getMetadata_normal_iff.
  - intros s. apply AttachmentProcess_render_normal_iff.
  - intros Hto. split.
    + intros s. unfold ProcessEmailData.after.
      rewrite (getMetadata_run_no_recipient item s Hto).
      repeat split.
    + intros s Hshow.
      unfold AttachmentProcess.render, AttachmentProcess.metaDataPanel,
        first_emailAddress.
      now rewrite Hshow, Hto.
Qed.

Lemma C10_first_recipient_read_is_unguarded_witness :
  Office.to brokenItem = []
  /\ run (ProcessEmailData.getMetadata brokenItem ProcessEmailData.initial)
     = (Throw TypeError, empty_store).
Proof.
  split; [reflexivity |].
  destruct (C10_first_recipient_read_is_unguarded brokenItem)
    as (_ & _ & H).
  destruct (H eq_refl) as (Hget & _).
  exact (proj1 (Hget ProcessEmailData.initial)).
Defined.

(** ** C8: attachment content never enters the component state *)

Lemma attachmentBlob_store attachment value st :
  attachmentBlob attachment value st
  = (fst (attachmentBlob attachment value empty_store), st).
Proof.
  unfold attachmentBlob, bind, eval, ret.
  destruct (Office.format_eqb _ _); [| reflexivity].
  destruct (atob _); reflexivity.
Qed.

Section ContentNotStoredProofs.
Context {State : Type} {V : View State}.

Lemma descriptors_invariant :
  attachmentsOf initialOf = [] ->
  attachments_only_from_fetch ->
  attachments_are_descriptors.
Proof.
  intros Hinit Hops item s Hreach.
  induction Hreach as [| s s' _ IH Hstep].
  - now left.
  - destruct Hstep as [s m Hop].
    destruct (Hops item s m Hop) as [-> | ->]; [exact IH | now right].
Qed.

Lemma stored_ids_are_request_keys :
  attachments_are_descriptors ->
  one_request_per_entry ->
  requests_keyed_by_stored_ids.
Proof.
  intros Hinv Hreq item s Hreach Hne.
  destruct (Hinv item s Hreach) as [Hempty | Hdesc]; [congruence |].
  rewrite Hreq, Hdesc, !map_map. reflexivity.
Qed.

Lemma deliver_keeps_attachments :
  (forall s attachment result,
      attachmentsOf (afterOf s (callbackOf attachment result))
      = attachmentsOf s) ->
  forall cs s, attachmentsOf (deliver s cs) = attachmentsOf s.
Proof.
  intros Hcb cs. induction cs as [| c cs IH] using rev_ind; intros s.
  - reflexivity.
  - rewrite deliver_snoc, Hcb. apply IH.
Qed.
End ContentNotStoredProofs.

Lemma callback_writes_no_strings_TextInsertion :
  @callbacks_write_no_strings _ TextInsertion_View.
Proof.
  intros attachment [value | error]; [| split; reflexivity].
  run_callback. rewrite attachmentBlob_store.
  destruct (fst (attachmentBlob attachment value empty_store));
    split; reflexivity.
Qed.

Lemma callback_writes_no_strings_AttachmentProcess :
  @callbacks_write_no_strings _ AttachmentProcess_View.
Proof.
  intros attachment [value | error]; [| split; reflexivity].
  run_callback. rewrite attachmentBlob_store.
  destruct (fst (attachmentBlob attachment value empty_store));
    split; reflexivity.
Qed.

Lemma callback_writes_no_strings_ProcessEmailData :
  @callbacks_write_no_strings _ ProcessEmailData_View.
Proof.
  intros attachment [value | error]; [| split; reflexivity].
  run_callback. rewrite attachmentBlob_store.
  destruct (fst (attachmentBlob attachment value empty_store));
    split; reflexivity.
Qed.

Lemma TextInsertion_attachments_kept h t :
  attachmentsUpdates t = [] ->
  forall s,
    TextInsertion.attachments (fold_left (TextInsertion.apply_event h) t s)
    = TextInsertion.attachments s.
Proof.
  induction t as [| e t IH]; intros Hnone s; [reflexivity |].
  cbn [fold_left]. destruct e; cbn in Hnone; try discriminate;
    rewrite (IH Hnone); reflexivity.
Qed.

Lemma AttachmentProcess_attachments_kept h t :
  attachmentsUpdates t = [] ->
  forall s,
    AttachmentProcess.attachments
      (fold_left (AttachmentProcess.apply_event h) t s)
    = AttachmentProcess.attachments s.
Proof.
  induction t as [| e t IH]; intros Hnone s; [reflexivity |].
  cbn [fold_left]. destruct e; cbn in Hnone; try discriminate;
    rewrite (IH Hnone); reflexivity.
Qed.

Lemma ProcessEmailData_attachments_kept h t :
  attachmentsUpdates t = [] ->
  forall s,
    ProcessEmailData.attachments
      (fold_left (ProcessEmailData.apply_event h) t s)
    = ProcessEmailData.attachments s.
Proof.
  induction t as [| e t IH]; intros Hnone s; [reflexivity |].
  cbn [fold_left]. destruct e; cbn in Hnone; try discriminate;
    rewrite (IH Hnone); reflexivity.
Qed.

Lemma attachmentsUpdates_request_events atts :
  attachmentsUpdates (request_events atts) = [].
Proof. induction atts as [| a atts IH]; cbn; auto. Qed.

Lemma attachmentsUpdates_app t1 t2 :
  attachmentsUpdates (t1 ++ t2)
  = attachmentsUpdates t1 ++ attachmentsUpdates t2.
Proof. apply flat_map_app. Qed.

Lemma fetched_attachments_cases old item atts :
  Office.attachments item = Normal atts ->
  fetched_attachments old atts = old
  \/ fetched_attachments old atts = map descriptor (entries item).
Proof.
  intros H. unfold entries. rewrite H.
  destruct atts; [now left | now right].
Qed.

Lemma TextInsertion_download_keeps item s :
  TextInsertion.attachments
    (TextInsertion.after s (TextInsertion.downloadAttachments item s))
  = TextInsertion.attachments s.
Proof.
  unfold TextInsertion.after, TextInsertion.commit.
  destruct (Office.attachments item) as [atts | e] eqn:H.
  - rewrite (TextInsertion_download_normal _ s _ H).
    apply TextInsertion_attachments_kept. cbn [snd trace].
    apply (attachmentsUpdates_request_events atts).
  - now rewrite (TextInsertion_download_throw _ s _ H).
Qed.

Lemma AttachmentProcess_download_keeps item s :
  AttachmentProcess.attachments
    (AttachmentProcess.after s (AttachmentProcess.downloadAttachments item s))
  = AttachmentProcess.attachments s.
Proof.
  unfold AttachmentProcess.after, AttachmentProcess.commit.
  destruct (Office.attachments item) as [atts | e] eqn:H.
  - rewrite (AttachmentProcess_download_normal _ s _ H).
    apply AttachmentProcess_attachments_kept. cbn [snd trace].
    apply (attachmentsUpdates_request_events atts).
  - now rewrite (AttachmentProcess_download_throw _ s _ H).
Qed.

Lemma ProcessEmailData_download_keeps item s :
  ProcessEmailData.attachments
    (ProcessEmailData.after s (ProcessEmailData.downloadAttachments item s))
  = ProcessEmailData.attachments s.
Proof.
  unfold ProcessEmailData.after, ProcessEmailData.commit.
  destruct (Office.attachments item) as [atts | e] eqn:H.
  - rewrite (ProcessEmailData_download_normal _ s _ H).
    apply ProcessEmailData_attachments_kept. cbn [snd trace].
    change (AttachmentsForEach :: ?t) with ([AttachmentsForEach] ++ t).
    rewrite !attachmentsUpdates_app, attachmentsUpdates_request_events.
    reflexivity.
  - now rewrite (ProcessEmailData_download_throw _ s _ H).
Qed.

Lemma TextInsertion_callback_keeps s attachment result :
  TextInsertion.attachments
    (TextInsertion.after s (TextInsertion.contentCallback attachment result))
  = TextInsertion.attachments s.
Proof.
  apply TextInsertion_attachments_kept.
  apply (callback_writes_no_strings_TextInsertion attachment result).
Qed.

Lemma AttachmentProcess_callback_keeps s attachment result :
  AttachmentProcess.attachments
    (AttachmentProcess.after s
       (AttachmentProcess.contentCallback attachment result))
  = AttachmentProcess.attachments s.
Proof.
  apply AttachmentProcess_attachments_kept.
  apply (callback_writes_no_strings_AttachmentProcess attachment result).
Qed.

Lemma ProcessEmailData_callback_keeps s attachment result :
  ProcessEmailData.attachments
    (ProcessEmailData.after s
       (ProcessEmailData.contentCallback attachment result))
  = ProcessEmailData.attachments s.
Proof.
  apply ProcessEmailData_attachments_kept.
  apply (callback_writes_no_strings_ProcessEmailData attachment result).
Qed.

Lemma TextInsertion_fetch_attachments item s :
  TextInsertion.attachments
    (TextInsertion.after s (TextInsertion.fetchAttachments item s))
  = TextInsertion.attachments s
  \/ TextInsertion.attachments
       (TextInsertion.after s (TextInsertion.fetchAttachments item s))
     = map descriptor (entries item).
Proof.
  unfold TextInsertion.after.
  destruct (Office.attachments item) as [atts | e] eqn:H.
  - rewrite (TextInsertion_fetch_normal _ s _ H). cbn [snd].
    rewrite TextInsertion_commit_fetched. cbn.
    now apply fetched_attachments_cases.
  - rewrite (TextInsertion_fetch_throw _ s _ H). now left.
Qed.

Lemma AttachmentProcess_fetch_attachments item s :
  AttachmentProcess.attachments
    (AttachmentProcess.after s (AttachmentProcess.fetchAttachments item s))
  = AttachmentProcess.attachments s
  \/ AttachmentProcess.attachments
       (AttachmentProcess.after s (AttachmentProcess.fetchAttachments item s))
     = map descriptor (entries item).
Proof.
  unfold AttachmentProcess.after.
  destruct (Office.attachments item) as [atts | e] eqn:H.
  - rewrite (AttachmentProcess_fetch_normal _ s _ H). cbn [snd].
    rewrite AttachmentProcess_commit_fetched. cbn.
    now apply fetched_attachments_cases.
  - rewrite (AttachmentProcess_fetch_throw _ s _ H). now left.
Qed.

Lemma ProcessEmailData_fetch_attachments item s :
  ProcessEmailData.attachments
    (ProcessEmailData.after s
       (ProcessEmailData.fetchAttachmentMetadata item s))
  = ProcessEmailData.attachments s
  \/ ProcessEmailData.attachments
       (ProcessEmailData.after s
          (ProcessEmailData.fetchAttachmentMetadata item s))
     = map descriptor (entries item).
Proof.
  unfold ProcessEmailData.after.
  destruct (Office.attachments item) as [atts | e] eqn:H.
  - rewrite (ProcessEmailData_fetch_normal _ s _ H). cbn [snd].
    rewrite ProcessEmailData_commit_fetched. cbn.
    now apply fetched_attachments_cases.
  - rewrite (ProcessEmailData_fetch_throw _ s _ H). now left.
Qed.

Lemma ProcessEmailData_getMetadata_attachments item s :
  ProcessEmailData.attachments
    (ProcessEmailData.after s (ProcessEmailData.getMetadata item s))
  = ProcessEmailData.attachments s
  \/ ProcessEmailData.attachments
       (ProcessEmailData.after s (ProcessEmailData.getMetadata item s))
     = map descriptor (entries item).
Proof.
  unfold ProcessEmailData.after.
  destruct (Office.to item) as [| recipient others] eqn:Hto.
  - rewrite (getMetadata_run_no_recipient item s Hto). now left.
  - rewrite (getMetadata_run item s recipient others Hto).
    unfold ProcessEmailData.commit, fetch_trace, fetch_heap.
    cbn [snd trace heap fold_left].
    destruct (Office.attachments item) as [atts | e] eqn:H.
    + change (fold_left (ProcessEmailData.apply_event [map descriptor atts])
                (trace (fetched_store atts ?b)) ?s1)
        with (ProcessEmailData.commit s1 (fetched_store atts b)).
      rewrite ProcessEmailData_commit_fetched. cbn.
      now apply fetched_attachments_cases.
    + now left.
Qed.

Ltac names_stored :=
  match goal with
  | H : (0 <? length ?l)%nat = true |- ?l <> [] =>
      let E := fresh in intros E; rewrite E in H; discriminate H
  end.

Lemma TextInsertion_submit_needs_attachments :
  @submit_needs_attachments _ TextInsertion_View.
Proof.
  intros item s els. cbn [renderOf attachmentsOf TextInsertion_View].
  unfold TextInsertion.render. intros [= <-] Hin.
  in_cases; try discriminate; names_stored.
Qed.

Lemma AttachmentProcess_submit_needs_attachments :
  @submit_needs_attachments _ AttachmentProcess_View.
Proof.
  intros item s els. cbn [renderOf attachmentsOf AttachmentProcess_View].
  unfold AttachmentProcess.render, AttachmentProcess.showMetaData,
    AttachmentProcess.metaDataPanel.
  destruct (0 <? length (AttachmentProcess.attachments s))%nat eqn:Hlen.
  - intros _ _. names_stored.
  - cbn [andb]. intros [= <-] Hin. in_cases; discriminate.
Qed.

Lemma ProcessEmailData_submit_needs_attachments :
  @submit_needs_attachments _ ProcessEmailData_View.
Proof.
  intros item s els. cbn [renderOf attachmentsOf ProcessEmailData_View].
  unfold ProcessEmailData.render, ProcessEmailData.showMetaData,
    ProcessEmailData.proceedButton.
  destruct (0 <? length (ProcessEmailData.attachments s))%nat eqn:Hlen.
  - intros _ _. names_stored.
  - cbn [andb]. intros [= <-] Hin. in_cases; discriminate.
Qed.

Lemma TextInsertion_content_not_stored :
  @content_not_stored _ TextInsertion_View.
Proof.
  assert (Hops : @attachments_only_from_fetch _ TextInsertion_View).
  { intros item s m [-> | [-> | (attachment & result & ->)]].
    - apply TextInsertion_fetch_attachments.
    - left. apply TextInsertion_download_keeps.
    - left. apply TextInsertion_callback_keeps. }
  assert (Hinv : @attachments_are_descriptors _ TextInsertion_View).
  { apply descriptors_invariant; [reflexivity | exact Hops]. }
  split; [exact Hops | split; [exact Hinv | split; [| split; [| split]]]].
  - exact callback_writes_no_strings_TextInsertion.
  - intros item s cs.
    rewrite deliver_keeps_attachments.
    + apply TextInsertion_download_keeps.
    + intros. apply TextInsertion_callback_keeps.
  - exact TextInsertion_submit_needs_attachments.
  - apply stored_ids_are_request_keys; [exact Hinv |].
    apply TextInsertion_downloads.
Qed.

Lemma AttachmentProcess_content_not_stored :
  @content_not_stored _ AttachmentProcess_View.
Proof.
  assert (Hops : @attachments_only_from_fetch _ AttachmentProcess_View).
  { intros item s m [-> | [-> | (attachment & result & ->)]].
    - apply AttachmentProcess_fetch_attachments.
    - left. apply AttachmentProcess_download_keeps.
    - left. apply AttachmentProcess_callback_keeps. }
  assert (Hinv : @attachments_are_descriptors _ AttachmentProcess_View).
  { apply descriptors_invariant; [reflexivity | exact Hops]. }
  split; [exact Hops | split; [exact Hinv | split; [| split; [| split]]]].
  - exact callback_writes_no_strings_AttachmentProcess.
  - intros item s cs.
    rewrite deliver_keeps_attachments.
    + apply AttachmentProcess_download_keeps.
    + intros. apply AttachmentProcess_callback_keeps.
  - exact AttachmentProcess_submit_needs_attachments.
  - apply stored_ids_are_request_keys; [exact Hinv |].
    apply AttachmentProcess_downloads.
Qed.

Lemma ProcessEmailData_content_not_stored :
  @content_not_stored _ ProcessEmailData_View.
Proof.
  assert (Hops : @attachments_only_from_fetch _ ProcessEmailData_View).
  { intros item s m
      [-> | [-> | [-> | [(checked & ->) | (attachment & result & ->)]]]].
    - apply ProcessEmailData_getMetadata_attachments.
    - apply ProcessEmailData_fetch_attachments.
    - left. apply ProcessEmailData_download_keeps.
    - now left.
    - left. apply ProcessEmailData_callback_keeps. }
  assert (Hinv : @attachments_are_descriptors _ ProcessEmailData_View).
  { apply descriptors_invariant; [reflexivity | exact Hops]. }
  split; [exact Hops | split; [exact Hinv | split; [| split; [| split]]]].
  - exact callback_writes_no_strings_ProcessEmailData.
  - intros item s cs.
    rewrite deliver_keeps_attachments.
    + apply ProcessEmailData_download_keeps.
    + intros. apply ProcessEmailData_callback_keeps.
  - exact ProcessEmailData_submit_needs_attachments.
  - apply stored_ids_are_request_keys; [exact Hinv |].
    apply ProcessEmailData_downloads.
Qed.

Section HostEntryKeys.
Context {State : Type} {V : View State}.

Lemma request_keys_are_host_entry_ids :
  one_request_per_entry -> requests_keyed_by_host_entries.
Proof.
  intros Hreq item s. rewrite Hreq, map_map. reflexivity.
Qed.
End HostEntryKeys.

(** C8: the attachments state holds, for each attachment, only the
    identifier and the display name of the host entry.  No handler or
    callback writes anything else into it: whatever content a callback
    receives, it queues no attachments or metadata update, and a whole
    download leaves the attachments state as it found it.  The content is
    obtained by the requests of [downloadAttachments], which can be started
    only while names are stored.  The handler does not read the stored
    identifiers: the keys of its requests are the identifiers of the
    entries the host list has when it runs, in every state; they are the
    stored identifiers in the states reached while that same item is
    open. *)
Theorem C8_content_is_fetched_by_host_entry_identifiers :
  @content_fetched_on_demand _ TextInsertion_View
  /\ @content_fetched_on_demand _ AttachmentProcess_View
  /\ @content_fetched_on_demand _ ProcessEmailData_View.
Proof.
  split; [| split]; split.
  - exact TextInsertion_content_not_stored.
  - apply request_keys_are_host_entry_ids, TextInsertion_downloads.
  - exact AttachmentProcess_content_not_stored.
  - apply request_keys_are_host_entry_ids, AttachmentProcess_downloads.
  - exact ProcessEmailData_content_not_stored.
  - apply request_keys_are_host_entry_ids, ProcessEmailData_downloads.
Qed.

Lemma fetchedState_reachable :
  @reachable _ TextInsertion_View demoItem fetchedState.
Proof.
  apply (@reachable_step _ TextInsertion_View demoItem TextInsertion.initial).
  - apply (@reachable_initial _ TextInsertion_View).
  - apply (@step_operation _ TextInsertion_View demoItem
             TextInsertion.initial
             (TextInsertion.fetchAttachments demoItem TextInsertion.initial)).
    now left.
Defined.

Lemma C8_content_is_fetched_by_host_entry_identifiers_witness :
  TextInsertion.attachments fetchedState <> []
  /\ map fst
       (requests (trace (snd (run (TextInsertion.downloadAttachments
                                     demoItem fetchedState)))))
     = map id (TextInsertion.attachments fetchedState).
Proof.
  split; [discriminate |].
  destruct C8_content_is_fetched_by_host_entry_identifiers
    as (((_ & _ & _ & _ & _ & Hkeys) & _) & _).
  apply (Hkeys demoItem fetchedState fetchedState_reachable).
  discriminate.
Defined.

(** C8, the keys of the requests: the names of the two attachments of one
    item are stored, with the identifiers [A1] and [A2]; the task pane
    stays open while another item, with the attachment [Z9], is selected.
    The download then requests [Z9]: its key is not a stored
    identifier. *)
Lemma C8_requests_are_not_keyed_by_stored_identifiers :
  map id (TextInsertion.attachments fetchedState) = [lit "A1"; lit "A2"]
  /\ map fst
       (requests (trace (snd (run (TextInsertion.downloadAttachments
                                     otherItem fetchedState)))))
     = [lit "Z9"]
  /\ map fst
       (requests (trace (snd (run (TextInsertion.downloadAttachments
                                     otherItem fetchedState)))))
     <> map id (TextInsertion.attachments fetchedState).
Proof.
  split; [reflexivity | split; [reflexivity | discriminate]].
Qed.

(** ** Checks of the built-ins on concrete inputs *)

Example atob_hello : atob (lit "aGVsbG8=") = Normal (lit "hello").
Proof. reflexivity. Qed.

(** The test vectors of RFC 4648 with one, two and no padding character. *)
Example base64_encode_vectors :
  base64_encode (lit "f") = lit "Zg=="
  /\ base64_encode (lit "fo") = lit "Zm8="
  /\ base64_encode (lit "foo") = lit "Zm9v"
  /\ base64_encode (lit "foobar") = lit "Zm9vYmFy"
  /\ base64_encode (lit "hello") = lit "aGVsbG8=".
Proof. repeat split; reflexivity. Qed.

Example Blob_type_examples :
  Blob_type (lit "Application/PDF") = lit "application/pdf"
  /\ Blob_type (lit "text/plain") = lit "text/plain"
  /\ Blob_type (lit "application/octet-stream")
     = lit "application/octet-stream"
  /\ Blob_type [116; 233; 120; 116]%N = [].
Proof. repeat split; reflexivity. Qed.

Example atob_skips_whitespace_and_padding :
  atob (lit "aGVs bG8") = Normal (lit "hello").
Proof. reflexivity. Qed.

Example atob_rejects_length_1_mod_4 :
  atob (lit "aGVsb") = Throw InvalidCharacterError.
Proof. reflexivity. Qed.

Example Uint8Array_wraps : Uint8Array [Some 300%N; None; Some 65%N]
                           = [44%N; 0%N; 65%N].
Proof. reflexivity. Qed.

Example array_set_extends :
  array_set [Some 1%N] 3 (Some 7%N) = [Some 1%N; None; None; Some 7%N].
Proof. reflexivity. Qed.

Example Number_toString_negative :
  Number_toString (Int (-42)) = lit "-42".
Proof. reflexivity. Qed.

Example Number_toString_invalid_date :
  Number_toString (getTime InvalidDate) = lit "NaN".
Proof. reflexivity. Qed.

Example JSON_stringify_null : JSON_stringify None = lit "null".
Proof. reflexivity. Qed.

Example JSON_stringify_escapes :
  JSON_stringify
    (Some {| sender := lit "a@x.org"; to := [34%N; 10%N];
             subject := []; conversationId := lit "c";
             itemId := lit "i"; timeStamp := lit "12" |})
  = lit "{" ++ [34%N] ++ lit "sender" ++ [34%N] ++ lit ":"
    ++ [34%N] ++ lit "a@x.org" ++ [34%N] ++ lit ","
    ++ [34%N] ++ lit "to" ++ [34%N] ++ lit ":"
    ++ [34%N; 92%N; 34%N; 92%N; 110%N; 34%N] ++ lit ","
    ++ [34%N] ++ lit "subject" ++ [34%N] ++ lit ":" ++ [34%N; 34%N] ++ lit ","
    ++ [34%N] ++ lit "conversationId" ++ [34%N] ++ lit ":"
    ++ [34%N] ++ lit "c" ++ [34%N] ++ lit ","
    ++ [34%N] ++ lit "itemId" ++ [34%N] ++ lit ":"
    ++ [34%N] ++ lit "i" ++ [34%N] ++ lit ","
    ++ [34%N] ++ lit "timeStamp" ++ [34%N] ++ lit ":"
    ++ [34%N] ++ lit "12" ++ [34%N] ++ lit "}".
Proof. reflexivity. Qed.

(** The first fetch on the demo item, then a download with one failed and
    one successful delivery, in the metadata view. *)
Example AttachmentProcess_demo_run :
  let s1 := AttachmentProcess.after AttachmentProcess.initial
              (AttachmentProcess.fetchAttachments demoItem
                 AttachmentProcess.initial) in
  let s2 := AttachmentProcess.after s1
              (AttachmentProcess.downloadAttachments demoItem s1) in
  AttachmentProcess.isAttachmentFetched s1 = Some false
  /\ map name (AttachmentProcess.attachments s1) = [lit "a.pdf"; lit "b.txt"]
  /\ AttachmentProcess.isSubmissionInitiated
       (@deliver _ AttachmentProcess_View s2 failThenSucceed) = true.
Proof. repeat split. Qed.

(** * Further properties of the handlers *)

(** ** The byte loop of the content callback *)

Lemma charCodes_loop_spare_fuel (post : JSString) (extra : nat) :
  forall pre : JSString,
    charCodes_loop (length post + extra) (length pre) (pre ++ post)
      (map Some pre ++ repeat None (length post))
    = map Some (pre ++ post).
Proof.
  induction post as [| c post IH]; intros pre.
  - cbn [length repeat Nat.add]. rewrite !app_nil_r.
    destruct extra as [| extra]; [reflexivity |].
    cbn [charCodes_loop]. now rewrite Nat.ltb_irrefl.
  - cbn [length charCodes_loop repeat Nat.add].
    replace (length pre <? length (pre ++ c :: post))%nat with true.
    2:{ symmetry. apply Nat.ltb_lt. rewrite length_app. cbn. lia. }
    rewrite charCodeAt_middle.
    rewrite <- (length_map Some pre) at 2. rewrite array_set_middle.
    specialize (IH (pre ++ [c])).
    rewrite length_app, Nat.add_1_r, <- app_assoc, map_app, <- app_assoc in IH.
    exact IH.
Qed.

Lemma Uint8Array_map_Some (l : JSString) :
  Uint8Array (map Some l) = map (fun c => (c mod 256)%N) l.
Proof. unfold Uint8Array. now rewrite map_map. Qed.

(** X1: the loop [for (i = 0; i < byteCharacters.length; i++)
    byteNumbers[i] = byteCharacters.charCodeAt(i)] followed by
    [new Uint8Array(byteNumbers)] yields, for every string, one byte per
    code unit, in order, each the code unit modulo 256; the loop leaves no
    hole in the array and stops by its own test, however many further
    iterations it is allowed. *)
Theorem X1_byte_array_is_code_units_mod_256
    (byteCharacters : JSString) (extra : nat) :
  charCodes_loop (length byteCharacters + extra) 0 byteCharacters
    (new_Array_n (length byteCharacters))
  = map Some byteCharacters
  /\ Uint8Array
       (charCodes_loop (length byteCharacters + extra) 0 byteCharacters
          (new_Array_n (length byteCharacters)))
     = map (fun c => (c mod 256)%N) byteCharacters
  /\ length
       (Uint8Array
          (charCodes_loop (length byteCharacters + extra) 0 byteCharacters
             (new_Array_n (length byteCharacters))))
     = length byteCharacters.
Proof.
  assert (H : charCodes_loop (length byteCharacters + extra) 0 byteCharacters
                (new_Array_n (length byteCharacters))
              = map Some byteCharacters).
  { exact (charCodes_loop_spare_fuel byteCharacters extra []). }
  rewrite H, Uint8Array_map_Some, length_map. auto.
Qed.

(** ** The events of a content callback *)

Lemma TextInsertion_callback_events attachment result :
  @callback_trace _ TextInsertion_View attachment result
  = callback_events false attachment result.
Proof.
  destruct result as [value | error]; [| reflexivity].
  run_callback. unfold callback_events, callback_blob.
  rewrite attachmentBlob_store.
  destruct (fst (attachmentBlob attachment value empty_store)); reflexivity.
Qed.

Lemma AttachmentProcess_callback_events attachment result :
  @callback_trace _ AttachmentProcess_View attachment result
  = callback_events true attachment result.
Proof.
  destruct result as [value | error]; [| reflexivity].
  run_callback. unfold callback_events, callback_blob.
  rewrite attachmentBlob_store.
  destruct (fst (attachmentBlob attachment value empty_store)); reflexivity.
Qed.

Lemma ProcessEmailData_callback_events attachment result :
  @callback_trace _ ProcessEmailData_View attachment result
  = callback_events true attachment result.
Proof.
  destruct result as [value | error]; [| reflexivity].
  run_callback. unfold callback_events, callback_blob.
  rewrite attachmentBlob_store.
  destruct (fst (attachmentBlob attachment value empty_store)); reflexivity.
Qed.

Lemma callback_blob_decodable attachment value :
  is_normal (callback_blob attachment value) = decodable value.
Proof.
  unfold callback_blob, decodable, attachmentBlob, bind, eval, ret.
  destruct (Office.format_eqb _ _); [| reflexivity].
  destruct (atob _); reflexivity.
Qed.

Lemma domEvents_app t1 t2 : domEvents (t1 ++ t2) = domEvents t1 ++ domEvents t2.
Proof. apply filter_app. Qed.

Lemma domEvents_request_events atts : domEvents (request_events atts) = [].
Proof. induction atts as [| a atts IH]; cbn; auto. Qed.

Lemma domEvents_repeat_setAttachments n :
  domEvents (repeat (SetAttachments 0) n) = [].
Proof. induction n as [| n IH]; cbn; auto. Qed.

Lemma callback_events_dom withFlag attachment result :
  domEvents (callback_events withFlag attachment result)
  = flat_map anchorEvents (clicks (callback_events withFlag attachment result)).
Proof.
  destruct result as [value | error]; cbn [callback_events].
  - destruct (callback_blob attachment value); destruct withFlag; reflexivity.
  - destruct withFlag; reflexivity.
Qed.

Lemma callback_events_console withFlag attachment result :
  consoleErrors (callback_events withFlag attachment result)
  = match result with
    | Office.Failed error =>
        [ (lit "Error fetching attachment content", error) ]
    | Office.Succeeded _ => []
    end.
Proof.
  destruct result as [value | error]; cbn [callback_events].
  - destruct (callback_blob attachment value); destruct withFlag; reflexivity.
  - destruct withFlag; reflexivity.
Qed.

Lemma callback_events_names withFlag attachment result :
  map download (clicks (callback_events withFlag attachment result))
  = if downloadable (attachment, result) then [Office.name attachment] else [].
Proof.
  unfold downloadable. destruct result as [value | error];
    cbn [callback_events snd].
  - rewrite <- (callback_blob_decodable attachment value).
    destruct (callback_blob attachment value); destruct withFlag; reflexivity.
  - destruct withFlag; reflexivity.
Qed.

Lemma fetch_dom_free_normal atts b :
  domEvents (trace (fetched_store atts b)) = [].
Proof.
  unfold fetched_store. cbn [trace].
  change (AttachmentsForEach :: ?t) with ([AttachmentsForEach] ++ t).
  rewrite !domEvents_app, domEvents_repeat_setAttachments. reflexivity.
Qed.

Lemma TextInsertion_anchors_removed :
  @anchors_are_removed _ TextInsertion_View.
Proof.
  split; [| split].
  - intros attachment result. rewrite TextInsertion_callback_events.
    apply callback_events_dom.
  - intros item s. cbn [downloadOf TextInsertion_View].
    destruct (Office.attachments item) as [atts | e] eqn:H.
    + rewrite (TextInsertion_download_normal _ s _ H). cbn [snd trace].
      change (AttachmentsForEach :: ?t) with ([AttachmentsForEach] ++ t).
      rewrite domEvents_app, clicks_app, domEvents_request_events,
        clicks_request_events.
      reflexivity.
    + now rewrite (TextInsertion_download_throw _ s _ H).
  - intros item s. cbn [fetchOf TextInsertion_View].
    destruct (Office.attachments item) as [atts | e] eqn:H.
    + rewrite (TextInsertion_fetch_normal _ s _ H). apply fetch_dom_free_normal.
    + now rewrite (TextInsertion_fetch_throw _ s _ H).
Qed.

Lemma AttachmentProcess_anchors_removed :
  @anchors_are_removed _ AttachmentProcess_View.
Proof.
  split; [| split].
  - intros attachment result. rewrite AttachmentProcess_callback_events.
    apply callback_events_dom.
  - intros item s. cbn [downloadOf AttachmentProcess_View].
    destruct (Office.attachments item) as [atts | e] eqn:H.
    + rewrite (AttachmentProcess_download_normal _ s _ H). cbn [snd trace].
      change (AttachmentsForEach :: ?t) with ([AttachmentsForEach] ++ t).
      rewrite domEvents_app, clicks_app, domEvents_request_events,
        clicks_request_events.
      reflexivity.
    + now rewrite (AttachmentProcess_download_throw _ s _ H).
  - intros item s. cbn [fetchOf AttachmentProcess_View].
    destruct (Office.attachments item) as [atts | e] eqn:H.
    + rewrite (AttachmentProcess_fetch_normal _ s _ H).
      apply fetch_dom_free_normal.
    + now rewrite (AttachmentProcess_fetch_throw _ s _ H).
Qed.

Lemma ProcessEmailData_anchors_removed :
  @anchors_are_removed _ ProcessEmailData_View.
Proof.
  split; [| split].
  - intros attachment result. rewrite ProcessEmailData_callback_events.
    apply callback_events_dom.
  - intros item s. cbn [downloadOf ProcessEmailData_View].
    destruct (Office.attachments item) as [atts | e] eqn:H.
    + rewrite (ProcessEmailData_download_normal _ s _ H). cbn [snd trace].
      change (AttachmentsForEach :: ?t) with ([AttachmentsForEach] ++ t).
      rewrite !domEvents_app, !clicks_app, domEvents_request_events,
        clicks_request_events.
      reflexivity.
    + now rewrite (ProcessEmailData_download_throw _ s _ H).
  - intros item s. cbn [fetchOf ProcessEmailData_View].
    destruct (Office.attachments item) as [atts | e] eqn:H.
    + rewrite (ProcessEmailData_fetch_normal _ s _ H).
      apply fetch_dom_free_normal.
    + now rewrite (ProcessEmailData_fetch_throw _ s _ H).
Qed.

(** X2: in the three views every anchor that a content callback or
    [downloadAttachments] (with [downloadMetaData]) appends to
    [document.body] is clicked and removed again straight away, whatever
    the delivered result; the fetch handlers do not touch the document. *)
Theorem X2_appended_anchors_are_removed :
  @anchors_are_removed _ TextInsertion_View
  /\ @anchors_are_removed _ AttachmentProcess_View
  /\ @anchors_are_removed _ ProcessEmailData_View.
Proof.
  split; [| split].
  - exact TextInsertion_anchors_removed.
  - exact AttachmentProcess_anchors_removed.
  - exact ProcessEmailData_anchors_removed.
Qed.

(** X3: a content callback calls [console.error] exactly when the fetch
    failed, once, with the error of the result; on a succeeded fetch it
    logs nothing, also when [atob] rejects the content and the callback
    stops with that exception. *)
Theorem X3_callback_logs_exactly_the_failed_fetches :
  @callback_logs_failures_only _ TextInsertion_View
  /\ @callback_logs_failures_only _ AttachmentProcess_View
  /\ @callback_logs_failures_only _ ProcessEmailData_View.
Proof.
  split; [| split]; intros attachment result.
  - rewrite TextInsertion_callback_events. apply callback_events_console.
  - rewrite AttachmentProcess_callback_events. apply callback_events_console.
  - rewrite ProcessEmailData_callback_events. apply callback_events_console.
Qed.

Lemma saves_downloadable_from_events {State} {V : View State} withFlag :
  (forall attachment result,
      callback_trace attachment result
      = callback_events withFlag attachment result) ->
  run_saves_downloadable.
Proof.
  intros Hev cs. unfold delivered_clicks.
  induction cs as [| [attachment result] cs IH]; [reflexivity |].
  cbn [flat_map filter fst snd]. rewrite map_app, IH, Hev.
  rewrite callback_events_names.
  destruct (downloadable (attachment, result)); reflexivity.
Qed.

(** X4: over a whole run of deliveries, in any order and with any results,
    the files saved from attachments are exactly those of the deliveries
    that succeeded with content that can be turned into a blob, one file
    each, named after the attachment, in the order of delivery. *)
Theorem X4_files_saved_by_a_run_of_deliveries :
  @run_saves_downloadable _ TextInsertion_View
  /\ @run_saves_downloadable _ AttachmentProcess_View
  /\ @run_saves_downloadable _ ProcessEmailData_View.
Proof.
  split; [| split].
  - exact (saves_downloadable_from_events false TextInsertion_callback_events).
  - exact (saves_downloadable_from_events true
             AttachmentProcess_callback_events).
  - exact (saves_downloadable_from_events true
             ProcessEmailData_callback_events).
Qed.

(** ** The state around a download *)

Lemma TextInsertion_no_updates h t :
  stateUpdates t = [] ->
  forall s, fold_left (TextInsertion.apply_event h) t s = s.
Proof.
  induction t as [| e t IH]; intros Hnone s; [reflexivity |].
  cbn [fold_left]. destruct e; cbn in Hnone; try discriminate;
    apply (IH Hnone).
Qed.

Lemma AttachmentProcess_no_updates h t :
  stateUpdates t = [] ->
  forall s, fold_left (AttachmentProcess.apply_event h) t s = s.
Proof.
  induction t as [| e t IH]; intros Hnone s; [reflexivity |].
  cbn [fold_left]. destruct e; cbn in Hnone; try discriminate;
    apply (IH Hnone).
Qed.

Lemma ProcessEmailData_no_updates h t :
  stateUpdates t = [] ->
  forall s, fold_left (ProcessEmailData.apply_event h) t s = s.
Proof.
  induction t as [| e t IH]; intros Hnone s; [reflexivity |].
  cbn [fold_left]. destruct e; cbn in Hnone; try discriminate;
    apply (IH Hnone).
Qed.

Lemma stateUpdates_app t1 t2 :
  stateUpdates (t1 ++ t2) = stateUpdates t1 ++ stateUpdates t2.
Proof. apply filter_app. Qed.

Lemma stateUpdates_request_events atts :
  stateUpdates (request_events atts) = [].
Proof. induction atts as [| a atts IH]; cbn; auto. Qed.

Lemma TextInsertion_download_updates item s :
  stateUpdates (trace (snd (run (TextInsertion.downloadAttachments item s))))
  = [].
Proof.
  destruct (Office.attachments item) as [atts | e] eqn:H.
  - rewrite (TextInsertion_download_normal _ s _ H). cbn [snd trace].
    apply (stateUpdates_request_events atts).
  - now rewrite (TextInsertion_download_throw _ s _ H).
Qed.

Lemma AttachmentProcess_download_updates item s :
  stateUpdates
    (trace (snd (run (AttachmentProcess.downloadAttachments item s))))
  = [].
Proof.
  destruct (Office.attachments item) as [atts | e] eqn:H.
  - rewrite (AttachmentProcess_download_normal _ s _ H). cbn [snd trace].
    apply (stateUpdates_request_events atts).
  - now rewrite (AttachmentProcess_download_throw _ s _ H).
Qed.

Lemma ProcessEmailData_download_updates item s :
  stateUpdates
    (trace (snd (run (ProcessEmailData.downloadAttachments item s))))
  = [].
Proof.
  destruct (Office.attachments item) as [atts | e] eqn:H.
  - rewrite (ProcessEmailData_download_normal _ s _ H). cbn [snd trace].
    change (AttachmentsForEach :: ?t) with ([AttachmentsForEach] ++ t).
    rewrite !stateUpdates_app, stateUpdates_request_events. reflexivity.
  - now rewrite (ProcessEmailData_download_throw _ s _ H).
Qed.

Lemma TextInsertion_download_keeps_state :
  @download_handler_keeps_state _ TextInsertion_View.
Proof.
  intros item s. split; [apply TextInsertion_download_updates |].
  apply TextInsertion_no_updates, TextInsertion_download_updates.
Qed.

Lemma AttachmentProcess_download_keeps_state :
  @download_handler_keeps_state _ AttachmentProcess_View.
Proof.
  intros item s. split; [apply AttachmentProcess_download_updates |].
  apply AttachmentProcess_no_updates, AttachmentProcess_download_updates.
Qed.

Lemma ProcessEmailData_download_keeps_state :
  @download_handler_keeps_state _ ProcessEmailData_View.
Proof.
  intros item s. split; [apply ProcessEmailData_download_updates |].
  apply ProcessEmailData_no_updates, ProcessEmailData_download_updates.
Qed.

(** X5: when the host attachment enumeration throws inside
    [downloadAttachments], the handler catches the error: it completes
    normally, logs "Error fetching attachments" with the error once, issues
    no content request, saves no file (in the consent-gated view not even
    the metadata file), queues no state update and does not enumerate
    again. *)
Theorem X5_download_error_is_caught_and_only_logged
    (item : Office.Item) (e : JSError) :
  Office.attachments item = Throw e ->
  @download_failure_handled _ TextInsertion_View item e
  /\ @download_failure_handled _ AttachmentProcess_View item e
  /\ @download_failure_handled _ ProcessEmailData_View item e.
Proof.
  intros H. split; [| split]; intros s.
  - pose proof (proj2 (TextInsertion_download_keeps_state item s)) as Hs.
    cbn [downloadOf TextInsertion_View] in *.
    rewrite (TextInsertion_download_throw _ s _ H) in *.
    repeat (split; [reflexivity |]). exact Hs.
  - pose proof (proj2 (AttachmentProcess_download_keeps_state item s)) as Hs.
    cbn [downloadOf AttachmentProcess_View] in *.
    rewrite (AttachmentProcess_download_throw _ s _ H) in *.
    repeat (split; [reflexivity |]). exact Hs.
  - pose proof (proj2 (ProcessEmailData_download_keeps_state item s)) as Hs.
    cbn [downloadOf ProcessEmailData_View] in *.
    rewrite (ProcessEmailData_download_throw _ s _ H) in *.
    repeat (split; [reflexivity |]). exact Hs.
Qed.

Lemma X5_download_error_is_caught_and_only_logged_witness :
  Office.attachments brokenItem = Throw TypeError
  /\ @download_failure_handled _ ProcessEmailData_View brokenItem TypeError.
Proof.
  split; [reflexivity |].
  exact (proj2 (proj2 (X5_download_error_is_caught_and_only_logged
                         brokenItem TypeError eq_refl))).
Defined.

Lemma TextInsertion_after_callback s attachment result :
  TextInsertion.after s (TextInsertion.contentCallback attachment result) = s.
Proof.
  unfold TextInsertion.after, TextInsertion.commit.
  apply TextInsertion_no_updates.
  change (trace (snd (run (TextInsertion.contentCallback attachment result))))
    with (@callback_trace _ TextInsertion_View attachment result).
  rewrite TextInsertion_callback_events.
  destruct result as [value | error]; cbn [callback_events];
    [destruct (callback_blob attachment value) |]; reflexivity.
Qed.

Lemma TextInsertion_deliver s cs : @deliver _ TextInsertion_View s cs = s.
Proof.
  revert s. induction cs as [| c cs IH]; intros s; [reflexivity |].
  cbn [deliver fold_left]. unfold afterOf.
  cbn [commitOf callbackOf TextInsertion_View].
  change (TextInsertion.commit s
            (snd (run (TextInsertion.contentCallback (fst c) (snd c)))))
    with (TextInsertion.after s
            (TextInsertion.contentCallback (fst c) (snd c))).
  rewrite TextInsertion_after_callback. apply IH.
Qed.

(** X6: [downloadAttachments] itself queues no React state update in any
    of the three views, so the state right after the click is the state
    before it; in [TextInsertion.tsx] the content callbacks queue none
    either, so a whole download, handler and callbacks with any results,
    ends in the state it started from. *)
Theorem X6_download_handler_leaves_state_unchanged :
  @download_handler_keeps_state _ TextInsertion_View
  /\ @download_handler_keeps_state _ AttachmentProcess_View
  /\ @download_handler_keeps_state _ ProcessEmailData_View
  /\ (forall (item : Office.Item) (s : TextInsertion.State) cs,
         @deliver _ TextInsertion_View
           (TextInsertion.after s (TextInsertion.downloadAttachments item s))
           cs
         = s).
Proof.
  split; [| split; [| split]].
  - exact TextInsertion_download_keeps_state.
  - exact AttachmentProcess_download_keeps_state.
  - exact ProcessEmailData_download_keeps_state.
  - intros item s cs. rewrite TextInsertion_deliver.
    exact (proj2 (TextInsertion_download_keeps_state item s)).
Qed.

Lemma deliver_cons {State} {V : View State} (s : State) c cs :
  deliver s (c :: cs) = deliver (afterOf s (callbackOf (fst c) (snd c))) cs.
Proof. reflexivity. Qed.

Lemma AttachmentProcess_after_any_callback s attachment result :
  AttachmentProcess.after s
    (AttachmentProcess.contentCallback attachment result)
  = AttachmentProcess_set_submission s
      (flag_after (AttachmentProcess.isSubmissionInitiated s) result).
Proof.
  unfold AttachmentProcess.after, AttachmentProcess.commit.
  change (trace (snd (run (AttachmentProcess.contentCallback
                             attachment result))))
    with (@callback_trace _ AttachmentProcess_View attachment result).
  rewrite AttachmentProcess_callback_events.
  destruct result as [value | error]; cbn [callback_events flag_after].
  - rewrite <- (callback_blob_decodable attachment value).
    destruct (callback_blob attachment value); destruct s; reflexivity.
  - reflexivity.
Qed.

Lemma ProcessEmailData_after_any_callback s attachment result :
  ProcessEmailData.after s
    (ProcessEmailData.contentCallback attachment result)
  = ProcessEmailData_set_submission s
      (flag_after (ProcessEmailData.isSubmissionInitiated s) result).
Proof.
  unfold ProcessEmailData.after, ProcessEmailData.commit.
  change (trace (snd (run (ProcessEmailData.contentCallback
                             attachment result))))
    with (@callback_trace _ ProcessEmailData_View attachment result).
  rewrite ProcessEmailData_callback_events.
  destruct result as [value | error]; cbn [callback_events flag_after].
  - rewrite <- (callback_blob_decodable attachment value).
    destruct (callback_blob attachment value); destruct s; reflexivity.
  - reflexivity.
Qed.

Lemma AttachmentProcess_deliver cs :
  forall s,
    @deliver _ AttachmentProcess_View s cs
    = AttachmentProcess_set_submission s
        (flag_after_run (AttachmentProcess.isSubmissionInitiated s) cs).
Proof.
  induction cs as [| c cs IH]; intros s.
  - destruct s; reflexivity.
  - rewrite deliver_cons.
    change (@afterOf _ AttachmentProcess_View s
              (@callbackOf _ AttachmentProcess_View (fst c) (snd c)))
      with (AttachmentProcess.after s
              (AttachmentProcess.contentCallback (fst c) (snd c))).
    rewrite AttachmentProcess_after_any_callback, IH. reflexivity.
Qed.

Lemma ProcessEmailData_deliver cs :
  forall s,
    @deliver _ ProcessEmailData_View s cs
    = ProcessEmailData_set_submission s
        (flag_after_run (ProcessEmailData.isSubmissionInitiated s) cs).
Proof.
  induction cs as [| c cs IH]; intros s.
  - destruct s; reflexivity.
  - rewrite deliver_cons.
    change (@afterOf _ ProcessEmailData_View s
              (@callbackOf _ ProcessEmailData_View (fst c) (snd c)))
      with (ProcessEmailData.after s
              (ProcessEmailData.contentCallback (fst c) (snd c))).
    rewrite ProcessEmailData_after_any_callback, IH. reflexivity.
Qed.

(** X7: in the metadata and consent views a run of content callbacks, with
    any results in any order, changes no hook but [isSubmissionInitiated],
    and leaves in it the value of the last callback that reached its
    setter: [false] for a failed fetch, [true] for a success whose blob was
    built; a success stopped by [atob] writes nothing. *)
Theorem X7_state_after_a_run_of_callbacks :
  (forall (s : AttachmentProcess.State) cs,
      @deliver _ AttachmentProcess_View s cs
      = {| AttachmentProcess.attachments := AttachmentProcess.attachments s;
           AttachmentProcess.isAttachmentFetched :=
             AttachmentProcess.isAttachmentFetched s;
           AttachmentProcess.isSubmissionInitiated :=
             flag_after_run (AttachmentProcess.isSubmissionInitiated s) cs |})
  /\ (forall (s : ProcessEmailData.State) cs,
         @deliver _ ProcessEmailData_View s cs
         = {| ProcessEmailData.attachments := ProcessEmailData.attachments s;
              ProcessEmailData.isAttachmentFetched :=
                ProcessEmailData.isAttachmentFetched s;
              ProcessEmailData.isSubmissionInitiated :=
                flag_after_run (ProcessEmailData.isSubmissionInitiated s) cs;
              ProcessEmailData.isConsent := ProcessEmailData.isConsent s;
              ProcessEmailData.metaData := ProcessEmailData.metaData s |}).
Proof.
  split; intros s cs.
  - apply AttachmentProcess_deliver.
  - apply ProcessEmailData_deliver.
Qed.

(** ** What the views offer *)

Lemma ltb_length_true {A} (l : list A) :
  (0 <? length l)%nat = true <-> l <> [].
Proof.
  destruct l; cbn; split; try congruence; try discriminate; auto.
Qed.

Lemma ltb_length_false {A} (l : list A) :
  (0 <? length l)%nat = false <-> l = [].
Proof.
  destruct l; cbn; split; try congruence; try discriminate; auto.
Qed.

Ltac button_eq :=
  match goal with
  | H : Button _ _ _ = Button _ _ _ |- _ => injection H as <- <- <-
  end.

Lemma TextInsertion_buttons s d h label :
  In (Button d h label) (TextInsertion.render s) ->
  (h = onFetchAttachments
   /\ d = (0 <? length (TextInsertion.attachments s))%nat)
  \/ (h = onDownloadAttachments /\ d = false
      /\ TextInsertion.attachments s <> []).
Proof.
  unfold TextInsertion.render. intros Hin.
  destruct (0 <? length (TextInsertion.attachments s))%nat eqn:Hlen;
    in_cases; try discriminate; button_eq; auto.
  right. repeat split. now apply ltb_length_true.
Qed.

Lemma AttachmentProcess_buttons item s els d h label :
  AttachmentProcess.render item s = Normal els ->
  In (Button d h label) els ->
  d = false
  /\ ((h = onFetchAttachments /\ AttachmentProcess.attachments s = [])
      \/ (h = onDownloadAttachments
          /\ AttachmentProcess.attachments s <> []
          /\ AttachmentProcess.isSubmissionInitiated s = false)).
Proof.
  unfold AttachmentProcess.render, AttachmentProcess.showMetaData,
    AttachmentProcess.metaDataPanel.
  destruct (AttachmentProcess.attachments s) as [| a l] eqn:Hatts;
    cbn [length Nat.ltb Nat.leb Nat.eqb andb].
  - intros [= <-] Hin. in_cases; try discriminate. button_eq. auto.
  - destruct (AttachmentProcess.isSubmissionInitiated s); cbn [negb].
    + intros [= <-] Hin. in_cases; discriminate.
    + destruct (first_emailAddress (Office.to item)); [| discriminate].
      intros [= <-] Hin. in_cases; try discriminate. button_eq.
      split; [reflexivity |]. right. repeat split. discriminate.
Qed.

Lemma ProcessEmailData_buttons s d h label :
  In (Button d h label) (ProcessEmailData.render s) ->
  d = false
  /\ ((h = onGetMetadata /\ ProcessEmailData.attachments s = [])
      \/ (h = onDownloadAttachments
          /\ ProcessEmailData.attachments s <> []
          /\ ProcessEmailData.isSubmissionInitiated s = false)).
Proof.
  unfold ProcessEmailData.render, ProcessEmailData.showMetaData,
    ProcessEmailData.showConsent, ProcessEmailData.proceedButton.
  destruct (ProcessEmailData.attachments s) as [| a l] eqn:Hatts;
    cbn [length Nat.ltb Nat.leb Nat.eqb andb].
  - rewrite andb_false_r. intros Hin. in_cases; try discriminate.
    button_eq. auto.
  - destruct (ProcessEmailData.isSubmissionInitiated s); cbn [negb];
      intros Hin; in_cases; try discriminate. button_eq.
    split; [reflexivity |]. right. repeat split. discriminate.
Qed.

Lemma TextInsertion_fetch_or_submit : @fetch_or_submit _ TextInsertion_View.
Proof.
  intros item s els. cbn [renderOf attachmentsOf TextInsertion_View].
  intros [= <-]. split.
  - intros h label Hin.
    destruct (TextInsertion_buttons _ _ _ _ Hin)
      as [[-> Hd] | (-> & _ & Hne)].
    + symmetry in Hd. apply ltb_length_false in Hd.
      split; [discriminate | congruence].
    + tauto.
  - intros Hempty. exists onFetchAttachments, (lit "Fetch Attachments").
    split; [discriminate |].
    unfold TextInsertion.render. rewrite Hempty. cbn. auto.
Qed.

Lemma AttachmentProcess_fetch_or_submit :
  @fetch_or_submit _ AttachmentProcess_View.
Proof.
  intros item s els. cbn [renderOf attachmentsOf AttachmentProcess_View].
  intros Hrender. split.
  - intros h label Hin.
    destruct (AttachmentProcess_buttons _ _ _ _ _ _ Hrender Hin)
      as (_ & [[-> Hempty] | (-> & Hne & _)]).
    + split; [discriminate | congruence].
    + tauto.
  - intros Hempty. exists onFetchAttachments, (lit "Fetch MetaData").
    split; [discriminate |].
    unfold AttachmentProcess.render, AttachmentProcess.showMetaData
      in Hrender.
    rewrite Hempty in Hrender. cbn in Hrender.
    injection Hrender as <-. cbn. auto.
Qed.

Lemma ProcessEmailData_fetch_or_submit :
  @fetch_or_submit _ ProcessEmailData_View.
Proof.
  intros item s els. cbn [renderOf attachmentsOf ProcessEmailData_View].
  intros [= <-]. split.
  - intros h label Hin.
    destruct (ProcessEmailData_buttons _ _ _ _ Hin)
      as (_ & [[-> Hempty] | (-> & Hne & _)]).
    + split; [discriminate | congruence].
    + tauto.
  - intros Hempty. exists onGetMetadata, (lit "Proceed").
    split; [discriminate |].
    unfold ProcessEmailData.render, ProcessEmailData.showConsent,
      ProcessEmailData.proceedButton.
    rewrite Hempty. cbn. rewrite andb_false_r. auto.
Qed.

(** X8: in each view the enabled buttons never offer fetching and
    submitting together: a rendered enabled button is [Submit] exactly
    while attachment names are stored; while none is stored the fetch
    button ([Fetch Attachments], [Fetch MetaData], [Proceed]) is there and
    enabled. *)
Theorem X8_enabled_button_is_fetch_or_submit :
  @fetch_or_submit _ TextInsertion_View
  /\ @fetch_or_submit _ AttachmentProcess_View
  /\ @fetch_or_submit _ ProcessEmailData_View.
Proof.
  split; [| split].
  - exact TextInsertion_fetch_or_submit.
  - exact AttachmentProcess_fetch_or_submit.
  - exact ProcessEmailData_fetch_or_submit.
Qed.

(** X9: [AttachmentProcess.tsx] never renders a disabled button: its
    [Fetch MetaData] button carries [disabled={attachments.length > 0}]
    inside the block guarded by [attachments.length === 0], and [Submit]
    is shown only while names are stored and no submission succeeded. *)
Theorem X9_AttachmentProcess_buttons_are_never_disabled
    (item : Office.Item) (s : AttachmentProcess.State)
    (els : list Element) (d : bool) (h : Handler) (label : JSString) :
  AttachmentProcess.render item s = Normal els ->
  In (Button d h label) els ->
  d = false
  /\ ((h = onFetchAttachments /\ label = lit "Fetch MetaData"
       /\ AttachmentProcess.attachments s = [])
      \/ (h = onDownloadAttachments /\ label = lit "Submit"
          /\ AttachmentProcess.attachments s <> []
          /\ AttachmentProcess.isSubmissionInitiated s = false)).
Proof.
  unfold AttachmentProcess.render, AttachmentProcess.showMetaData,
    AttachmentProcess.metaDataPanel.
  destruct (AttachmentProcess.attachments s) as [| a l] eqn:Hatts;
    cbn [length Nat.ltb Nat.leb Nat.eqb andb].
  - intros [= <-] Hin. in_cases; try discriminate. button_eq. auto.
  - destruct (AttachmentProcess.isSubmissionInitiated s); cbn [negb].
    + intros [= <-] Hin. in_cases; discriminate.
    + destruct (first_emailAddress (Office.to item)); [| discriminate].
      intros [= <-] Hin. in_cases; try discriminate. button_eq.
      split; [reflexivity |]. right. repeat split. discriminate.
Qed.

Lemma X9_AttachmentProcess_buttons_are_never_disabled_witness :
  AttachmentProcess.render demoItem AttachmentProcess.initial
  = Normal (when true
              [ Field None
                  (lit "Please provide your consent by clicking below button to extract MetaData from respective email.");
                Button false onFetchAttachments (lit "Fetch MetaData") ])
  /\ AttachmentProcess.attachments AttachmentProcess.initial = [].
Proof.
  split; [reflexivity |].
  destruct (X9_AttachmentProcess_buttons_are_never_disabled
              demoItem AttachmentProcess.initial _ false onFetchAttachments
              (lit "Fetch MetaData") eq_refl)
    as (_ & [(_ & _ & H) | (H & _)]).
  - cbn. auto.
  - exact H.
  - discriminate H.
Defined.

Ltac not_message :=
  match goal with
  | H : noAttachmentsMessage = _ |- _ =>
      solve [ discriminate H
            | apply Field_color_injective in H; discriminate H ]
  | H : _ = noAttachmentsMessage |- _ =>
      solve [ discriminate H
            | apply Field_color_injective in H; discriminate H ]
  end.

Ltac show_in :=
  cbn [app In when]; repeat first [left; reflexivity | right].

Lemma TextInsertion_message : @message_follows_guard _ TextInsertion_View.
Proof.
  intros item s els.
  cbn [renderOf attachmentsOf isAttachmentFetchedOf TextInsertion_View].
  unfold TextInsertion.render. intros [= <-].
  destruct (showNoAttachments (TextInsertion.attachments s)
              (TextInsertion.isAttachmentFetched s)) eqn:Hshow.
  - split; [reflexivity |]. intros _. show_in.
  - split; [| discriminate]. intros Hin. in_cases; not_message.
Qed.

Lemma AttachmentProcess_message :
  @message_follows_guard _ AttachmentProcess_View.
Proof.
  intros item s els.
  cbn [renderOf attachmentsOf isAttachmentFetchedOf AttachmentProcess_View].
  unfold AttachmentProcess.render.
  destruct (if AttachmentProcess.showMetaData s
            then AttachmentProcess.metaDataPanel item s else Normal [])
    as [panel | e] eqn:Hpanel; [| discriminate].
  intros [= <-].
  destruct (showNoAttachments (AttachmentProcess.attachments s)
              (AttachmentProcess.isAttachmentFetched s)) eqn:Hshow.
  - split; [reflexivity |]. intros _.
    rewrite !in_app_iff. right. left. cbn. auto.
  - split; [| discriminate]. intros Hin.
    unfold AttachmentProcess.metaDataPanel in Hpanel.
    destruct (AttachmentProcess.showMetaData s);
      [ destruct (first_emailAddress (Office.to item)); [| discriminate] |];
      injection Hpanel as <-; in_cases; not_message.
Qed.

Lemma ProcessEmailData_message :
  @message_follows_guard _ ProcessEmailData_View.
Proof.
  intros item s els.
  cbn [renderOf attachmentsOf isAttachmentFetchedOf ProcessEmailData_View].
  unfold ProcessEmailData.render, ProcessEmailData.proceedButton.
  intros [= <-].
  destruct (showNoAttachments (ProcessEmailData.attachments s)
              (ProcessEmailData.isAttachmentFetched s)) eqn:Hshow.
  - split; [reflexivity |]. intros _.
    rewrite !in_app_iff. right. left. cbn. auto.
  - split; [| discriminate]. intros Hin. in_cases; not_message.
Qed.

Lemma fetched_from_empty item atts :
  Office.attachments item = Normal atts ->
  fetched_attachments [] atts = map descriptor (entries item).
Proof.
  intros H. unfold entries. rewrite H. now destruct atts.
Qed.

Lemma TextInsertion_fetch_from_empty item s :
  TextInsertion.attachments s = [] ->
  TextInsertion.after s (TextInsertion.fetchAttachments item s)
  = {| TextInsertion.attachments := map descriptor (entries item);
       TextInsertion.isAttachmentFetched := Some false |}.
Proof.
  intros Hempty. unfold TextInsertion.after.
  destruct (Office.attachments item) as [atts | e] eqn:H.
  - rewrite (TextInsertion_fetch_normal _ s _ H). cbn [snd].
    rewrite TextInsertion_commit_fetched, Hempty.
    now rewrite (fetched_from_empty _ _ H).
  - rewrite (TextInsertion_fetch_throw _ s _ H).
    unfold entries. rewrite H. cbn. now rewrite Hempty.
Qed.

Lemma AttachmentProcess_fetch_from_empty item s :
  AttachmentProcess.attachments s = [] ->
  AttachmentProcess.after s (AttachmentProcess.fetchAttachments item s)
  = {| AttachmentProcess.attachments := map descriptor (entries item);
       AttachmentProcess.isAttachmentFetched := Some false;
       AttachmentProcess.isSubmissionInitiated :=
         AttachmentProcess.isSubmissionInitiated s |}.
Proof.
  intros Hempty. unfold AttachmentProcess.after.
  destruct (Office.attachments item) as [atts | e] eqn:H.
  - rewrite (AttachmentProcess_fetch_normal _ s _ H). cbn [snd].
    rewrite AttachmentProcess_commit_fetched, Hempty.
    now rewrite (fetched_from_empty _ _ H).
  - rewrite (AttachmentProcess_fetch_throw _ s _ H).
    unfold entries. rewrite H. cbn. now rewrite Hempty.
Qed.

Lemma ProcessEmailData_fetch_from_empty item s :
  ProcessEmailData.attachments s = [] ->
  ProcessEmailData.after s (ProcessEmailData.fetchAttachmentMetadata item s)
  = {| ProcessEmailData.attachments := map descriptor (entries item);
       ProcessEmailData.isAttachmentFetched := Some false;
       ProcessEmailData.isSubmissionInitiated :=
         ProcessEmailData.isSubmissionInitiated s;
       ProcessEmailData.isConsent := ProcessEmailData.isConsent s;
       ProcessEmailData.metaData := ProcessEmailData.metaData s |}.
Proof.
  intros Hempty. unfold ProcessEmailData.after.
  destruct (Office.attachments item) as [atts | e] eqn:H.
  - rewrite (ProcessEmailData_fetch_normal _ s _ H). cbn [snd].
    rewrite ProcessEmailData_commit_fetched, Hempty.
    now rewrite (fetched_from_empty _ _ H).
  - rewrite (ProcessEmailData_fetch_throw _ s _ H).
    unfold entries. rewrite H. cbn. now rewrite Hempty.
Qed.

Lemma showNoAttachments_descriptors (l : list Office.AttachmentDetails) :
  showNoAttachments (map descriptor l) (Some false) = true <-> l = [].
Proof. destruct l; cbn; split; congruence. Qed.

Lemma message_after_fetch_from {State} {V : View State} :
  message_follows_guard ->
  (forall item s,
      attachmentsOf s = [] ->
      attachmentsOf (afterOf s (fetchOf item s)) = map descriptor (entries item)
      /\ isAttachmentFetchedOf (afterOf s (fetchOf item s)) = Some false
      /\ (entries item = [] ->
          is_normal (renderOf item (afterOf s (fetchOf item s))) = true)) ->
  message_after_fetch.
Proof.
  intros Hmsg Hfetch item s Hempty s'.
  destruct (Hfetch item s Hempty) as (Hatts & Hflag & Hrender).
  fold s' in Hatts, Hflag, Hrender.
  split; [exact Hatts | split; [exact Hflag | split]].
  - intros Hnone. specialize (Hrender Hnone).
    destruct (renderOf item s') as [els | e] eqn:Hr; [| discriminate].
    exists els. split; [reflexivity |].
    apply (Hmsg item s' els Hr). rewrite Hatts, Hflag.
    now apply showNoAttachments_descriptors.
  - intros Hsome els Hr Hin.
    apply (Hmsg item s' els Hr) in Hin. rewrite Hatts, Hflag in Hin.
    now apply showNoAttachments_descriptors in Hin.
Qed.

Lemma TextInsertion_message_after_fetch :
  @message_after_fetch _ TextInsertion_View.
Proof.
  apply message_after_fetch_from; [exact TextInsertion_message |].
  intros item s Hempty. unfold afterOf.
  cbn [fetchOf commitOf attachmentsOf isAttachmentFetchedOf renderOf
       TextInsertion_View].
  change (TextInsertion.commit s
            (snd (run (TextInsertion.fetchAttachments item s))))
    with (TextInsertion.after s (TextInsertion.fetchAttachments item s)).
  rewrite (TextInsertion_fetch_from_empty item s Hempty). auto.
Qed.

Lemma AttachmentProcess_message_after_fetch :
  @message_after_fetch _ AttachmentProcess_View.
Proof.
  apply message_after_fetch_from; [exact AttachmentProcess_message |].
  intros item s Hempty. unfold afterOf.
  cbn [fetchOf commitOf attachmentsOf isAttachmentFetchedOf renderOf
       AttachmentProcess_View].
  change (AttachmentProcess.commit s
            (snd (run (AttachmentProcess.fetchAttachments item s))))
    with (AttachmentProcess.after s
            (AttachmentProcess.fetchAttachments item s)).
  rewrite (AttachmentProcess_fetch_from_empty item s Hempty).
  cbn [AttachmentProcess.attachments AttachmentProcess.isAttachmentFetched].
  repeat split. intros Hnone.
  unfold AttachmentProcess.render, AttachmentProcess.showMetaData.
  cbn [AttachmentProcess.attachments]. now rewrite Hnone.
Qed.

Lemma ProcessEmailData_message_after_fetch :
  @message_after_fetch _ ProcessEmailData_View.
Proof.
  apply message_after_fetch_from; [exact ProcessEmailData_message |].
  intros item s Hempty. unfold afterOf.
  cbn [fetchOf commitOf attachmentsOf isAttachmentFetchedOf renderOf
       ProcessEmailData_View].
  change (ProcessEmailData.commit s
            (snd (run (ProcessEmailData.fetchAttachmentMetadata item s))))
    with (ProcessEmailData.after s
            (ProcessEmailData.fetchAttachmentMetadata item s)).
  rewrite (ProcessEmailData_fetch_from_empty item s Hempty). auto.
Qed.

(** X10: a fetch started while no names are stored (the only time a fetch
    button is enabled) stores the identifier and name of every host entry
    and sets [isAttachmentFetched] to [false]; because the message is also
    guarded by [attachments.length === 0], "No attachments found in this
    email" is then rendered exactly when the item has no attachment entry
    (an empty list, or an enumeration that threw), although the flag is
    [false] in both cases. *)
Theorem X10_message_after_fetch_tells_empty_items :
  @message_after_fetch _ TextInsertion_View
  /\ @message_after_fetch _ AttachmentProcess_View
  /\ @message_after_fetch _ ProcessEmailData_View.
Proof.
  split; [| split].
  - exact TextInsertion_message_after_fetch.
  - exact AttachmentProcess_message_after_fetch.
  - exact ProcessEmailData_message_after_fetch.
Qed.

Lemma X10_message_after_fetch_tells_empty_items_witness :
  TextInsertion.attachments TextInsertion.initial = []
  /\ entries demoItem <> []
  /\ ~ In noAttachmentsMessage
         (TextInsertion.render
            (TextInsertion.after TextInsertion.initial
               (TextInsertion.fetchAttachments demoItem
                  TextInsertion.initial))).
Proof.
  split; [reflexivity | split; [discriminate |]].
  destruct X10_message_after_fetch_tells_empty_items as (H & _).
  destruct (H demoItem TextInsertion.initial eq_refl) as (_ & _ & _ & Hno).
  apply Hno; [discriminate | reflexivity].
Defined.

(** ** States the user can bring about *)

Lemma user_reachable_invariant {State} {V : View State} {K : Clickable State}
    (item : Office.Item) (P : State -> Prop) :
  P initialOf ->
  (forall s s', P s -> user_step item s s' -> P s') ->
  forall s, user_reachable item s -> P s.
Proof.
  intros Hinit Hstep s Hreach.
  induction Hreach as [| s s' _ IH Hs]; [exact Hinit | exact (Hstep s s' IH Hs)].
Qed.

Lemma TextInsertion_user_step item s s' :
  @user_step _ TextInsertion_View TextInsertion_Clickable item s s' ->
  (TextInsertion.attachments s = []
   /\ s' = TextInsertion.after s (TextInsertion.fetchAttachments item s))
  \/ s' = s.
Proof.
  intros [s0 els h label Hr Hin | s0 m [] | s0 attachment result].
  - cbn [renderOf TextInsertion_View] in Hr. injection Hr as <-.
    destruct (TextInsertion_buttons _ _ _ _ Hin)
      as [[-> Hd] | (-> & _ & _)].
    + left. symmetry in Hd. apply ltb_length_false in Hd. now split.
    + right. exact (proj2 (TextInsertion_download_keeps_state item s0)).
  - right. apply TextInsertion_after_callback.
Qed.

Lemma AttachmentProcess_user_step item s s' :
  @user_step _ AttachmentProcess_View AttachmentProcess_Clickable item s s' ->
  (AttachmentProcess.attachments s = []
   /\ s' = AttachmentProcess.after s
             (AttachmentProcess.fetchAttachments item s))
  \/ exists b, s' = AttachmentProcess_set_submission s b.
Proof.
  intros [s0 els h label Hr Hin | s0 m [] | s0 attachment result].
  - cbn [renderOf AttachmentProcess_View] in Hr.
    destruct (AttachmentProcess_buttons _ _ _ _ _ _ Hr Hin)
      as (_ & [[-> Hempty] | (-> & _ & _)]).
    + left. now split.
    + right. exists (AttachmentProcess.isSubmissionInitiated s0).
      transitivity s0;
        [exact (proj2 (AttachmentProcess_download_keeps_state item s0))
        | now destruct s0].
  - right. eexists. apply AttachmentProcess_after_any_callback.
Qed.

Lemma ProcessEmailData_getMetadata_after item s :
  ProcessEmailData.after s (ProcessEmailData.getMetadata item s)
  = match Office.to item with
    | recipient :: _ =>
        ProcessEmailData_set_metaData
          (ProcessEmailData.after s
             (ProcessEmailData.fetchAttachmentMetadata item s))
          (metadata_of item recipient)
    | [] => s
    end.
Proof.
  unfold ProcessEmailData.after.
  destruct (Office.to item) as [| recipient others] eqn:Hto.
  - now rewrite (getMetadata_run_no_recipient item s Hto).
  - rewrite (getMetadata_run item s recipient others Hto).
    unfold ProcessEmailData.commit, fetch_trace, fetch_heap.
    cbn [snd trace heap fold_left].
    destruct (Office.attachments item) as [atts | e] eqn:H.
    + rewrite (ProcessEmailData_fetch_normal _ s _ H). cbn [snd].
      change (fold_left (ProcessEmailData.apply_event [map descriptor atts])
                (trace (fetched_store atts ?b)) ?s1)
        with (ProcessEmailData.commit s1 (fetched_store atts b)).
      change (fold_left
                (ProcessEmailData.apply_event
                   (heap (fetched_store atts ?b)))
                (trace (fetched_store atts ?b)) ?s1)
        with (ProcessEmailData.commit s1 (fetched_store atts b)).
      now rewrite !ProcessEmailData_commit_fetched.
    + now rewrite (ProcessEmailData_fetch_throw _ s _ H).
Qed.

Lemma ProcessEmailData_user_step item s s' :
  @user_step _ ProcessEmailData_View ProcessEmailData_Clickable item s s' ->
  (ProcessEmailData.attachments s = []
   /\ s' = ProcessEmailData.after s (ProcessEmailData.getMetadata item s))
  \/ (exists b, s' = ProcessEmailData_set_submission s b)
  \/ (ProcessEmailData.attachments s = []
      /\ exists checked, s' = with_consent s checked).
Proof.
  intros [s0 els h label Hr Hin
         | s0 m (Hshow & checked & ->)
         | s0 attachment result].
  - cbn [renderOf ProcessEmailData_View] in Hr. injection Hr as <-.
    destruct (ProcessEmailData_buttons _ _ _ _ Hin)
      as (_ & [[-> Hempty] | (-> & _ & _)]).
    + left. now split.
    + right. left. exists (ProcessEmailData.isSubmissionInitiated s0).
      transitivity s0;
        [exact (proj2 (ProcessEmailData_download_keeps_state item s0))
        | now destruct s0].
  - right. right. split.
    + unfold ProcessEmailData.showConsent in Hshow.
      now destruct (ProcessEmailData.attachments s0).
    + now exists checked.
  - right. left. eexists. apply ProcessEmailData_after_any_callback.
Qed.

Lemma TextInsertion_flag_never_true :
  @fetch_flag_is_never_true _ TextInsertion_View TextInsertion_Clickable.
Proof.
  intros item. apply user_reachable_invariant.
  - left. now split.
  - intros s s' IH Hstep.
    destruct (TextInsertion_user_step _ _ _ Hstep) as [[Hempty ->] | ->];
      [| exact IH].
    right. cbn [isAttachmentFetchedOf attachmentsOf TextInsertion_View].
    now rewrite (TextInsertion_fetch_from_empty item s Hempty).
Qed.

Lemma AttachmentProcess_flag_never_true :
  @fetch_flag_is_never_true _ AttachmentProcess_View
    AttachmentProcess_Clickable.
Proof.
  intros item. apply user_reachable_invariant.
  - left. now split.
  - intros s s' IH Hstep.
    destruct (AttachmentProcess_user_step _ _ _ Hstep)
      as [[Hempty ->] | [b ->]]; [| exact IH].
    right. cbn [isAttachmentFetchedOf attachmentsOf AttachmentProcess_View].
    now rewrite (AttachmentProcess_fetch_from_empty item s Hempty).
Qed.

Lemma ProcessEmailData_flag_never_true :
  @fetch_flag_is_never_true _ ProcessEmailData_View
    ProcessEmailData_Clickable.
Proof.
  intros item. apply user_reachable_invariant.
  - left. now split.
  - intros s s' IH Hstep.
    destruct (ProcessEmailData_user_step _ _ _ Hstep)
      as [[Hempty ->] | [[b ->] | [_ [checked ->]]]];
      [| exact IH | exact IH].
    cbn [isAttachmentFetchedOf attachmentsOf ProcessEmailData_View] in *.
    rewrite ProcessEmailData_getMetadata_after.
    destruct (Office.to item) as [| recipient others]; [exact IH |].
    right. rewrite (ProcessEmailData_fetch_from_empty item s Hempty).
    now split.
Qed.

Lemma message_only_from_invariant
    {State} {V : View State} {K : Clickable State} :
  message_follows_guard ->
  fetch_flag_is_never_true ->
  message_only_for_empty_items.
Proof.
  intros Hmsg Hinv item s els Hreach Hr Hin.
  apply (Hmsg item s els Hr) in Hin.
  destruct (Hinv item s Hreach) as [[Hflag _] | [Hflag Hatts]];
    rewrite Hflag in Hin; [discriminate |].
  rewrite Hatts in Hin. now apply showNoAttachments_descriptors in Hin.
Qed.

(** X11: in every state a user can bring about (clicks on rendered,
    enabled buttons, the consent box, deliveries of content results),
    [isAttachmentFetched] is never [true]: it is [null] with no names
    stored, or [false] with the identifier and name of every host entry
    stored.  Hence the "No attachments found in this email" message is
    only ever rendered for an item without attachment entries. *)
Theorem X11_fetch_flag_is_never_true :
  (@fetch_flag_is_never_true _ TextInsertion_View TextInsertion_Clickable
   /\ @message_only_for_empty_items _ TextInsertion_View
        TextInsertion_Clickable)
  /\ (@fetch_flag_is_never_true _ AttachmentProcess_View
        AttachmentProcess_Clickable
      /\ @message_only_for_empty_items _ AttachmentProcess_View
           AttachmentProcess_Clickable)
  /\ (@fetch_flag_is_never_true _ ProcessEmailData_View
        ProcessEmailData_Clickable
      /\ @message_only_for_empty_items _ ProcessEmailData_View
           ProcessEmailData_Clickable).
Proof.
  split; [| split]; split.
  - exact TextInsertion_flag_never_true.
  - exact (message_only_from_invariant TextInsertion_message
             TextInsertion_flag_never_true).
  - exact AttachmentProcess_flag_never_true.
  - exact (message_only_from_invariant AttachmentProcess_message
             AttachmentProcess_flag_never_true).
  - exact ProcessEmailData_flag_never_true.
  - exact (message_only_from_invariant ProcessEmailData_message
             ProcessEmailData_flag_never_true).
Qed.

(** X12: [getMetadata] is [setMetaData] of the item record followed by
    [fetchAttachmentMetadata]: on an item with a To recipient the state it
    leaves is the state the fetch alone leaves, with [metaData] replaced by
    the record; on an item without one it leaves the state as it was. *)
Theorem X12_getMetadata_is_record_then_fetch
    (item : Office.Item) (s : ProcessEmailData.State) :
  ProcessEmailData.after s (ProcessEmailData.getMetadata item s)
  = match Office.to item with
    | recipient :: _ =>
        let fetched :=
          ProcessEmailData.after s
            (ProcessEmailData.fetchAttachmentMetadata item s) in
        {| ProcessEmailData.attachments :=
             ProcessEmailData.attachments fetched;
           ProcessEmailData.isAttachmentFetched :=
             ProcessEmailData.isAttachmentFetched fetched;
           ProcessEmailData.isSubmissionInitiated :=
             ProcessEmailData.isSubmissionInitiated fetched;
           ProcessEmailData.isConsent := ProcessEmailData.isConsent fetched;
           ProcessEmailData.metaData :=
             Some
               {| sender := Office.emailAddress (Office.sender item);
                  to := Office.emailAddress recipient;
                  subject := Office.subject item;
                  conversationId := Office.conversationId item;
                  itemId := Office.itemId item;
                  timeStamp :=
                    Number_toString
                      (getTime (Office.dateTimeCreated item)) |} |}
    | [] => s
    end.
Proof. apply ProcessEmailData_getMetadata_after. Qed.

Lemma ProcessEmailData_metaData_invariant item s :
  @user_reachable _ ProcessEmailData_View ProcessEmailData_Clickable item s ->
  ProcessEmailData.attachments s <> [] ->
  exists recipient others,
    Office.to item = recipient :: others
    /\ ProcessEmailData.metaData s = Some (metadata_of item recipient).
Proof.
  revert s.
  apply (@user_reachable_invariant _ ProcessEmailData_View
           ProcessEmailData_Clickable item
           (fun s =>
              ProcessEmailData.attachments s <> [] ->
              exists recipient others,
                Office.to item = recipient :: others
                /\ ProcessEmailData.metaData s
                   = Some (metadata_of item recipient))).
  - intros Hne. now contradiction Hne.
  - intros s s' IH Hstep.
    destruct (ProcessEmailData_user_step _ _ _ Hstep)
      as [[Hempty ->] | [[b ->] | [_ [checked ->]]]];
      [| exact IH | exact IH].
    rewrite ProcessEmailData_getMetadata_after.
    destruct (Office.to item) as [| recipient others]; [exact IH |].
    intros _. now exists recipient, others.
Qed.

(** X13: whenever [Submit] is on screen in a state the user can bring
    about in the consent-gated view, the item has a To recipient and
    [metaData] holds the record of the six item fields; the file
    [downloadAttachments] then saves as [metadata.txt] is the
    [JSON.stringify] text of that record, never of [null]. *)
Theorem X13_metadata_file_holds_the_item_record
    (item : Office.Item) (s : ProcessEmailData.State) :
  @user_reachable _ ProcessEmailData_View ProcessEmailData_Clickable item s ->
  In (Button false onDownloadAttachments (lit "Submit"))
     (ProcessEmailData.render s) ->
  exists recipient others,
    Office.to item = recipient :: others
    /\ ProcessEmailData.metaData s
       = Some {| sender := Office.emailAddress (Office.sender item);
                 to := Office.emailAddress recipient;
                 subject := Office.subject item;
                 conversationId := Office.conversationId item;
                 itemId := Office.itemId item;
                 timeStamp :=
                   Number_toString
                     (getTime (Office.dateTimeCreated item)) |}
    /\ map (fun a => (href a, download a))
         (clicks (trace (snd (run (ProcessEmailData.downloadAttachments
                                     item s)))))
       = [ (ObjectURL
              {| blobParts :=
                   [StringPart
                      (JSON_stringify
                         (Some
                            {| sender :=
                                 Office.emailAddress (Office.sender item);
                               to := Office.emailAddress recipient;
                               subject := Office.subject item;
                               conversationId := Office.conversationId item;
                               itemId := Office.itemId item;
                               timeStamp :=
                                 Number_toString
                                   (getTime
                                      (Office.dateTimeCreated item)) |}))];
                 type := lit "text/plain" |},
            lit "metadata.txt") ].
Proof.
  intros Hreach Hin.
  destruct (ProcessEmailData_buttons _ _ _ _ Hin)
    as (_ & [[Habs _] | (_ & Hne & _)]); [discriminate |].
  destruct (ProcessEmailData_metaData_invariant item s Hreach Hne)
    as (recipient & others & Hto & Hmeta).
  exists recipient, others. split; [exact Hto | split; [exact Hmeta |]].
  destruct (ProcessEmailData_flag_never_true item s Hreach)
    as [[_ Hempty] | [_ Hatts]]; [contradiction |].
  cbn [attachmentsOf ProcessEmailData_View] in Hatts.
  unfold entries in Hatts.
  destruct (Office.attachments item) as [atts | e] eqn:H;
    [| rewrite Hatts in Hne; now contradiction Hne].
  rewrite (ProcessEmailData_download_normal _ s _ H). cbn [snd trace].
  change (AttachmentsForEach :: ?t) with ([AttachmentsForEach] ++ t).
  rewrite !clicks_app, clicks_request_events, Hmeta. reflexivity.
Qed.

Lemma submitState_user_reachable :
  @user_reachable _ ProcessEmailData_View ProcessEmailData_Clickable
    demoItem submitState.
Proof.
  apply (@user_reachable_step _ ProcessEmailData_View
           ProcessEmailData_Clickable demoItem ProcessEmailData.initial).
  - apply (@user_reachable_initial _ ProcessEmailData_View
             ProcessEmailData_Clickable).
  - apply (@user_click _ ProcessEmailData_View ProcessEmailData_Clickable
             demoItem ProcessEmailData.initial
             (ProcessEmailData.render ProcessEmailData.initial)
             onGetMetadata (lit "Proceed")).
    + reflexivity.
    + cbn. auto.
Defined.

Lemma X13_metadata_file_holds_the_item_record_witness :
  In (Button false onDownloadAttachments (lit "Submit"))
     (ProcessEmailData.render submitState)
  /\ ProcessEmailData.metaData submitState <> None.
Proof.
  assert (Hin : In (Button false onDownloadAttachments (lit "Submit"))
                   (ProcessEmailData.render submitState)).
  { cbn. auto 20. }
  split; [exact Hin |].
  destruct (X13_metadata_file_holds_the_item_record demoItem submitState
              submitState_user_reachable Hin)
    as (recipient & others & _ & Hmeta & _).
  rewrite Hmeta. discriminate.
Defined.

(** X14: the consent box decides nothing.  Two states of the consent-gated
    view that differ only in [isConsent] render the same elements, and
    [getMetadata] and [downloadAttachments] do the same in both. *)
Theorem X14_consent_is_never_consulted
    (item : Office.Item) (s : ProcessEmailData.State) (checked : bool) :
  ProcessEmailData.render (with_consent s checked) = ProcessEmailData.render s
  /\ run (ProcessEmailData.getMetadata item (with_consent s checked))
     = run (ProcessEmailData.getMetadata item s)
  /\ run (ProcessEmailData.downloadAttachments item (with_consent s checked))
     = run (ProcessEmailData.downloadAttachments item s).
Proof.
  split; [| split; reflexivity].
  unfold ProcessEmailData.render, ProcessEmailData.showConsent,
    ProcessEmailData.showMetaData, ProcessEmailData.proceedButton,
    with_consent.
  cbn [ProcessEmailData.attachments ProcessEmailData.isAttachmentFetched
       ProcessEmailData.isSubmissionInitiated ProcessEmailData.isConsent
       ProcessEmailData.metaData].
  destruct (ProcessEmailData.attachments s) as [| a l];
    cbn [length Nat.eqb Nat.ltb Nat.leb when app]; [| reflexivity].
  now rewrite !andb_false_r.
Qed.

(** X15: once names are stored, the consent-gated view renders exactly
    what [AttachmentProcess.tsx] renders from the same hooks: in every
    state the user can bring about, the six values it shows from the
    stored [metaData] record are the values the other view reads from the
    open item while rendering. *)
Theorem X15_consent_view_renders_like_metadata_view
    (item : Office.Item) (s : ProcessEmailData.State) :
  @user_reachable _ ProcessEmailData_View ProcessEmailData_Clickable item s ->
  ProcessEmailData.attachments s <> [] ->
  AttachmentProcess.render item (shared_hooks s)
  = Normal (ProcessEmailData.render s).
Proof.
  intros Hreach Hne.
  destruct (ProcessEmailData_metaData_invariant item s Hreach Hne)
    as (recipient & others & Hto & Hmeta).
  unfold AttachmentProcess.render, AttachmentProcess.showMetaData,
    AttachmentProcess.metaDataPanel, ProcessEmailData.render,
    ProcessEmailData.showConsent, ProcessEmailData.showMetaData,
    first_emailAddress, shared_hooks.
  cbn [AttachmentProcess.attachments AttachmentProcess.isAttachmentFetched
       AttachmentProcess.isSubmissionInitiated].
  rewrite Hto, Hmeta. cbn [nth_error].
  destruct (ProcessEmailData.attachments s) as [| a l];
    [now contradiction Hne |].
  cbn [length Nat.eqb Nat.ltb Nat.leb andb when app].
  destruct (ProcessEmailData.isSubmissionInitiated s); reflexivity.
Qed.

Lemma X15_consent_view_renders_like_metadata_view_witness :
  ProcessEmailData.attachments submitState <> []
  /\ AttachmentProcess.render demoItem (shared_hooks submitState)
     = Normal (ProcessEmailData.render submitState).
Proof.
  assert (Hne : ProcessEmailData.attachments submitState <> [])
    by discriminate.
  split; [exact Hne |].
  exact (X15_consent_view_renders_like_metadata_view demoItem submitState
           submitState_user_reachable Hne).
Defined.

(** X16: in the metadata and consent views, once names are stored and
    [isSubmissionInitiated] is set, the render consists of the success
    banner alone: no fetch block, no metadata, no button, so nothing can be
    clicked until a later failing callback clears the flag.  The render of
    [AttachmentProcess.tsx] does not even read the To list then. *)
Theorem X16_after_success_only_the_banner_is_shown :
  (forall (item : Office.Item) (s : AttachmentProcess.State),
      AttachmentProcess.attachments s <> [] ->
      AttachmentProcess.isSubmissionInitiated s = true ->
      AttachmentProcess.render item s = Normal [ successBanner ])
  /\ (forall s : ProcessEmailData.State,
         ProcessEmailData.attachments s <> [] ->
         ProcessEmailData.isSubmissionInitiated s = true ->
         ProcessEmailData.render s = [ successBanner ]).
Proof.
  split.
  - intros item s Hne Hsub.
    unfold AttachmentProcess.render, AttachmentProcess.showMetaData.
    rewrite Hsub.
    destruct (AttachmentProcess.attachments s) as [| a l] eqn:Hatts;
      [now contradiction Hne |].
    cbn. destruct (AttachmentProcess.isAttachmentFetched s) as [[|] |];
      reflexivity.
  - intros s Hne Hsub.
    unfold ProcessEmailData.render, ProcessEmailData.showConsent,
      ProcessEmailData.showMetaData.
    rewrite Hsub.
    destruct (ProcessEmailData.attachments s) as [| a l] eqn:Hatts;
      [now contradiction Hne |].
    cbn. destruct (ProcessEmailData.isAttachmentFetched s) as [[|] |];
      reflexivity.
Qed.

Lemma X16_after_success_only_the_banner_is_shown_witness :
  AttachmentProcess.attachments submittedState <> []
  /\ AttachmentProcess.isSubmissionInitiated submittedState = true
  /\ AttachmentProcess.render brokenItem submittedState
     = Normal [ successBanner ].
Proof.
  assert (Hne : AttachmentProcess.attachments submittedState <> [])
    by discriminate.
  split; [exact Hne | split; [reflexivity |]].
  exact (proj1 X16_after_success_only_the_banner_is_shown brokenItem
           submittedState Hne eq_refl).
Defined.

(** ** Fetch, then download *)

Lemma attachmentsUpdates_repeat n :
  attachmentsUpdates (repeat (SetAttachments 0) n) = repeat 0 n.
Proof.
  induction n as [| n IH]; [reflexivity |].
  cbn [repeat]. change (attachmentsUpdates (SetAttachments 0 :: ?t))
    with (0 :: attachmentsUpdates t).
  now rewrite IH.
Qed.

Lemma attachmentsUpdates_fetched atts b :
  attachmentsUpdates (trace (fetched_store atts b)) = repeat 0 (length atts).
Proof.
  unfold fetched_store. cbn [trace].
  change (AttachmentsForEach :: ?t) with ([AttachmentsForEach] ++ t).
  rewrite !attachmentsUpdates_app, attachmentsUpdates_repeat. cbn.
  now rewrite app_nil_r.
Qed.

Lemma fetched_attachments_nonempty old atts :
  atts <> [] -> fetched_attachments old atts = map descriptor atts.
Proof. destruct atts; [congruence | reflexivity]. Qed.

(** X17: the fetch loop calls [setAttachments(names)] once per host entry
    and every call passes the same array, the one the handler allocated;
    when React applies the updates that array holds the identifier and
    name of every entry, so the stored list is complete although the first
    call was made when it held one element. *)
Theorem X17_fetch_passes_the_same_array_each_time
    (item : Office.Item) (atts : list Office.AttachmentDetails) :
  Office.attachments item = Normal atts ->
  @fetch_passes_one_array _ TextInsertion_View item atts
  /\ @fetch_passes_one_array _ AttachmentProcess_View item atts
  /\ @fetch_passes_one_array _ ProcessEmailData_View item atts.
Proof.
  intros H. split; [| split]; intros s; unfold afterOf.
  - cbn [fetchOf commitOf attachmentsOf TextInsertion_View].
    rewrite (TextInsertion_fetch_normal _ s _ H). cbn [snd].
    rewrite attachmentsUpdates_fetched, TextInsertion_commit_fetched.
    repeat split. apply fetched_attachments_nonempty.
  - cbn [fetchOf commitOf attachmentsOf AttachmentProcess_View].
    rewrite (AttachmentProcess_fetch_normal _ s _ H). cbn [snd].
    rewrite attachmentsUpdates_fetched, AttachmentProcess_commit_fetched.
    repeat split. apply fetched_attachments_nonempty.
  - cbn [fetchOf commitOf attachmentsOf ProcessEmailData_View].
    rewrite (ProcessEmailData_fetch_normal _ s _ H). cbn [snd].
    rewrite attachmentsUpdates_fetched, ProcessEmailData_commit_fetched.
    repeat split. apply fetched_attachments_nonempty.
Qed.

Lemma X17_fetch_passes_the_same_array_each_time_witness :
  Office.attachments demoItem = Normal [ pdfAttachment; txtAttachment ]
  /\ attachmentsUpdates
       (trace (snd (run (TextInsertion.fetchAttachments demoItem
                           TextInsertion.initial))))
     = [ 0; 0 ].
Proof.
  split; [reflexivity |].
  destruct (X17_fetch_passes_the_same_array_each_time demoItem
              [ pdfAttachment; txtAttachment ] eq_refl) as (H & _).
  exact (proj1 (H TextInsertion.initial)).
Defined.

Lemma filter_all {A} (f : A -> bool) (l : list A) :
  Forall (fun x => f x = true) l -> filter f l = l.
Proof.
  induction 1 as [| x l Hx _ IH]; cbn; [reflexivity |].
  now rewrite Hx, IH.
Qed.

Lemma listed_names_from {State} {V : View State} (item : Office.Item) :
  run_saves_downloadable ->
  message_after_fetch ->
  listed_names_are_saved_names item.
Proof.
  intros Hsaves Hfetch s cs Hempty Hperm Hall.
  destruct (Hfetch item s Hempty) as (-> & _).
  rewrite Hsaves, (filter_all _ _ Hall).
  rewrite <- (map_map fst Office.name).
  rewrite (map_map descriptor name).
  change (fun x => name (descriptor x)) with Office.name.
  now apply Permutation_map.
Qed.

(** X18: what a fetch lists is what a download saves.  After a fetch
    started with no names stored, if the host answers the request of each
    entry once, in any order, with a result that can be turned into a
    blob, the file names of the downloads are the listed names, up to the
    order of delivery. *)
Theorem X18_listed_names_are_the_saved_file_names (item : Office.Item) :
  @listed_names_are_saved_names _ TextInsertion_View item
  /\ @listed_names_are_saved_names _ AttachmentProcess_View item
  /\ @listed_names_are_saved_names _ ProcessEmailData_View item.
Proof.
  split; [| split].
  - exact (listed_names_from item
             (saves_downloadable_from_events false
                TextInsertion_callback_events)
             TextInsertion_message_after_fetch).
  - exact (listed_names_from item
             (saves_downloadable_from_events true
                AttachmentProcess_callback_events)
             AttachmentProcess_message_after_fetch).
  - exact (listed_names_from item
             (saves_downloadable_from_events true
                ProcessEmailData_callback_events)
             ProcessEmailData_message_after_fetch).
Qed.

Lemma X18_listed_names_are_the_saved_file_names_witness :
  Permutation (map fst bothSucceed) (entries demoItem)
  /\ Permutation
       (map download (@delivered_clicks _ TextInsertion_View bothSucceed))
       [ lit "a.pdf"; lit "b.txt" ].
Proof.
  assert (Hperm : Permutation (map fst bothSucceed) (entries demoItem))
    by apply perm_swap.
  split; [exact Hperm |].
  destruct (X18_listed_names_are_the_saved_file_names demoItem) as (H & _).
  apply (H TextInsertion.initial bothSucceed eq_refl Hperm).
  repeat constructor.
Defined.

(** ** Instances on the demo item *)

Lemma X8_enabled_button_is_fetch_or_submit_witness :
  TextInsertion.attachments fetchedState <> []
  /\ forall h label,
       In (Button false h label) (TextInsertion.render fetchedState) ->
       h = onDownloadAttachments.
Proof.
  assert (Hne : TextInsertion.attachments fetchedState <> [])
    by discriminate.
  split; [exact Hne |]. intros h label Hin.
  destruct X8_enabled_button_is_fetch_or_submit as (H & _).
  destruct (H demoItem fetchedState (TextInsertion.render fetchedState)
              eq_refl) as (Hbuttons & _).
  now apply (Hbuttons h label Hin).
Defined.

Lemma X11_fetch_flag_is_never_true_witness :
  ProcessEmailData.isAttachmentFetched submitState = Some false
  /\ ProcessEmailData.attachments submitState
     = map descriptor (entries demoItem).
Proof.
  destruct X11_fetch_flag_is_never_true as (_ & _ & H & _).
  destruct (H demoItem submitState submitState_user_reachable)
    as [[Hnone _] | Hsome].
  - discriminate Hnone.
  - exact Hsome.
Defined.
